(** * POC_ALP middleware: batch translation and metadata cleaning

    A shallow embedding of the TypeScript sources under [srv/src]:
    - [middleware/batch.middleware.ts]  ([parseBatchBody], [batchMiddleware],
      the exported [transformBatchResponse]),
    - [services/datasphere.service.ts]  ([processBatchRequest],
      [extractBatchPath], [transformBatchResponse], [getData] and the
      functions around it),
    - [controllers/datasphere.controller.ts] (the handlers of the routes),
    - [utils/xml-parser.ts]             (the metadata cleaning passes),
    - [errors/*.ts], [middleware/error.middleware.ts],
    - [types/env.types.ts], [config/app.config.ts] ([parseNumericEnv]).

    JavaScript strings are modelled by [string]: a sequence of code units,
    here restricted to the range 0..255.  Every string primitive of the
    language that the sources call ([trim], [split], [replace], ...) is given
    a definition in module [Js]. *)

From Stdlib Require Import List Ascii String ZArith Lia Bool Arith.
From Stdlib Require Import Decimal DecimalString.
From Stdlib Require DecimalPos.
Import ListNotations.
Local Open Scope list_scope.
Local Open Scope string_scope.

(* ================================================================== *)
(** ** JavaScript string primitives                                    *)
(* ================================================================== *)

Module Js.

Definition LF : ascii := "010"%char.
Definition CR : ascii := "013"%char.
Definition CRLF : string := String CR (String LF "").

Definition DQUOTE : ascii := Eval compute in ascii_of_nat 34.

(** Text with double quotes in it is written with apostrophes: [quoted s]
    is [s] with every apostrophe replaced by a double quote. *)
Fixpoint quoted (s : string) : string :=
  match s with
  | "" => ""
  | String c s' => String (if Ascii.eqb c "'" then DQUOTE else c) (quoted s')
  end.

(** White space as [String.prototype.trim] sees it, among the code units
    below 256: TAB, LF, VT, FF, CR, SPACE and NBSP. *)
Definition is_ws (c : ascii) : bool :=
  let n := nat_of_ascii c in
  ((9 <=? n)%nat && (n <=? 13)%nat) || (n =? 32)%nat || (n =? 160)%nat.

Fixpoint trimStart (s : string) : string :=
  match s with
  | "" => ""
  | String c s' => if is_ws c then trimStart s' else s
  end.

Fixpoint trimEnd (s : string) : string :=
  match s with
  | "" => ""
  | String c s' =>
      match trimEnd s' with
      | "" => if is_ws c then "" else String c ""
      | r => String c r
      end
  end.

Definition trim (s : string) : string := trimStart (trimEnd s).

(** Truthiness of a string value: the empty string is the only falsy one. *)
Definition truthy (s : string) : bool :=
  match s with "" => false | _ => true end.

Definition startsWith (s p : string) : bool := String.prefix p s.

Fixpoint includes (s p : string) : bool :=
  String.prefix p s ||
  match s with
  | "" => false
  | String _ s' => includes s' p
  end.

(** [consHead c l] puts [c] in front of the first string of [l]. *)
Definition consHead (c : ascii) (l : list string) : list string :=
  match l with
  | seg :: rest => String c seg :: rest
  | [] => [String c ""]
  end.

(** [s.split(sep)] for a non-empty literal separator.  [skip] counts the
    code units of a matched separator that are still to be passed over. *)
Fixpoint splitFrom (sep : string) (skip : nat) (s : string) : list string :=
  match s with
  | "" => [""]
  | String c s' =>
      match skip with
      | S k => splitFrom sep k s'
      | O =>
          if String.prefix sep s
          then "" :: splitFrom sep (String.length sep - 1) s'
          else consHead c (splitFrom sep 0 s')
      end
  end.

Definition split (s sep : string) : list string := splitFrom sep 0 s.

(** [s.split(/\r?\n/)]. *)
Fixpoint splitLines (s : string) : list string :=
  match s with
  | "" => [""]
  | String c s' =>
      if Ascii.eqb c LF then "" :: splitLines s'
      else
        match s' with
        | String c' s'' =>
            if Ascii.eqb c CR && Ascii.eqb c' LF
            then "" :: splitLines s''
            else consHead c (splitLines s')
        | "" => [String c ""]
        end
  end.

(** [lines.join(sep)]. *)
Definition join (sep : string) (l : list string) : string :=
  String.concat sep l.

(** [arr.slice(n)]. *)
Definition slice {A} (n : nat) (l : list A) : list A := skipn n l.

(** The [.] of a regular expression: any code unit but a line terminator. *)
Definition is_dot (c : ascii) : bool :=
  negb (Ascii.eqb c LF || Ascii.eqb c CR).

Fixpoint takeDots (s : string) : string :=
  match s with
  | "" => ""
  | String c s' => if is_dot c then String c (takeDots s') else ""
  end.

(** The first two elements of [line.split(/:(.+)/)]: the text before the
    leftmost colon that is followed by at least one [.] code unit, and the
    text captured by [(.+)]; the second component is [None] ([undefined])
    when there is no such colon. *)
Fixpoint splitColon (line : string) : string * option string :=
  match line with
  | "" => ("", None)
  | String c rest =>
      if Ascii.eqb c ":" && truthy (takeDots rest)
      then ("", Some (takeDots rest))
      else let '(k, v) := splitColon rest in (String c k, v)
  end.

(** [s] without its first [n] code units. *)
Fixpoint dropN (n : nat) (s : string) : string :=
  match n, s with
  | S k, String _ s' => dropN k s'
  | _, _ => s
  end.

(** [s.replace(pat, empty)] for a literal string pattern and the empty
    replacement: the first occurrence of [pat] is removed. *)
Fixpoint removeFirst (pat : string) (s : string) : string :=
  if String.prefix pat s then dropN (String.length pat) s
  else
    match s with
    | "" => ""
    | String c s' => String c (removeFirst pat s')
    end.

(** [s.substring(1)]. *)
Definition substring1 (s : string) : string := dropN 1 s.

(** Occurrence tests used to state where a separator can be found.
    [freeUntilEnd sep a]: in [a ++ sep] the separator occurs first at the
    end of [a].  [freeOf sep a]: [sep] does not occur in [a].
    [lacks c s]: the code unit [c] does not occur in [s]. *)
Fixpoint freeUntilEnd (sep a : string) : bool :=
  match a with
  | "" => true
  | String _ a' => negb (String.prefix sep (a ++ sep)) && freeUntilEnd sep a'
  end.

Fixpoint freeOf (sep a : string) : bool :=
  match a with
  | "" => true
  | String _ a' => negb (String.prefix sep a) && freeOf sep a'
  end.

Fixpoint lacks (c : ascii) (s : string) : bool :=
  match s with
  | "" => true
  | String d s' => negb (Ascii.eqb d c) && lacks c s'
  end.

(** [blank s]: [s] is white space only. *)
Fixpoint blank (s : string) : bool :=
  match s with
  | "" => true
  | String c s' => is_ws c && blank s'
  end.

End Js.

(* ================================================================== *)
(** ** middleware/batch.middleware.ts                                  *)
(* ================================================================== *)

Module Batch.
Import Js.

(** [Record<string, string>]: a plain object with string values.  The list
    holds its own properties in the order in which the language enumerates
    them: the names that are array indices first, in ascending order, then
    the other names in the order of their creation. *)
Definition Headers := list (string * string).

Fixpoint digitsToN (acc : N) (s : string) : option N :=
  match s with
  | "" => Some acc
  | String c s' =>
      let n := nat_of_ascii c in
      if (48 <=? n)%nat && (n <=? 57)%nat
      then digitsToN (acc * 10 + N.of_nat (n - 48)) s'
      else None
  end.

(** The array index that a property name denotes, if it denotes one: the
    name is the canonical decimal text of an integer from 0 to 2^32 - 2. *)
Definition arrayIndex (k : string) : option N :=
  match k with
  | "" => None
  | String c rest =>
      if Ascii.eqb c "0" then match rest with "" => Some 0%N | _ => None end
      else
        match digitsToN 0 k with
        | Some n => if (n <? 4294967295)%N then Some n else None
        | None => None
        end
  end.

Definition hasKey (h : Headers) (k : string) : bool :=
  existsb (fun kv => String.eqb (fst kv) k) h.

(** The value of an own property is replaced where the property stands. *)
Fixpoint replaceValue (h : Headers) (k v : string) : Headers :=
  match h with
  | [] => []
  | (k', v') :: h' =>
      if String.eqb k' k then (k', v) :: h' else (k', v') :: replaceValue h' k v
  end.

(** A new property whose name is the array index [n] is enumerated behind
    the smaller indices and before everything else. *)
Fixpoint insertIndex (h : Headers) (n : N) (k v : string) : Headers :=
  match h with
  | [] => [(k, v)]
  | (k', v') :: h' =>
      match arrayIndex k' with
      | Some m =>
          if (m <? n)%N then (k', v') :: insertIndex h' n k v
          else (k, v) :: h
      | None => (k, v) :: h
      end
  end.

(** [h[k] = v] on a plain object, for a string [v].  The name [__proto__]
    is the accessor of [Object.prototype]: its setter ignores a value that is
    no object, and no own property is made.  Any other name is an own
    property afterwards: one that exists keeps its place, a new one is put
    where the enumeration has it. *)
Definition setKey (h : Headers) (k v : string) : Headers :=
  if String.eqb k "__proto__" then h
  else if hasKey h k then replaceValue h k v
  else
    match arrayIndex k with
    | Some n => insertIndex h n k v
    | None => (h ++ [(k, v)])%list
    end.

Record BatchPart := { headers : Headers; body : string }.

(** The loop [bodyLines.forEach((line, i) => ...)]: the state is the header
    object and [bodyIndex]. *)
Definition headerStep (st : Headers * nat) (i : nat) (line : string)
  : Headers * nat :=
  let '(h, bodyIndex) := st in
  if negb (truthy (trim line)) then (h, i + 1)
  else
    match splitColon line with
    | (key, Some value) =>
        if truthy key && truthy value
        then (setKey h (trim key) (trim value), bodyIndex)
        else (h, bodyIndex)
    | (_, None) => (h, bodyIndex)
    end.

Fixpoint forEachLine (st : Headers * nat) (i : nat) (lines : list string)
  : Headers * nat :=
  match lines with
  | [] => st
  | line :: rest => forEachLine (headerStep st i line) (i + 1) rest
  end.

(** The callback of [parts.map]: [const [headers, ...bodyLines] =
    part.trim().split(/\r?\n/)]. *)
Definition partOfLines (bodyLines : list string) : BatchPart :=
  let '(h, bodyIndex) := forEachLine ([], 0) 0 bodyLines in
  {| headers := h; body := trim (join (String LF "") (slice bodyIndex bodyLines)) |}.

Definition parsePart (part : string) : BatchPart :=
  partOfLines (tl (splitLines (trim part))).

Definition keepSegment (boundaryEnd : string) (part : string) : bool :=
  truthy (trim part) && negb (String.eqb part boundaryEnd).

Definition parseBatchBody (body boundary : string) : list BatchPart :=
  let boundaryDelimiter := "--" ++ boundary in
  let boundaryEnd := "--" ++ boundary ++ "--" in
  let parts := filter (keepSegment boundaryEnd) (split body boundaryDelimiter) in
  map parsePart parts.

End Batch.

(* ================================================================== *)
(** ** The multipart envelope, as the batch protocol renders it        *)
(* ================================================================== *)

Module Envelope.
Import Js Batch.

(** A part of a batch: the lines of its header block, each a name and a
    value, and the lines of its body. *)
Record Part := { partHeaders : list (string * string); partBody : list string }.

Definition headerLine (h : string * string) : string :=
  fst h ++ ": " ++ snd h.

Fixpoint headerBlock (hs : list (string * string)) : string :=
  match hs with
  | [] => ""
  | h :: rest => headerLine h ++ CRLF ++ headerBlock rest
  end.

(** What follows the separator of a part: a line break, the header block,
    the blank line that ends it, the body and a line break. *)
Definition renderPart (p : Part) : string :=
  CRLF ++ headerBlock (partHeaders p) ++ CRLF ++ join CRLF (partBody p) ++ CRLF.

Fixpoint renderParts (b : string) (parts : list Part) : string :=
  match parts with
  | [] => ""
  | p :: rest => "--" ++ b ++ renderPart p ++ renderParts b rest
  end.

(** The body with separator [--b] and terminal marker [--b--]. *)
Definition render (b : string) (parts : list Part) : string :=
  renderParts b parts ++ "--" ++ b ++ "--".

Definition cleanText (s : string) : bool :=
  lacks LF s && lacks CR s.

(** A header line the parser can read back: no line break in it, a name
    that is not empty and has no colon. *)
Definition readableHeader (h : string * string) : bool :=
  cleanText (fst h) && cleanText (snd h) && lacks ":" (fst h) && truthy (fst h).

(** A body line the parser leaves in the body: no line break and no colon
    in it, and not blank. *)
Definition plainLine (l : string) : bool :=
  cleanText l && lacks ":" l && negb (blank l).

(** The parts for which the statement of the round trip is made: a header
    block of at least one line, a body of at least one line, and no
    separator inside the part. *)
Definition roundTrips (b : string) (p : Part) : bool :=
  match partHeaders p, partBody p with
  | h :: hs, _ :: _ =>
      cleanText (fst h) && cleanText (snd h)
      && forallb readableHeader hs
      && forallb plainLine (partBody p)
      && freeUntilEnd ("--" ++ b) (renderPart p)
  | _, _ => false
  end.

(** The header object read from header lines, a later line overriding an
    earlier one of the same name. *)
Definition headerObject (hs : list (string * string)) : Headers :=
  fold_left (fun h kv => setKey h (trim (fst kv)) (trim (snd kv))) hs [].

(** What the parser reports for a part: the header lines after the first,
    and the body with its lines joined by LF and trimmed. *)
Definition reported (p : Part) : BatchPart :=
  {| headers := headerObject (tl (partHeaders p));
     body := trim (join (String LF "") (partBody p)) |}.

(** The lines of a text after [trimEnd]: the last one is trimmed. *)
Fixpoint trimLast (ls : list string) : list string :=
  match ls with
  | [] => []
  | l :: rest =>
      match rest with
      | [] => [trimEnd l]
      | _ => l :: trimLast rest
      end
  end.


(** The part that the parser makes of what is left of the terminal
    marker. *)
Definition markerPart : BatchPart := {| headers := []; body := "" |}.

End Envelope.

(* ================================================================== *)
(** ** errors/base.error.ts, errors/http.errors.ts                     *)
(* ================================================================== *)

Module Errors.

Inductive ErrorCode :=
| INVALID_INPUT | MISSING_REQUIRED_FIELD | INVALID_FORMAT
| UNAUTHORIZED | INVALID_TOKEN | TOKEN_EXPIRED
| NETWORK_UNAVAILABLE | TIMEOUT | API_ERROR
| DB_CONNECTION_ERROR | QUERY_ERROR | RECORD_NOT_FOUND
| INVALID_OPERATION | RESOURCE_CONFLICT
| INTERNAL_ERROR | EXTERNAL_SERVICE_ERROR | CONFIGURATION_ERROR
| DATASPHERE_CONNECTION_ERROR | DATASPHERE_AUTH_ERROR | DATASPHERE_TIMEOUT
| DATASPHERE_INVALID_MODEL | DATASPHERE_BATCH_ERROR | DATASPHERE_METADATA_ERROR.

Definition errorCodeText (c : ErrorCode) : string :=
  match c with
  | INVALID_INPUT => "ERR_4000" | MISSING_REQUIRED_FIELD => "ERR_4001"
  | INVALID_FORMAT => "ERR_4002"
  | UNAUTHORIZED => "ERR_4100" | INVALID_TOKEN => "ERR_4101"
  | TOKEN_EXPIRED => "ERR_4102"
  | NETWORK_UNAVAILABLE => "ERR_4200" | TIMEOUT => "ERR_4201"
  | API_ERROR => "ERR_4202"
  | DB_CONNECTION_ERROR => "ERR_4300" | QUERY_ERROR => "ERR_4301"
  | RECORD_NOT_FOUND => "ERR_4302"
  | INVALID_OPERATION => "ERR_4400" | RESOURCE_CONFLICT => "ERR_4401"
  | INTERNAL_ERROR => "ERR_5000" | EXTERNAL_SERVICE_ERROR => "ERR_5001"
  | CONFIGURATION_ERROR => "ERR_5002"
  | DATASPHERE_CONNECTION_ERROR => "ERR_4600"
  | DATASPHERE_AUTH_ERROR => "ERR_4601" | DATASPHERE_TIMEOUT => "ERR_4602"
  | DATASPHERE_INVALID_MODEL => "ERR_4603"
  | DATASPHERE_BATCH_ERROR => "ERR_4604"
  | DATASPHERE_METADATA_ERROR => "ERR_4605"
  end.

(** The classes of the hierarchy; [PlainError] is the language's own
    [Error] (and its subclasses such as [TypeError]), which is no
    [BaseError]. *)
Inductive ErrorClass :=
| PlainError
| ValidationErrorC | AuthenticationErrorC | NetworkErrorC | DatabaseErrorC
| BusinessErrorC | NotFoundErrorC | InternalServerErrorC
| DatasphereConnectionErrorC | DatasphereAuthErrorC
| DatasphereTimeoutErrorC | DatasphereModelErrorC
| DatasphereBatchErrorC | DatasphereMetadataErrorC.

(** [extends]: the direct superclass below [BaseError]. *)
Definition superclass (c : ErrorClass) : option ErrorClass :=
  match c with
  | DatasphereConnectionErrorC | DatasphereTimeoutErrorC => Some NetworkErrorC
  | DatasphereAuthErrorC => Some AuthenticationErrorC
  | DatasphereModelErrorC => Some ValidationErrorC
  | DatasphereBatchErrorC | DatasphereMetadataErrorC => Some BusinessErrorC
  | _ => None
  end.

Definition classEqb (a b : ErrorClass) : bool :=
  match a, b with
  | PlainError, PlainError
  | ValidationErrorC, ValidationErrorC
  | AuthenticationErrorC, AuthenticationErrorC
  | NetworkErrorC, NetworkErrorC
  | DatabaseErrorC, DatabaseErrorC
  | BusinessErrorC, BusinessErrorC
  | NotFoundErrorC, NotFoundErrorC
  | InternalServerErrorC, InternalServerErrorC
  | DatasphereConnectionErrorC, DatasphereConnectionErrorC
  | DatasphereAuthErrorC, DatasphereAuthErrorC
  | DatasphereTimeoutErrorC, DatasphereTimeoutErrorC
  | DatasphereModelErrorC, DatasphereModelErrorC
  | DatasphereBatchErrorC, DatasphereBatchErrorC
  | DatasphereMetadataErrorC, DatasphereMetadataErrorC => true
  | _, _ => false
  end.

(** A value of the context bag ([Record<string, any>]): strings and
    booleans as they are; a structured value (the request, the parts, a
    time stamp object) is kept opaque. *)
Inductive ContextValue :=
| CtxString (s : string)
| CtxBool (b : bool)
| CtxOpaque.

Definition Context := list (string * ContextValue).

(** A thrown error.  [statusCode] and [errorCode] are the fields that
    [BaseError] adds; a [PlainError] has neither. *)
Record Error := {
  class : ErrorClass;
  message : string;
  statusCode : option Z;
  errorCode : option ErrorCode;
  context : option Context
}.

Definition instanceof (e : Error) (c : ErrorClass) : bool :=
  classEqb (class e) c ||
  match superclass (class e) with
  | Some p => classEqb p c
  | None => false
  end.

Definition isBaseError (e : Error) : bool :=
  negb (classEqb (class e) PlainError).

Definition newError (msg : string) : Error :=
  {| class := PlainError; message := msg; statusCode := None;
     errorCode := None; context := None |}.

Definition BaseError (c : ErrorClass) (msg : string) (status : Z)
    (code : ErrorCode) (ctx : option Context) : Error :=
  {| class := c; message := msg; statusCode := Some status;
     errorCode := Some code; context := ctx |}.

Definition ValidationErrorAs c msg code ctx := BaseError c msg 400 code ctx.
Definition AuthenticationErrorAs c msg code ctx := BaseError c msg 401 code ctx.
Definition NetworkErrorAs c msg code ctx := BaseError c msg 503 code ctx.
Definition BusinessErrorAs c msg code ctx := BaseError c msg 422 code ctx.

Definition ValidationError (msg : string) (code : ErrorCode)
    (ctx : option Context) : Error :=
  ValidationErrorAs ValidationErrorC msg code ctx.

Definition NotFoundError (msg : string) (code : ErrorCode)
    (ctx : option Context) : Error :=
  BaseError NotFoundErrorC msg 404 code ctx.

Definition InternalServerError (msg : string) (code : ErrorCode)
    (ctx : option Context) : Error :=
  BaseError InternalServerErrorC msg 500 code ctx.

(** [{ service: "Datasphere", retryable: r, ...context }]: the keys of the
    spread context override the two defaults. *)
Fixpoint setContext (c : Context) (k : string) (v : ContextValue) : Context :=
  match c with
  | [] => [(k, v)]
  | (k', v') :: c' =>
      if String.eqb k' k then (k', v) :: c' else (k', v') :: setContext c' k v
  end.

Definition datasphereContext (retryable : bool) (ctx : Context) : Context :=
  fold_left (fun acc kv => setContext acc (fst kv) (snd kv)) ctx
    [("service", CtxString "Datasphere"); ("retryable", CtxBool retryable)].

Definition DatasphereConnectionError (msg : string) (ctx : Context) : Error :=
  NetworkErrorAs DatasphereConnectionErrorC msg DATASPHERE_CONNECTION_ERROR
    (Some (datasphereContext true ctx)).

Definition DatasphereAuthError (msg : string) (ctx : Context) : Error :=
  AuthenticationErrorAs DatasphereAuthErrorC msg DATASPHERE_AUTH_ERROR
    (Some (datasphereContext false ctx)).

Definition DatasphereTimeoutError (msg : string) (ctx : Context) : Error :=
  NetworkErrorAs DatasphereTimeoutErrorC msg DATASPHERE_TIMEOUT
    (Some (datasphereContext true ctx)).

Definition DatasphereModelError (msg : string) (ctx : Context) : Error :=
  ValidationErrorAs DatasphereModelErrorC msg DATASPHERE_INVALID_MODEL
    (Some (datasphereContext false ctx)).

Definition DatasphereBatchError (msg : string) (ctx : Context) : Error :=
  BusinessErrorAs DatasphereBatchErrorC msg DATASPHERE_BATCH_ERROR
    (Some (datasphereContext true ctx)).

Definition DatasphereMetadataError (msg : string) (ctx : Context) : Error :=
  BusinessErrorAs DatasphereMetadataErrorC msg DATASPHERE_METADATA_ERROR
    (Some (datasphereContext true ctx)).

(** Code that may [throw]. *)
Inductive result (A : Type) :=
| Ok (a : A)
| Throw (e : Error).
Arguments Ok {A} a.
Arguments Throw {A} e.

Definition bind {A B} (r : result A) (k : A -> result B) : result B :=
  match r with
  | Ok a => k a
  | Throw e => Throw e
  end.

(** [try { r } catch (error) { handler(error) }]. *)
Definition tryCatch {A} (r : result A) (handler : Error -> result A)
  : result A :=
  match r with
  | Ok a => Ok a
  | Throw e => handler e
  end.

End Errors.

Declare Scope js_scope.
Notation "x <- r ;; k" := (Errors.bind r (fun x => k))
  (at level 61, r at next level, right associativity) : js_scope.

(* ================================================================== *)
(** ** middleware/error.middleware.ts                                  *)
(* ================================================================== *)

Module ErrorMiddleware.
Import Errors.

(** What [res.status(n).json(body)] sends. *)
Record ErrorBody := { code : string; bodyMessage : ContextValue }.
Record Response := { status : Z; json : ErrorBody }.

Definition ctxTruthy (v : ContextValue) : bool :=
  match v with
  | CtxString s => Js.truthy s
  | CtxBool b => b
  | CtxOpaque => true
  end.

Fixpoint lookupContext (c : Context) (k : string) : option ContextValue :=
  match c with
  | [] => None
  | (k', v) :: c' => if String.eqb k' k then Some v else lookupContext c' k
  end.

(** [err?.context?.originalError || err.message]. *)
Definition responseMessage (err : Error) : ContextValue :=
  match context err with
  | Some c =>
      match lookupContext c "originalError" with
      | Some v => if ctxTruthy v then v else CtxString (message err)
      | None => CtxString (message err)
      end
  | None => CtxString (message err)
  end.

(** [errorHandler(err, req, res, next)]: the request only feeds the unused
    [errorContext]; the answer is [res.status(500).json(errorResponse)]. *)
Definition errorHandler (err : Error) : Response :=
  {| status := 500;
     json := {| code := "500"; bodyMessage := responseMessage err |} |}.

End ErrorMiddleware.

(* ================================================================== *)
(** ** JavaScript values                                               *)
(* ================================================================== *)

(** Induction principles for the trees below, which are nested in lists
    and pairs. *)
Scheme All for list.
Scheme All for prod.

Module JsValue.
Import Js.

(** Numbers: [NaN] and the integers.  The sources only add and double
    numbers read from query parameters.  [numAdd] and [numMul] below are the
    exact operations on integers: they are those of the language as long as
    the operands and the result are below 2^53, from where on the numbers of
    the language round, and [decimal] is the printed text below 10^21.  The
    statements on the value of a count carry that bound. *)
Inductive number := NaN | Num (z : Z).

(** A value of type [any]: [VNull] stands for [null] and [undefined]; the
    fields of an object are kept in the order in which the language
    enumerates them. *)
Inductive value :=
| VNull
| VBool (b : bool)
| VNum (n : number)
| VStr (s : string)
| VArr (items : list value)
| VObj (fields : list (string * value)).

Definition isNaN (n : number) : bool :=
  match n with NaN => true | Num _ => false end.

Definition numTruthy (n : number) : bool :=
  match n with NaN => false | Num z => negb (z =? 0)%Z end.

Definition numAdd (a b : number) : number :=
  match a, b with Num x, Num y => Num (x + y) | _, _ => NaN end.

Definition numMul (a b : number) : number :=
  match a, b with Num x, Num y => Num (x * y) | _, _ => NaN end.

(** [Boolean(v)]. *)
Definition toBoolean (v : value) : bool :=
  match v with
  | VNull => false
  | VBool b => b
  | VNum n => numTruthy n
  | VStr s => truthy s
  | VArr _ | VObj _ => true
  end.

(** [obj[key]]; [None] is [undefined]. *)
Fixpoint getField (fields : list (string * value)) (key : string)
  : option value :=
  match fields with
  | [] => None
  | (k, v) :: rest => if String.eqb k key then Some v else getField rest key
  end.

(** [obj[key] = v]. *)
Fixpoint setField (fields : list (string * value)) (key : string) (v : value)
  : list (string * value) :=
  match fields with
  | [] => [(key, v)]
  | (k, x) :: rest =>
      if String.eqb k key then (k, v) :: rest
      else (k, x) :: setField rest key v
  end.

(** The decimal text of an integer, as template literals and
    [JSON.stringify] print it. *)
Definition decimal (z : Z) : string :=
  NilZero.string_of_int (Z.to_int z).

Definition digitsValue (d : string) : number :=
  match d with
  | "" => NaN
  | _ =>
      match NilEmpty.uint_of_string d with
      | Some u => Num (Z.of_uint u)
      | None => NaN
      end
  end.

(** [Number(v)] for an absent value ([undefined]) and for a string holding
    an optionally signed decimal integer literal, white space around it
    allowed, or no numeric literal at all.  The other numeric literals of the
    language (fractions, exponents, radix prefixes, [Infinity]) denote numbers
    that [number] does not have, or integers that are not read here ([1e1],
    [0x10]): the statements on the value of a count are made for the decimal
    texts of natural numbers and for texts that are no numeric literal. *)
Definition Number (v : option string) : number :=
  match v with
  | None => NaN
  | Some s =>
      match trim s with
      | "" => Num 0
      | String c d =>
          if Ascii.eqb c "-" then
            match digitsValue d with Num z => Num (- z) | NaN => NaN end
          else if Ascii.eqb c "+" then digitsValue d
          else digitsValue (String c d)
      end
  end.

Definition hexDigit (n : nat) : ascii :=
  nth n (list_ascii_of_string "0123456789abcdef") "0"%char.

(** The escape of one code unit inside a JSON string. *)
Definition jsonEscape (c : ascii) : string :=
  let n := nat_of_ascii c in
  if (n =? 34)%nat then String "\" (String DQUOTE "")
  else if (n =? 92)%nat then "\\"
  else if (n =? 8)%nat then "\b"
  else if (n =? 9)%nat then "\t"
  else if (n =? 10)%nat then "\n"
  else if (n =? 12)%nat then "\f"
  else if (n =? 13)%nat then "\r"
  else if (n <? 32)%nat
       then "\u00" ++ String (hexDigit (n / 16)) (String (hexDigit (n mod 16)) "")
  else String c "".

Fixpoint jsonQuoteBody (s : string) : string :=
  match s with
  | "" => ""
  | String c s' => jsonEscape c ++ jsonQuoteBody s'
  end.

Definition jsonQuote (s : string) : string :=
  String DQUOTE (jsonQuoteBody s ++ String DQUOTE "").

(** [JSON.stringify(v)], without indentation. *)
Fixpoint JSON_stringify (v : value) : string :=
  match v with
  | VNull => "null"
  | VBool true => "true"
  | VBool false => "false"
  | VNum NaN => "null"
  | VNum (Num z) => decimal z
  | VStr s => jsonQuote s
  | VArr items => "[" ++ join "," (map JSON_stringify items) ++ "]"
  | VObj fields =>
      "{" ++ join ","
               (map (fun kv => jsonQuote (fst kv) ++ ":" ++ JSON_stringify (snd kv))
                    fields) ++ "}"
  end.

End JsValue.

(* ================================================================== *)
(** ** The URL primitives used by [extractBatchPath]                   *)
(* ================================================================== *)

Module Url.
Import Js.

Definition hexValue (c : ascii) : option nat :=
  let n := nat_of_ascii c in
  if (48 <=? n)%nat && (n <=? 57)%nat then Some (n - 48)
  else if (65 <=? n)%nat && (n <=? 70)%nat then Some (n - 55)
  else if (97 <=? n)%nat && (n <=? 102)%nat then Some (n - 87)
  else None.

Definition upperHexDigit (n : nat) : ascii :=
  nth n (list_ascii_of_string "0123456789ABCDEF") "0"%char.

(** Percent-decoding of the URL standard: a [%] that is not followed by two
    hexadecimal digits is left as it is.  An escaped byte below 128 is the
    code unit of that value.  The bytes from 128 on are kept here as code
    units of their value, where the parser of [URLSearchParams] goes on to
    read them as UTF-8; the statements on [extractBatchPath] are made for
    texts without [%], on which the two agree. *)
Fixpoint percentDecode (s : string) : string :=
  match s with
  | "" => ""
  | String c s' =>
      if Ascii.eqb c "%" then
        match s' with
        | String h (String l s'') =>
            match hexValue h, hexValue l with
            | Some a, Some b => String (ascii_of_nat (16 * a + b)) (percentDecode s'')
            | _, _ => String c (percentDecode s')
            end
        | _ => String c (percentDecode s')
        end
      else String c (percentDecode s')
  end.

Fixpoint plusToSpace (s : string) : string :=
  match s with
  | "" => ""
  | String c s' => String (if Ascii.eqb c "+" then " "%char else c) (plusToSpace s')
  end.

(** The name and the value of one [name=value] sequence: cut at the first
    [=]; the value is empty when there is none. *)
Fixpoint cutAtEquals (s : string) : string * string :=
  match s with
  | "" => ("", "")
  | String c s' =>
      if Ascii.eqb c "=" then ("", s')
      else let '(n, v) := cutAtEquals s' in (String c n, v)
  end.

Definition parsePair (seq : string) : string * string :=
  let '(n, v) := cutAtEquals seq in
  (percentDecode (plusToSpace n), percentDecode (plusToSpace v)).

(** [new URLSearchParams(init)] for a string: a leading [?] is dropped and
    the rest parsed as [application/x-www-form-urlencoded]. *)
Definition URLSearchParams (init : string) : list (string * string) :=
  let input := match init with
               | String c rest => if Ascii.eqb c "?" then rest else init
               | "" => ""
               end in
  map parsePair (filter truthy (split input "&")).

(** The code units the urlencoded serializer leaves as they are: ASCII
    letters and digits and [*], [-], [.], [_]. *)
Definition urlencodedSafe (c : ascii) : bool :=
  let n := nat_of_ascii c in
  ((48 <=? n)%nat && (n <=? 57)%nat) || ((65 <=? n)%nat && (n <=? 90)%nat)
  || ((97 <=? n)%nat && (n <=? 122)%nat)
  || (n =? 42)%nat || (n =? 45)%nat || (n =? 46)%nat || (n =? 95)%nat.

(** The UTF-8 bytes of a code unit, which here is a code point below 256:
    one byte below 128, two bytes from there on. *)
Definition utf8 (c : ascii) : list nat :=
  let n := nat_of_ascii c in
  if (n <? 128)%nat then [n] else [192 + n / 64; 128 + n mod 64]%nat.

Definition percentByte (b : nat) : string :=
  String "%" (String (upperHexDigit (b / 16)) (String (upperHexDigit (b mod 16)) "")).

Fixpoint urlencode (s : string) : string :=
  match s with
  | "" => ""
  | String c s' =>
      (if urlencodedSafe c then String c ""
       else if (nat_of_ascii c =? 32)%nat then "+"
       else String.concat "" (map percentByte (utf8 c)))
      ++ urlencode s'
  end.

(** [params.toString()]. *)
Definition toString (params : list (string * string)) : string :=
  join "&" (map (fun nv => urlencode (fst nv) ++ "=" ++ urlencode (snd nv)) params).

(** [decodeURIComponent(s)]; [None] is the [URIError].  An escape is [%]
    and two hexadecimal digits, and the bytes of the escapes have to be
    well-formed UTF-8: a byte below 128 stands alone; the lead bytes C2 and
    C3 are followed by the escape of one continuation byte, 80 to BF, and
    the two give a code point from 128 to 255.  Every other byte from 128 on
    is refused here: a continuation byte in the place of a lead byte, the
    lead bytes C0, C1 and F5 to FF, a lead byte without its continuation
    bytes, which are the [URIError] of the language, and also the lead bytes
    C4 to F4, whose sequences the language decodes to code points from 256
    on, which the strings of this development do not hold; [toString] prints
    no such sequence. *)
Fixpoint decodeURIComponent (s : string) : option string :=
  match s with
  | "" => Some ""
  | String c s' =>
      if Ascii.eqb c "%" then
        match s' with
        | String h (String l s'') =>
            match hexValue h, hexValue l with
            | Some a, Some b =>
                let byte := (16 * a + b)%nat in
                if (byte <? 128)%nat
                then option_map (String (ascii_of_nat byte)) (decodeURIComponent s'')
                else if (194 <=? byte)%nat && (byte <=? 195)%nat then
                  match s'' with
                  | String p (String h2 (String l2 s3)) =>
                      if Ascii.eqb p "%" then
                        match hexValue h2, hexValue l2 with
                        | Some a2, Some b2 =>
                            let next := (16 * a2 + b2)%nat in
                            if (128 <=? next)%nat && (next <=? 191)%nat
                            then option_map
                                   (String (ascii_of_nat
                                              ((byte - 192) * 64 + (next - 128))))
                                   (decodeURIComponent s3)
                            else None
                        | _, _ => None
                        end
                      else None
                  | _ => None
                  end
                else None
            | _, _ => None
            end
        | _ => None
        end
      else option_map (String c) (decodeURIComponent s')
  end.

End Url.

(* ================================================================== *)
(** ** services/datasphere.service.ts                                  *)
(* ================================================================== *)

Module Service.
Import Js JsValue Errors Batch.
Local Open Scope js_scope.

(** The fields of the Express request that the service reads.  [query]
    is the object [req.query] that Express makes of a query string in which
    every parameter is given once: its properties, each with a string as its
    value (a parameter that is repeated or has brackets is handed over as an
    array or an object, which has no place here).  [batch] holds the parts
    that the batch middleware attached, if it ran. *)
Record Request := {
  path : string;
  query : list (string * string);
  batch : option (list BatchPart);
  rawBody : string
}.

Record BatchResponse := { id : string; responseBody : string }.

(** The answer of the backend call: [response.data]. *)
Record HttpResponse := { data : value }.

(** [req.query[name]]; [None] is [undefined]. *)
Fixpoint queryParam (q : list (string * string)) (name : string)
  : option string :=
  match q with
  | [] => None
  | (k, v) :: rest => if String.eqb k name then Some v else queryParam rest name
  end.

Definition typeError (msg : string) : Error := newError msg.

(** [transformBatchResponse(requestBody, responseData)]; [now] is the value
    of [Date.now()]. *)
Definition transformBatchResponse (requestBody responseData : string) (now : N)
  : BatchResponse :=
  let batchId := "batch_" ++ decimal (Z.of_N now) in
  let responseBody :=
    "--" ++ batchId ++ CRLF ++ "Content-Type: application/http" ++ CRLF ++ CRLF
    ++ "HTTP/1.1 200 OK" ++ CRLF ++ "Content-Type: application/json" ++ CRLF
    ++ CRLF ++ responseData ++ CRLF ++ "--" ++ batchId ++ "--" in
  {| id := batchId; responseBody := responseBody |}.

(** [extractBatchPath(req)]. *)
Definition extractBatchPath (req : Request) : result string :=
  tryCatch
    (part <- match batch req with
             | Some (p :: _) => Ok p
             | _ => Throw (typeError "Cannot read properties of undefined")
             end ;;
     let batchBody := body part in
     afterGet <- match nth_error (split batchBody "GET") 1 with
                 | Some seg => Ok seg
                 | None => Throw (typeError "Cannot read properties of undefined")
                 end ;;
     let path_ := trim (hd "" (split afterGet "HTTP")) in
     let rootPath := removeFirst "$batch" (removeFirst "datasphere/" (path req)) in
     match Url.decodeURIComponent
             (Url.toString (Url.URLSearchParams (rootPath ++ path_))) with
     | Some decoded => Ok (substring1 decoded)
     | None => Throw (newError "URI malformed")
     end)
    (fun _ =>
       Throw (ValidationError "Failed to extract batch path from request"
                INVALID_FORMAT
                (Some [("request", CtxString (path req)); ("batch", CtxOpaque)]))).

(** [Number(x) || 0]. *)
Definition orZero (n : number) : number :=
  if numTruthy n then n else Num 0.

Definition paginationContext (q : list (string * string)) : Context :=
  ((match queryParam q "$skip" with Some s => [("skip", CtxString s)] | None => [] end)
   ++ (match queryParam q "$top" with Some s => [("top", CtxString s)] | None => [] end)
   ++ [("suggestion",
        CtxString "Ensure $skip and $top query parameters are valid numbers")])%list.

(** The guard [if (isNaN(skip) || isNaN(top)) throw ...]. *)
Definition paginationGuard (q : list (string * string)) (skip top : number)
  : result unit :=
  if isNaN skip || isNaN top
  then Throw (DatasphereBatchError "Invalid pagination parameters"
                (paginationContext q))
  else Ok tt.

(** Lines 137-149 of [processBatchRequest]: the count for pagination. *)
Definition paginationCount (q : list (string * string)) : result number :=
  let skip := orZero (Number (queryParam q "$skip")) in
  let top := orZero (Number (queryParam q "$top")) in
  _ <- paginationGuard q skip top ;;
  Ok (numAdd skip (numMul top (Num 2))).

(** How the message of a [TypeError] of Node names a primitive value. *)
Definition primitiveText (d : value) : string :=
  match d with
  | VStr s => "string '" ++ s ++ "'"
  | VNum NaN => "number 'NaN'"
  | VNum (Num z) => "number '" ++ decimal z ++ "'"
  | VBool true => "boolean 'true'"
  | VBool false => "boolean 'false'"
  | _ => ""
  end.

(** [result.data["@odata.count"] = count]: a property of an object is set;
    on an array the property is set but is no element (and [JSON.stringify]
    does not print it); on a primitive the assignment throws a [TypeError]
    in a module, which is strict code.  For [VNull] the message is the one
    for [null]. *)
Definition setCount (d : value) (count : number) : result value :=
  match d with
  | VObj fields => Ok (VObj (setField fields "@odata.count" (VNum count)))
  | VArr items => Ok (VArr items)
  | VNull =>
      Throw (typeError "Cannot set properties of null (setting '@odata.count')")
  | _ =>
      Throw (typeError
               ("Cannot create property '@odata.count' on " ++ primitiveText d))
  end.

Section ProcessBatch.

(** The backend call [getData(req, path)] of the same class, taken as
    given: it resolves the destination, performs the GET through the HTTP
    client and maps the failures of the client to the errors of the
    hierarchy.  [Ok None] is a call that returned [undefined], as it does
    after a failure that is no [AxiosError]. *)
Variable getData : Request -> string -> result (option HttpResponse).

Definition processBatchRequest (req : Request) (now : N)
  : result BatchResponse :=
  tryCatch
    (_ <- match batch req with
          | Some (_ :: _) => Ok tt
          | _ => Throw (ValidationError "Invalid batch request format"
                          INVALID_FORMAT (Some [("batch", CtxOpaque)]))
          end ;;
     path_ <- extractBatchPath req ;;
     result_ <- getData req path_ ;;
     d <- match result_ with
          | Some r =>
              if toBoolean (data r) then Ok (data r)
              else Throw (DatasphereBatchError "Batch processing returned no data"
                            [("path", CtxString path_); ("timestamp", CtxOpaque);
                             ("suggestion", CtxString
                                "Verify that the requested data exists and is accessible")])
          | None =>
              Throw (DatasphereBatchError "Batch processing returned no data"
                       [("path", CtxString path_); ("timestamp", CtxOpaque);
                        ("suggestion", CtxString
                           "Verify that the requested data exists and is accessible")])
          end ;;
     count <- paginationCount (query req) ;;
     d' <- setCount d count ;;
     Ok (transformBatchResponse (rawBody req) (JSON_stringify d') now))
    (fun error =>
       if isBaseError error then Throw error
       else Throw (DatasphereBatchError "Failed to process batch request"
                     [("originalError", CtxString (message error));
                      ("timestamp", CtxOpaque);
                      ("suggestion", CtxString
                         "Please check the request format and try again")])).

End ProcessBatch.

End Service.


(* ================================================================== *)
(** ** utils/xml-parser.ts                                             *)
(* ================================================================== *)

Module Xml.
Import Js Errors.
Local Open Scope js_scope.

(** The attribute object [$] of an element: names to string values. *)
Definition Attrs := list (string * string).

(** The trees that [parseStringPromise] of xml2js returns and that the
    passes return.  An element is an object with its attributes under [$]
    (when it has any), its text under [_] (when it has attributes or children
    besides) and one field per child name, whose value is an array of nodes;
    an element with neither attributes nor children is its text, a string.
    [Null] is what a removed node leaves behind.  [attrs] is the attribute
    object, which [Object.entries] lists first; its values are strings, so a
    pass that visits it finds nothing in it and leaves it as it is.  [fields]
    holds the other keys in insertion order.  The passes update the objects
    in place; no node of a parsed tree is shared, so a pass is described by
    the tree it leaves. *)
Inductive node :=
| Null
| Text (s : string)
| Nodes (items : list node)
| Element (attrs : option Attrs) (fields : list (string * node)).

Fixpoint attr (a : Attrs) (name : string) : option string :=
  match a with
  | [] => None
  | (k, v) :: rest => if String.eqb k name then Some v else attr rest name
  end.

(** [obj.$?.name] on an element. *)
Definition attrOf (attrs : option Attrs) (name : string) : option string :=
  match attrs with
  | Some a => attr a name
  | None => None
  end.

Fixpoint field (fields : list (string * node)) (name : string) : option node :=
  match fields with
  | [] => None
  | (k, v) :: rest => if String.eqb k name then Some v else field rest name
  end.

(** [Boolean(v)]. *)
Definition toBoolean (v : node) : bool :=
  match v with
  | Null => false
  | Text s => truthy s
  | Nodes _ | Element _ _ => true
  end.

Definition optTruthy (v : option node) : bool :=
  match v with Some x => toBoolean x | None => false end.

Definition strTruthy (v : option string) : bool :=
  match v with Some s => truthy s | None => false end.

(** [value && typeof value === "object"]. *)
Definition isObject (v : node) : bool :=
  match v with
  | Nodes _ | Element _ _ => true
  | _ => false
  end.

Fixpoint afterLastSlash (s : string) : option string :=
  match s with
  | "" => None
  | String c s' =>
      match afterLastSlash s' with
      | Some r => Some r
      | None => if Ascii.eqb c "/" then Some s' else None
      end
  end.

Definition extractLastSegments (paths : list string) : list string :=
  map (fun path => match afterLastSlash path with
                   | Some r => r
                   | None => path
                   end) paths.

(** [obj.$?.Target && obj.Annotation]. *)
Definition isAnnotationGroup (attrs : option Attrs) (fields : list (string * node))
  : bool :=
  strTruthy (attrOf attrs "Target") && optTruthy (field fields "Annotation").

Fixpoint findAllAnnotations (obj : node) : list node :=
  match obj with
  | Nodes items => flat_map findAllAnnotations items
  | Element attrs fields =>
      ((if isAnnotationGroup attrs fields then [obj] else [])
       ++ flat_map (fun kv => if isObject (snd kv)
                              then findAllAnnotations (snd kv) else [])
                   fields)%list
  | _ => []
  end.

(** [ann?.$?.Term === "Common.Label"]. *)
Definition hasTerm (term : string) (ann : node) : bool :=
  match ann with
  | Element attrs _ =>
      match attrOf attrs "Term" with
      | Some t => String.eqb t term
      | None => false
      end
  | _ => false
  end.

(** [Array.isArray(x) ? x : [x]]. *)
Definition asArray (v : node) : list node :=
  match v with
  | Nodes items => items
  | _ => [v]
  end.

Definition targetOf (annotationsElement : node) : option string :=
  match annotationsElement with
  | Element attrs _ => attrOf attrs "Target"
  | _ => None
  end.

Definition annotationsOf (annotationsElement : node) : list node :=
  match annotationsElement with
  | Element _ fields =>
      match field fields "Annotation" with
      | Some v => asArray v
      | None => [Null]
      end
  | _ => [Null]
  end.

Definition hasCommonLabel (annotationsElement : node) : bool :=
  existsb (hasTerm "Common.Label") (annotationsOf annotationsElement).

(** The body of [allAnnotations.forEach]: the targets pushed for one
    element. *)
Definition targetWithoutLabel (annotationsElement : node) : list string :=
  match targetOf annotationsElement with
  | Some target =>
      if negb (truthy target) || negb (includes target "/_0") then []
      else if hasCommonLabel annotationsElement then [] else [target]
  | None => []
  end.

Definition targetsWithoutLabel (parsed : node) : list string :=
  flat_map targetWithoutLabel (findAllAnnotations parsed).

(** [obj.$?.Term === "Common.Label" &&
     obj.$.String?.startsWith("(obsolete)")]. *)
Definition isObsolete (attrs : option Attrs) : bool :=
  match attrOf attrs "Term" with
  | Some t =>
      String.eqb t "Common.Label" &&
      match attrOf attrs "String" with
      | Some s => startsWith s "(obsolete)"
      | None => false
      end
  | None => false
  end.

Fixpoint removeObsolete (obj : node) : node :=
  match obj with
  | Nodes items => Nodes (filter toBoolean (map removeObsolete items))
  | Element attrs fields =>
      if isObsolete attrs then Null
      else Element attrs (map (fun kv => (fst kv, removeObsolete (snd kv))) fields)
  | _ => obj
  end.

(** [obj.$?.Name?.startsWith("_")]. *)
Definition isUnderscored (attrs : option Attrs) : bool :=
  match attrOf attrs "Name" with
  | Some n => startsWith n "_"
  | None => false
  end.

Fixpoint removeUnderscores (obj : node) : node :=
  match obj with
  | Nodes items => Nodes (filter toBoolean (map removeUnderscores items))
  | Element attrs fields =>
      if isUnderscored attrs then Null
      else Element attrs (map (fun kv => (fst kv, removeUnderscores (snd kv))) fields)
  | _ => obj
  end.

(** The longest prefix of [s] without the code unit [stop]. *)
Fixpoint upTo (stop : ascii) (s : string) : string :=
  match s with
  | "" => ""
  | String c s' => if Ascii.eqb c stop then "" else String c (upTo stop s')
  end.

(** The offset of the last occurrence of [pat] in [run]. *)
Fixpoint lastOccurrence (pat run : string) : option nat :=
  match run with
  | "" => None
  | String _ run' =>
      match lastOccurrence pat run' with
      | Some k => Some (S k)
      | None => if String.prefix pat run then Some 0 else None
      end
  end.

Definition annotationOpen : string := "<Annotation".
Definition pathZero : string := quoted "Path='0".

(** A match of the regular expression of [replaceZeroInPath] at the start of
    [s]: [<Annotation], any code units but [>], then [Path=], a double quote
    and [0]; the result is the offset in [s] of that [0].  The repetition is
    greedy, so of the candidates before the next [>] the last one is
    taken. *)
Definition matchZeroPath (s : string) : option nat :=
  if String.prefix annotationOpen s then
    match lastOccurrence pathZero
            (upTo ">" (dropN (String.length annotationOpen) s)) with
    | Some k => Some (String.length annotationOpen + k + (String.length pathZero - 1))
    | None => None
    end
  else None.

(** The scan of the global [xml.replace]: every match has [_] put before
    its final [0].  [pending = Some n] inside a match, [n] code units before
    that [0]. *)
Fixpoint replaceFrom (pending : option nat) (s : string) : string :=
  match s with
  | "" => ""
  | String c s' =>
      match pending with
      | Some (S n) => String c (replaceFrom (Some n) s')
      | Some O => String "_" (String c (replaceFrom None s'))
      | None =>
          match matchZeroPath s with
          | Some n => String c (replaceFrom (Some (n - 1)) s')
          | None => String c (replaceFrom None s')
          end
      end
  end.

Definition replaceZeroInPath (xml : string) : string := replaceFrom None xml.

Definition nameOpen : string := quoted "Name='".

(** The capture of the first match of the [Name] pattern in [s]: [Name=],
    a double quote, one or more code units that are no double quote (the
    capture), and a double quote. *)
Fixpoint matchName (s : string) : option string :=
  match s with
  | "" => None
  | String _ s' =>
      if String.prefix nameOpen s then
        let rest := dropN (String.length nameOpen) s in
        let name := upTo DQUOTE rest in
        if truthy name && String.prefix (String DQUOTE "") (dropN (String.length name) rest)
        then Some name
        else matchName s'
      else matchName s'
  end.

Definition has (set : list string) (x : string) : bool :=
  existsb (String.eqb x) set.

(** The callback of [filter((line, index, lines) => ...)]. *)
Definition keepLine (removeSet : list string) (count index : nat) (line : string)
  : bool :=
  let trimmedLine := trim line in
  if startsWith trimmedLine "<Property" &&
     match matchName trimmedLine with
     | Some name => has removeSet name
     | None => false
     end
  then false
  else truthy trimmedLine || ((0 <? index)%nat && (index <? count - 1)%nat).

Fixpoint filterIndexed (keep : nat -> string -> bool) (index : nat)
    (lines : list string) : list string :=
  match lines with
  | [] => []
  | line :: rest =>
      if keep index line then line :: filterIndexed keep (index + 1) rest
      else filterIndexed keep (index + 1) rest
  end.

Definition removePropertyNodeByName (xmlContent : string)
    (namesToRemove : list string) : string :=
  let lines := split xmlContent (String LF "") in
  join (String LF "")
       (filterIndexed (keepLine namesToRemove (List.length lines)) 0 lines).

(** [String(error)] for an [Error]. *)
Definition errorText (e : Error) : string := "Error: " ++ message e.

Section Library.

(** The two entry points of xml2js that the module calls:
    [parseStringPromise(text)], which may reject, and
    [new Builder().buildObject(tree)]. *)
Variable parseStringPromise : string -> result node.
Variable buildObject : node -> string.

Definition filterTargetsWithoutLabel (xmlContent : string)
  : result (list string) :=
  tryCatch
    (_ <- (if truthy xmlContent then Ok tt
           else Throw (newError "Invalid XML content provided")) ;;
     parsed <- parseStringPromise xmlContent ;;
     _ <- (if isObject parsed then Ok tt
           else Throw (newError "Failed to parse XML content")) ;;
     Ok (targetsWithoutLabel parsed))
    (fun error =>
       Throw (newError ("Error filtering XML: " ++
                        (if truthy (message error) then message error
                         else "Unknown error")))).

Definition removePrimarykeys (xmlContent : string) : result string :=
  targets <- filterTargetsWithoutLabel xmlContent ;;
  let results := extractLastSegments targets in
  Ok (removePropertyNodeByName xmlContent results).

(** [cleanXML] up to the tree that is handed to the builder. *)
Definition cleanedTree (xmlContent : string) : result node :=
  let xmlWithFixedPaths := replaceZeroInPath xmlContent in
  xmlWithoutPrimarykeys <- removePrimarykeys xmlWithFixedPaths ;;
  parsedXml <- parseStringPromise xmlWithoutPrimarykeys ;;
  Ok (removeObsolete parsedXml).

Definition cleanXML (xmlContent : string) : result string :=
  tryCatch
    (cleaned <- cleanedTree xmlContent ;;
     Ok (buildObject cleaned))
    (fun error => Throw (newError ("Error cleaning XML: " ++ errorText error))).

End Library.

End Xml.

(* ================================================================== *)
(** ** Sample requests and documents                                   *)
(* ================================================================== *)

Module Samples.
Import Js JsValue Errors Batch Service Xml.
Local Open Scope list_scope.
Local Open Scope string_scope.

(** The happy path of the translator: a batch with one GET, the backend
    answering with three values, [$skip=0&$top=10]. *)
Definition happyRequest : Request :=
  {| path := "/foo/$batch";
     query := [("$skip", "0"); ("$top", "10")];
     batch := Some [ {| headers := []; body := "GET Sales_Demo/Items?a=1 HTTP/1.1" |} ];
     rawBody := "" |}.

(** The same request with a [$skip] that is no number. *)
Definition nonnumericRequest : Request :=
  {| path := "/foo/$batch";
     query := [("$skip", "abc")];
     batch := Some [ {| headers := []; body := "GET Sales_Demo/Items?a=1 HTTP/1.1" |} ];
     rawBody := "" |}.

Definition happyData : list (string * value) :=
  [("value", VArr [VNum (Num 1); VNum (Num 2); VNum (Num 3)])].

Definition happyNow : N := 1700000000000%N.

(** The batch body of the happy path, under the boundary
    [batch_id-123-456]. *)
Definition happyBoundary : string := "batch_id-123-456".




Definition happyBody : string :=
  "--batch_id-123-456" ++ CRLF
  ++ "Content-Type: application/http" ++ CRLF
  ++ "Content-Transfer-Encoding: binary" ++ CRLF
  ++ CRLF
  ++ "GET Sales_Demo/Items HTTP/1.1" ++ CRLF
  ++ "--batch_id-123-456--".

(** A batch request whose first part embeds
    [GET Consumption/Model?x=1 HTTP/1.1], followed by [rest]. *)
Definition modelRequest (requestPath rest : string) (others : list BatchPart)
  : Request :=
  {| path := requestPath;
     query := [];
     batch := Some ({| headers := [];
                       body := "GET Consumption/Model?x=1 HTTP/1.1" ++ CRLF ++ rest |}
                    :: others);
     rawBody := "" |}.

(** *** Metadata documents

    xml2js is no part of the sources.  Where a statement needs its result on
    a document, the documents it is used on are listed with the tree that
    [parseStringPromise] gives for the text (default options: attributes
    under [$], children in arrays, the root element under its name) and the
    text that [buildObject] gives for the tree (the XML declaration, one
    element per line, two spaces of indentation, empty elements closed in
    place). *)

Fixpoint eqbList {A : Type} (eqb : A -> A -> bool) (l1 l2 : list A) : bool :=
  match l1, l2 with
  | [], [] => true
  | x :: l1', y :: l2' => eqb x y && eqbList eqb l1' l2'
  | _, _ => false
  end.

Definition eqbAttrs (a b : option Attrs) : bool :=
  match a, b with
  | None, None => true
  | Some x, Some y =>
      eqbList (fun p q => String.eqb (fst p) (fst q) && String.eqb (snd p) (snd q)) x y
  | _, _ => false
  end.

Fixpoint eqbNode (a b : node) : bool :=
  match a, b with
  | Null, Null => true
  | Text s, Text t => String.eqb s t
  | Nodes xs, Nodes ys => eqbList eqbNode xs ys
  | Element a1 f1, Element a2 f2 =>
      eqbAttrs a1 a2 &&
      eqbList (fun p q => String.eqb (fst p) (fst q) && eqbNode (snd p) (snd q)) f1 f2
  | _, _ => false
  end.

Definition parseFrom (table : list (string * node)) (text : string) : result node :=
  match find (fun entry => String.eqb (fst entry) text) table with
  | Some entry => Ok (snd entry)
  | None => Throw (newError "Unexpected document")
  end.

Definition buildFrom (table : list (node * string)) (tree : node) : string :=
  match find (fun entry => eqbNode (fst entry) tree) table with
  | Some entry => snd entry
  | None => ""
  end.

Definition xmlDeclaration : string :=
  quoted "<?xml version='1.0' encoding='UTF-8' standalone='yes'?>".

Definition NL : string := String LF "".






(** An annotation with two attributes that end in [Path] and hold [0]. *)
Definition zeroXml : string :=
  quoted "<Annotation Term='UI.Hidden' PropertyPath='0' Path='0'/>".

Definition zeroOnce : string :=
  quoted "<Annotation Term='UI.Hidden' PropertyPath='0' Path='_0'/>".

Definition zeroTwice : string :=
  quoted "<Annotation Term='UI.Hidden' PropertyPath='_0' Path='_0'/>".

Definition zeroTree (propertyPath : string) : node :=
  Element None
    [("Annotation",
      Element (Some [("Term", "UI.Hidden"); ("PropertyPath", propertyPath);
                     ("Path", "_0")]) [])].

Definition zeroParse :=
  parseFrom [(zeroOnce, zeroTree "0");
             (xmlDeclaration ++ NL ++ zeroTwice, zeroTree "_0")].

Definition zeroBuild :=
  buildFrom [(zeroTree "0", xmlDeclaration ++ NL ++ zeroOnce);
             (zeroTree "_0", xmlDeclaration ++ NL ++ zeroTwice)].

(** Annotations of a property, one of them an obsolete label. *)
Definition obsoleteXml : string :=
  quoted "<Annotations Target='S.E/P'><Annotation Term='Common.Label' String='(obsolete) Foo'/><Annotation Term='UI.Hidden'/></Annotations>".

Definition obsoleteLabel : node :=
  Element (Some [("Term", "Common.Label"); ("String", "(obsolete) Foo")]) [].

Definition hiddenAnnotation : node := Element (Some [("Term", "UI.Hidden")]) [].

Definition annotationsTree (annotations : list node) : node :=
  Element None
    [("Annotations",
      Element (Some [("Target", "S.E/P")]) [("Annotation", Nodes annotations)])].

Definition obsoleteBuilt : string :=
  xmlDeclaration ++ NL ++ quoted "<Annotations Target='S.E/P'>" ++ NL
  ++ quoted "  <Annotation Term='UI.Hidden'/>" ++ NL
  ++ "</Annotations>".

Definition obsoleteParse :=
  parseFrom [(obsoleteXml, annotationsTree [obsoleteLabel; hiddenAnnotation]);
             (obsoleteBuilt, annotationsTree [hiddenAnnotation])].

Definition obsoleteBuild :=
  buildFrom [(annotationsTree [hiddenAnnotation], obsoleteBuilt)].

(** Metadata on a single line: an entity type with the property [_0], and
    annotations of that property without a label. *)
Definition keyXml : string :=
  quoted "<Schema><EntityType Name='E'><Property Name='_0'/></EntityType><Annotations Target='S.E/_0'><Annotation Term='UI.Hidden'/></Annotations></Schema>".

Definition keyAnnotations : string * node :=
  ("Annotations",
   Nodes [Element (Some [("Target", "S.E/_0")])
            [("Annotation", Nodes [hiddenAnnotation])]]).

Definition keyTree : node :=
  Element None
    [("Schema",
      Element None
        [("EntityType",
          Nodes [Element (Some [("Name", "E")])
                   [("Property", Nodes [Element (Some [("Name", "_0")]) []])]]);
         keyAnnotations])].

Definition keyTreeWithoutProperty : node :=
  Element None
    [("Schema",
      Element None
        [("EntityType", Nodes [Element (Some [("Name", "E")]) []]);
         keyAnnotations])].

Definition keyAnnotationLines : string :=
  quoted "  <Annotations Target='S.E/_0'>" ++ NL
  ++ quoted "    <Annotation Term='UI.Hidden'/>" ++ NL
  ++ "  </Annotations>" ++ NL
  ++ "</Schema>".

Definition keyBuilt : string :=
  xmlDeclaration ++ NL ++ "<Schema>" ++ NL
  ++ quoted "  <EntityType Name='E'>" ++ NL
  ++ quoted "    <Property Name='_0'/>" ++ NL
  ++ "  </EntityType>" ++ NL
  ++ keyAnnotationLines.

Definition keyBuiltWithoutLine : string :=
  xmlDeclaration ++ NL ++ "<Schema>" ++ NL
  ++ quoted "  <EntityType Name='E'>" ++ NL
  ++ "  </EntityType>" ++ NL
  ++ keyAnnotationLines.

Definition keyRebuilt : string :=
  xmlDeclaration ++ NL ++ "<Schema>" ++ NL
  ++ quoted "  <EntityType Name='E'/>" ++ NL
  ++ keyAnnotationLines.

Definition keyParse :=
  parseFrom [(keyXml, keyTree); (keyBuilt, keyTree);
             (keyBuiltWithoutLine, keyTreeWithoutProperty)].

Definition keyBuild :=
  buildFrom [(keyTree, keyBuilt); (keyTreeWithoutProperty, keyRebuilt)].




End Samples.

(* ================================================================== *)
(** ** services/datasphere.service.ts: the backend call                *)
(* ================================================================== *)

Module Backend.
Import Js JsValue Errors ErrorMiddleware Batch Service.
Local Open Scope js_scope.

(** [handleRoot()], of type [Promise<never>]. *)
Definition handleRoot : result Empty_set :=
  Throw (ValidationError "Please define a path to a Datasphere model"
           MISSING_REQUIRED_FIELD None).

(** [validateAndProcessPath(path)]: the result is the field [contentType],
    [None] for [undefined]. *)
Definition validateAndProcessPath (path_ : string) : result (option string) :=
  if negb (truthy path_)
  then Throw (ValidationError "Path to a Datasphere model is required"
                MISSING_REQUIRED_FIELD None)
  else Ok (if includes path_ "$metadata" then Some "text/xml" else None).

(** [setBatchResponseHeaders(res, batchId)]: the two calls of
    [res.setHeader], each a name and the value passed. *)
Definition setBatchResponseHeaders (batchId : string) : list (string * string) :=
  [("OData-Version", "4.0");
   ("Content-Type", "multipart/mixed; boundary=" ++ batchId)].

(** What the promise of the HTTP client settles to: a response, an
    [AxiosError] with its [message] and the [response.data.message] of the
    backend when there is one, or any other thrown value. *)
Inductive Rejection :=
| AxiosError (msg : string) (responseMessage : option ContextValue)
| OtherError (e : Error).

Inductive HttpOutcome :=
| Resolved (response : HttpResponse)
| Rejected (failure : Rejection).

(** [error?.response?.data?.message || error?.message]. *)
Definition originalErrorOf (msg : string) (responseMessage : option ContextValue)
  : ContextValue :=
  match responseMessage with
  | Some v => if ctxTruthy v then v else CtxString msg
  | None => CtxString msg
  end.

Section Client.

(** [config.datasphere.destinationName], and the two calls of the SAP Cloud
    SDK: [getDestination], of which the [url] of the destination found is
    kept, and [executeHttpRequest], given the URL and the query parameters of
    the GET.  The two entry points of xml2js are those of [Xml]. *)
Variable destinationName : string.
Variable getDestination : Request -> result (option string).
Variable executeHttpRequest : string -> list (string * string) -> HttpOutcome.
Variable parseStringPromise : string -> result Xml.node.
Variable buildObject : Xml.node -> string.

Definition getDestinationConfig (req : Request) : result string :=
  dest <- getDestination req ;;
  match dest with
  | Some url =>
      if truthy url then Ok url
      else Throw (NotFoundError
                    ("Destination " ++ destinationName ++ " not found or missing URL")
                    CONFIGURATION_ERROR
                    (Some [("destinationName", CtxString destinationName);
                           ("destination", CtxOpaque)]))
  | None =>
      Throw (NotFoundError
               ("Destination " ++ destinationName ++ " not found or missing URL")
               CONFIGURATION_ERROR
               (Some [("destinationName", CtxString destinationName);
                      ("destination", CtxOpaque)]))
  end.

(** The [context] object of the [catch] block. *)
Definition requestContext (url path_ msg : string)
    (responseMessage : option ContextValue) : Context :=
  [("url", CtxString url); ("path", CtxString path_); ("query", CtxOpaque);
   ("destinationName", CtxString destinationName); ("timestamp", CtxOpaque);
   ("originalError", originalErrorOf msg responseMessage)].

(** The chain of tests on [error.message] for an [AxiosError]. *)
Definition mapAxiosError (req : Request) (msg : string) (context : Context)
  : Error :=
  if includes msg "timeout" then
    DatasphereTimeoutError "Request to Datasphere timed out. Please try again."
      context
  else if includes msg "network" then
    DatasphereConnectionError
      "Failed to connect to Datasphere. Please check your network connection."
      context
  else if includes msg "401" || includes msg "403" then
    DatasphereAuthError "Authentication failed. Please check your credentials."
      context
  else if includes msg "404" then
    DatasphereModelError
      "The requested Datasphere model or resource was not found." context
  else if includes (path req) "$metadata" then
    DatasphereMetadataError "Failed to retrieve Datasphere metadata."
      (context ++ [("suggestion",
                    CtxString "Check if the metadata path is correct and accessible.")])%list
  else
    DatasphereConnectionError
      "An error occurred while communicating with Datasphere."
      (context ++ [("suggestion",
                    CtxString "Please try again later or contact support if the issue persists.")])%list.

(** [cleanXML(response.data)]: on a value that is no string the first step,
    [xml.replace], is a [TypeError], which [cleanXML] wraps like any other
    failure. *)
Definition cleanResponseData (d : value) : result string :=
  match d with
  | VStr s => Xml.cleanXML parseStringPromise buildObject s
  | _ => Throw (newError "Error cleaning XML: TypeError: xml.replace is not a function")
  end.

(** [getData(req, path)].  The destination is resolved before the [try];
    the [catch] maps an [AxiosError] and lets every other failure, that of
    [cleanXML] included, fall through to the end of the function, which
    returns [undefined] ([Ok None]). *)
Definition getData (req : Request) (path_ : string)
  : result (option HttpResponse) :=
  destination <- getDestinationConfig req ;;
  let url := destination ++ path_ in
  match executeHttpRequest url (query req) with
  | Resolved response =>
      if includes (path req) "$metadata" then
        match cleanResponseData (data response) with
        | Ok cleanedXml => Ok (Some {| data := VStr cleanedXml |})
        | Throw _ => Ok None
        end
      else Ok (Some response)
  | Rejected (AxiosError msg responseMessage) =>
      Throw (mapAxiosError req msg (requestContext url path_ msg responseMessage))
  | Rejected (OtherError _) => Ok None
  end.

End Client.

End Backend.

(* ================================================================== *)
(** ** middleware/batch.middleware.ts: the request side                *)
(* ================================================================== *)

Module Middleware.
Import Js Batch Service.





End Middleware.

(* ================================================================== *)
(** ** controllers/datasphere.controller.ts, routes, app.ts            *)
(* ================================================================== *)

Module Controller.
Import Js JsValue Errors ErrorMiddleware Batch Service Backend Middleware.
Local Open Scope js_scope.

(** What a handler does with the response object when it completes: the
    headers it sets itself ([res.set], [res.setHeader]), names and values as
    it passes them and in the order of the calls, and the value it hands to
    [res.send].  What Express makes of them when it sends, completing a
    content type with a [charset] parameter and setting a content type of its
    own when the handler set none, is the work of the library and no part of
    the record. *)
Record Reply (A : Type) := { headersSet : list (string * string); sent : A }.
Arguments headersSet {A} r.
Arguments sent {A} r.

(** [asyncHandler(fn)] passes a rejection to [next], and the application
    registers [errorHandler] for it ([app.use(errorHandler)]). *)
Definition asyncHandler {A} (r : result A) : A + Response :=
  match r with
  | Ok a => inl a
  | Throw e => inr (errorHandler e)
  end.

Section Handlers.

Variable getData : Request -> string -> result (option HttpResponse).

(** The body of [getData] of the controller; [params] is
    [Object.values(req.params)]. *)
Definition getDataHandler (params : list string) (req : Request)
  : result (Reply value) :=
  let path_ := join "/" params in
  contentType <- validateAndProcessPath path_ ;;
  result_ <- getData req path_ ;;
  match result_ with
  | Some r =>
      Ok {| headersSet := match contentType with
                            | Some t => [("Content-Type", t)]
                            | None => []
                            end;
            sent := data r |}
  | None => Throw (typeError "Cannot read properties of undefined (reading 'data')")
  end.

(** The body of [handleBatch]. *)
Definition handleBatch (req : Request) (now : N) : result (Reply string) :=
  batchResponse <- processBatchRequest getData req now ;;
  Ok {| headersSet := setBatchResponseHeaders (id batchResponse);
        sent := responseBody batchResponse |}.


End Handlers.

End Controller.

(* ================================================================== *)
(** ** types/env.types.ts, config/app.config.ts                        *)
(* ================================================================== *)

Module Env.
Import Js JsValue.

Definition isDigit (c : ascii) : bool :=
  let n := nat_of_ascii c in (48 <=? n)%nat && (n <=? 57)%nat.

Fixpoint takeDigits (s : string) : string :=
  match s with
  | "" => ""
  | String c s' => if isDigit c then String c (takeDigits s') else ""
  end.

(** [parseInt(s, 10)]: leading white space is skipped, a sign is read, and
    the longest run of decimal digits that follows is the value; [NaN] when
    there is no digit. *)
Definition parseInt (s : string) : number :=
  match trimStart s with
  | "" => NaN
  | String c d =>
      if Ascii.eqb c "-" then
        match digitsValue (takeDigits d) with Num z => Num (- z) | NaN => NaN end
      else if Ascii.eqb c "+" then digitsValue (takeDigits d)
      else digitsValue (takeDigits (String c d))
  end.

Definition parseNumericEnv (value : option string) (defaultValue : number)
  : number :=
  match value with
  | None => defaultValue
  | Some s =>
      if negb (truthy s) then defaultValue
      else
        let parsed := parseInt s in
        if isNaN parsed then defaultValue else parsed
  end.

(** [config.server]: the port and the timeout, from [process.env.PORT] and
    [process.env.SERVER_TIMEOUT]. *)
Record ServerConfig := { port : number; timeout : number }.

Definition server (PORT SERVER_TIMEOUT : option string) : ServerConfig :=
  {| port := parseNumericEnv PORT (Num 3002);
     timeout := parseNumericEnv SERVER_TIMEOUT (Num 180000) |}.

End Env.

(* ================================================================== *)
(** ** The nodes of a tree                                             *)
(* ================================================================== *)

Module Tree.
Import Xml.

(** The nodes of a tree in document order: the node itself, then the nodes
    of its items or of its field values. *)
Fixpoint descendants (t : node) : list node :=
  match t with
  | Nodes items => t :: flat_map descendants items
  | Element _ fields => t :: flat_map (fun kv => descendants (snd kv)) fields
  | _ => [t]
  end.

Definition isGroup (t : node) : bool :=
  match t with
  | Element attrs fields => isAnnotationGroup attrs fields
  | _ => false
  end.

(** [marked p t]: the element [t] has attributes that satisfy [p]. *)
Definition marked (p : option Attrs -> bool) (t : node) : bool :=
  match t with
  | Element attrs _ => p attrs
  | _ => false
  end.

End Tree.

Module Marks.
Import Js Xml.

(** [Path=], a double quote and [0] without its first code unit, and with
    the underscore that [replaceZeroInPath] puts in. *)
Definition pathTail : string := Eval compute in dropN 1 pathZero.
Definition pathUnderscoreZero : string := quoted "Path='_0".

End Marks.

Module PathText.
Import Js Errors Service.

(** The one error of [extractBatchPath]. *)
Definition extractionFailure (req : Request) : Error :=
  ValidationError "Failed to extract batch path from request" INVALID_FORMAT
    (Some [("request", CtxString (path req)); ("batch", CtxOpaque)]).

(** A text that the URL round trip of [extractBatchPath] does not change
    beyond a missing [=]: none of [&], [+], [%] and the space in it. *)
Definition queryText (s : string) : bool :=
  lacks "&" s && lacks "+" s && lacks "%" s && lacks " " s.

(** [s], with [=] at its end when it has none. *)
Definition withEquals (s : string) : string :=
  if lacks "=" s then s ++ "=" else s.

(** The text [target] of a request line [GET target HTTP/1.1] that
    [extractBatchPath] finds between [GET] and [HTTP]: no [GET] and no [HTTP]
    before the [HTTP] of the line, no white space at its ends. *)
Definition requestTarget (target : string) : bool :=
  freeOf "GET" (" " ++ target ++ " HTTP")
  && freeUntilEnd "HTTP" (" " ++ target ++ " ")
  && String.eqb (trim target) target.

End PathText.

Module MoreSamples.
Import Js JsValue Errors Batch Service.

(** A batch for [/datasphere/sales/$batch] whose request line has no query
    string. *)
Definition itemsRequest : Request :=
  {| path := "/datasphere/sales/$batch";
     query := [];
     batch := Some [ {| headers := []; body := "GET Sales_Demo/Items HTTP/1.1" |} ];
     rawBody := "" |}.

End MoreSamples.

Module BackendSamples.
Import Js JsValue Errors Batch Service.

(** A request for the metadata of a model. *)
Definition metadataRequest : Request :=
  {| path := "/Sales_Demo/$metadata"; query := []; batch := None; rawBody := "" |}.

End BackendSamples.

Module RouteSamples.
Import Js JsValue Errors ErrorMiddleware Batch Service Backend Controller Samples.





(** The response to the happy request, and what [handleBatch] hands to
    Express for it. *)
Definition happyResponse : BatchResponse :=
  transformBatchResponse ""
    (JSON_stringify (VObj (setField happyData "@odata.count" (VNum (Num 20)))))
    happyNow.

Definition happyReply : Reply string :=
  {| headersSet := setBatchResponseHeaders (id happyResponse);
     sent := responseBody happyResponse |}.

(** A header object is well formed when no name occurs twice and names
    and values have no white space at their ends. *)
Definition trimmedPair (kv : string * string) : bool :=
  String.eqb (trim (fst kv)) (fst kv) && String.eqb (trim (snd kv)) (snd kv).

(** The header objects that the loop of [parseBatchBody] builds. *)
Definition wellFormed (h : Headers) : Prop :=
  NoDup (map fst h) /\ forallb trimmedPair h = true.

End RouteSamples.

(* ================================================================== *)
(** ** middleware/batch.middleware.ts: the response side               *)
(* ================================================================== *)

Module BatchTransform.
Import Js JsValue Service Env.

Definition NBSP : ascii := Eval compute in ascii_of_nat 160.

Definition batchIdOpen : string := "--batch_id-".

(** A match of the pattern of the terminal marker at the start of [s]:
    [--batch_id-], one or more digits (the first capture), a hyphen, one or
    more digits and two hyphens.  A run of digits is taken whole, since what
    must follow it is no digit. *)
Definition matchBatchId (s : string) : option string :=
  if String.prefix batchIdOpen s then
    let rest := dropN (String.length batchIdOpen) s in
    let first := takeDigits rest in
    let rest1 := dropN (String.length first) rest in
    if truthy first && String.prefix "-" rest1 then
      let rest2 := dropN 1 rest1 in
      let second := takeDigits rest2 in
      if truthy second && String.prefix "--" (dropN (String.length second) rest2)
      then Some first
      else None
    else None
  else None.

(** [requestBody.match(...)]: the leftmost match. *)
Fixpoint searchBatchId (s : string) : option string :=
  match matchBatchId s with
  | Some first => Some first
  | None =>
      match s with
      | "" => None
      | String _ s' => searchBatchId s'
      end
  end.

(** The result of the exported [transformBatchResponse]: the response, or
    the [Error] it throws, with its [status] and its message. *)
Inductive Transformed :=
| Built (response : BatchResponse)
| Invalid (status : Z) (message : string).

(** The two constants of [transformBatchResponse]: the id, from the value
    [now] of [Date.now()] and the first capture, and the template of the
    body.  The line breaks of the template are line feeds; the two escaped
    pairs of CR LF stand on lines of their own. *)
Definition batchIdString (now : N) (originalBatchId : string) : string :=
  "batch_" ++ decimal (Z.of_N now) ++ "-" ++ originalBatchId.

Definition lineFeed : string := String LF "".

Definition responseBodyOf (batchId data : string) : string :=
  ("--" ++ batchId ++ "--") ++ lineFeed
  ++ "Content-Type:application/http" ++ lineFeed
  ++ "OData-Version: 4.0" ++ lineFeed
  ++ CRLF ++ CRLF ++ lineFeed
  ++ "HTTP/1.1 200 OK" ++ lineFeed
  ++ "OData-Version: 4.0" ++ lineFeed
  ++ "Content-Type: application/json;odata.metadata=minimal"
  ++ String " " (String NBSP (String " " "")) ++ lineFeed
  ++ "Content-Length: " ++ decimal (Z.of_nat (String.length data)) ++ lineFeed
  ++ CRLF ++ CRLF ++ lineFeed
  ++ data ++ lineFeed ++ lineFeed
  ++ ("--" ++ batchId ++ "--").

(** [transformBatchResponse(requestBody, data)] of the middleware
    module. *)
Definition transformBatchResponse (requestBody data : string) (now : N)
  : Transformed :=
  match searchBatchId requestBody with
  | None => Invalid 400 "Invalid batch ID format in request body"
  | Some originalBatchId =>
      Built {| id := batchIdString now originalBatchId;
               responseBody := responseBodyOf (batchIdString now originalBatchId) data |}
  end.

(** A run of one or more digits. *)
Definition digits (d : string) : bool :=
  truthy d && String.eqb (takeDigits d) d.

(** The response to the body of the happy path, whose terminal marker is
    [--batch_id-123-456--]. *)
Definition markedResponse : BatchResponse :=
  {| id := "batch_1700000000000-123";
     responseBody := responseBodyOf "batch_1700000000000-123" "{}" |}.

End BatchTransform.

(* ================================================================== *)
(** * Properties                                                       *)
(* ================================================================== *)

(** ** Strings *)

Module JsFacts.
Import Js.

Lemma append_nil_r (s : string) : s ++ "" = s.
Proof. induction s as [|c s IH]; simpl; [reflexivity | now rewrite IH]. Qed.

Lemma append_assoc (a b c : string) : (a ++ b) ++ c = a ++ (b ++ c).
Proof. induction a as [|x a IH]; simpl; [reflexivity | now rewrite IH]. Qed.

Lemma length_append (a b : string) :
  String.length (a ++ b) = String.length a + String.length b.
Proof. induction a as [|x a IH]; simpl; [reflexivity | now rewrite IH]. Qed.

Lemma prefix_refl_app (p r : string) : String.prefix p (p ++ r) = true.
Proof.
  induction p as [|c p IH]; simpl; [now destruct r |].
  destruct (ascii_dec c c) as [_|N]; [exact IH | now elim N].
Qed.

(** A prefix test only looks at as many code units as the pattern has. *)
Lemma prefix_app_long (p x r : string) :
  String.length p <= String.length x ->
  String.prefix p (x ++ r) = String.prefix p x.
Proof.
  revert x; induction p as [|c p IH]; intros x Hlen.
  - now destruct x, r.
  - destruct x as [|d x]; simpl in *; [lia |].
    destruct (ascii_dec c d); [apply IH; lia | reflexivity].
Qed.

Lemma splitFrom_nonempty (sep : string) (k : nat) (s : string) :
  splitFrom sep k s <> [].
Proof.
  revert k; induction s as [|c s IH]; intros k; cbn [splitFrom]; [discriminate |].
  destruct k; [| apply IH].
  destruct (String.prefix sep (String c s)); [discriminate |].
  specialize (IH 0). destruct (splitFrom sep 0 s); [contradiction | discriminate].
Qed.

(** Once a separator has matched, its remaining code units are passed
    over. *)
Lemma splitFrom_skip (sep x r : string) :
  splitFrom sep (String.length x) (x ++ r) = splitFrom sep 0 r.
Proof. induction x as [|c x IH]; simpl; [reflexivity | exact IH]. Qed.

Lemma consHead_cons (c : ascii) (a : string) (l : list string) :
  consHead c (a :: l) = String c a :: l.
Proof. reflexivity. Qed.

Lemma splitFrom_match (sep s : string) (c : ascii) :
  String.prefix sep (String c s) = true ->
  splitFrom sep 0 (String c s) = "" :: splitFrom sep (String.length sep - 1) s.
Proof. intros H; cbn [splitFrom]; now rewrite H. Qed.

Lemma splitFrom_nomatch (sep s : string) (c : ascii) :
  String.prefix sep (String c s) = false ->
  splitFrom sep 0 (String c s) = consHead c (splitFrom sep 0 s).
Proof. intros H; cbn [splitFrom]; now rewrite H. Qed.

Lemma splitFrom_passing (sep s : string) (k : nat) (c : ascii) :
  splitFrom sep (S k) (String c s) = splitFrom sep k s.
Proof. reflexivity. Qed.

Lemma splitFrom_segment (sep a r : string) :
  sep <> "" ->
  freeUntilEnd sep a = true ->
  splitFrom sep 0 (a ++ sep ++ r) = a :: splitFrom sep 0 r.
Proof.
  intros Hsep; induction a as [|c a IH]; intros Hfree.
  - destruct sep as [|d sep]; [contradiction |].
    change ("" ++ String d sep ++ r) with (String d (sep ++ r)).
    rewrite splitFrom_match by apply (prefix_refl_app (String d sep) r).
    f_equal. cbn [String.length]. rewrite Nat.sub_succ, Nat.sub_0_r.
    apply splitFrom_skip.
  - cbn [freeUntilEnd] in Hfree. apply andb_true_iff in Hfree as [Hhere Hrest].
    apply negb_true_iff in Hhere.
    change (String c a ++ sep ++ r) with (String c (a ++ sep ++ r)).
    rewrite splitFrom_nomatch.
    + now rewrite (IH Hrest).
    + change (String c (a ++ sep ++ r)) with (String c a ++ (sep ++ r)).
      rewrite <- append_assoc, prefix_app_long; [exact Hhere |].
      rewrite length_append; lia.
Qed.

Lemma splitFrom_last (sep a : string) :
  freeOf sep a = true -> splitFrom sep 0 a = [a].
Proof.
  induction a as [|c a IH]; intros Hfree; [reflexivity |].
  cbn [freeOf] in Hfree. apply andb_true_iff in Hfree as [Hhere Hrest].
  cbn [splitFrom]. apply negb_true_iff in Hhere. rewrite Hhere.
  now rewrite (IH Hrest).
Qed.

Lemma lacks_append (c : ascii) (a b : string) :
  lacks c (a ++ b) = lacks c a && lacks c b.
Proof.
  induction a as [|d a IH]; [reflexivity |].
  cbn [append lacks]. now rewrite IH, andb_assoc.
Qed.

Lemma prefix_head_differs (c d : ascii) (p s : string) :
  Ascii.eqb d c = false -> String.prefix (String c p) (String d s) = false.
Proof.
  intros H. cbn [String.prefix]. destruct (ascii_dec c d) as [->|_]; [| reflexivity].
  now rewrite Ascii.eqb_refl in H.
Qed.

(** A string without the first code unit of the separator is free of it. *)
Lemma lacks_freeUntilEnd (c : ascii) (p a : string) :
  lacks c a = true -> freeUntilEnd (String c p) a = true.
Proof.
  induction a as [|d a IH]; [reflexivity |].
  cbn [lacks freeUntilEnd]. intros H. apply andb_true_iff in H as [Hd Ha].
  apply negb_true_iff in Hd.
  change (String d a ++ String c p) with (String d (a ++ String c p)).
  rewrite (prefix_head_differs _ _ _ _ Hd). now rewrite (IH Ha).
Qed.

Lemma lacks_freeOf (c : ascii) (p a : string) :
  lacks c a = true -> freeOf (String c p) a = true.
Proof.
  induction a as [|d a IH]; [reflexivity |].
  cbn [lacks freeOf]. intros H. apply andb_true_iff in H as [Hd Ha].
  apply negb_true_iff in Hd.
  rewrite (prefix_head_differs _ _ _ _ Hd). now rewrite (IH Ha).
Qed.

Lemma trimStart_keeps (c : ascii) (s : string) :
  is_ws c = false -> trimStart (String c s) = String c s.
Proof. intros H. cbn [trimStart]. now rewrite H. Qed.

Lemma trimEnd_keeps (c : ascii) (s : string) :
  is_ws c = false -> trimEnd s = s -> trimEnd (String c s) = String c s.
Proof.
  intros Hc Hs. cbn [trimEnd]. rewrite Hs. destruct s; [now rewrite Hc | reflexivity].
Qed.

Lemma blank_append (a b : string) : blank (a ++ b) = blank a && blank b.
Proof.
  induction a as [|c a IH]; [reflexivity |].
  cbn [append blank]. now rewrite IH, andb_assoc.
Qed.

Lemma append_empty (a b : string) : a ++ b = "" -> a = "" /\ b = "".
Proof. destruct a; [now split | discriminate]. Qed.

Lemma trimEnd_empty_iff (s : string) : trimEnd s = "" <-> blank s = true.
Proof.
  induction s as [|c s IH]; [now split |].
  cbn [trimEnd blank]. destruct (trimEnd s) eqn:E.
  - destruct (is_ws c); cbn [andb]; [| now split].
    split; intros _; [now apply IH | reflexivity].
  - split; [discriminate |]. intros H. apply andb_true_iff in H as [_ H].
    apply IH in H. discriminate.
Qed.

Lemma trimEnd_blank (s : string) : blank s = true -> trimEnd s = "".
Proof. apply trimEnd_empty_iff. Qed.

Lemma trimEnd_nonblank (s : string) : blank s = false -> trimEnd s <> "".
Proof. intros H E. apply trimEnd_empty_iff in E. congruence. Qed.

Lemma trimEnd_cons (c : ascii) (s : string) :
  trimEnd s <> "" -> trimEnd (String c s) = String c (trimEnd s).
Proof. intros H. cbn [trimEnd]. destruct (trimEnd s); [contradiction | reflexivity]. Qed.

(** Trimming at the end only touches a last piece that is not blank. *)
Lemma trimEnd_app_nonblank (a b : string) :
  blank b = false -> trimEnd (a ++ b) = a ++ trimEnd b.
Proof.
  intros Hb. induction a as [|c a IH]; [reflexivity |].
  cbn [append]. rewrite trimEnd_cons; rewrite IH; [reflexivity |].
  intros E. apply append_empty in E as [_ E]. now apply trimEnd_nonblank in E.
Qed.

Lemma trimEnd_app_blank (a b : string) :
  blank b = true -> trimEnd (a ++ b) = trimEnd a.
Proof.
  intros Hb. induction a as [|c a IH]; [now apply trimEnd_blank |].
  cbn [append trimEnd]. now rewrite IH.
Qed.

Lemma trimStart_blank (s : string) : blank s = true -> trimStart s = "".
Proof.
  induction s as [|c s IH]; [reflexivity |].
  cbn [blank trimStart]. intros H. apply andb_true_iff in H as [Hc Hs].
  rewrite Hc. now apply IH.
Qed.

Lemma trimStart_app_blank (a b : string) :
  blank a = true -> trimStart (a ++ b) = trimStart b.
Proof.
  induction a as [|c a IH]; [reflexivity |].
  cbn [blank append trimStart]. intros H. apply andb_true_iff in H as [Hc Ha].
  rewrite Hc. now apply IH.
Qed.

Lemma trimStart_app_nonblank (a b : string) :
  blank a = false -> trimStart (a ++ b) = trimStart a ++ b.
Proof.
  induction a as [|c a IH]; [discriminate |].
  cbn [blank append trimStart]. destruct (is_ws c); [exact IH | reflexivity].
Qed.

Lemma blank_trimStart (s : string) : blank (trimStart s) = blank s.
Proof.
  induction s as [|c s IH]; [reflexivity |].
  cbn [trimStart blank]. destruct (is_ws c) eqn:E; [exact IH |].
  cbn [blank]. now rewrite E.
Qed.

Lemma blank_trimEnd (s : string) : blank (trimEnd s) = blank s.
Proof.
  destruct (blank s) eqn:E; [now rewrite trimEnd_blank |].
  induction s as [|c s IH]; [discriminate |].
  cbn [blank] in E. cbn [trimEnd].
  destruct (trimEnd s) eqn:Et.
  - assert (Hs : blank s = true) by now apply trimEnd_empty_iff.
    rewrite Hs, andb_true_r in E. rewrite E. cbn [blank]. now rewrite E.
  - cbn [blank]. destruct (is_ws c); [| reflexivity].
    cbn [andb] in E |- *. apply IH. exact E.
Qed.

Lemma truthy_empty (s : string) : truthy s = false <-> s = "".
Proof. destruct s; split; try reflexivity; discriminate. Qed.

Lemma truthy_trim (s : string) : truthy (trim s) = negb (blank s).
Proof.
  unfold trim. destruct (blank s) eqn:E.
  - now rewrite trimEnd_blank.
  - assert (H : blank (trimStart (trimEnd s)) = false)
      by now rewrite blank_trimStart, blank_trimEnd.
    destruct (trimStart (trimEnd s)); [discriminate | reflexivity].
Qed.

Lemma lacks_trimStart (c : ascii) (s : string) :
  lacks c s = true -> lacks c (trimStart s) = true.
Proof.
  induction s as [|d s IH]; [reflexivity |].
  cbn [trimStart]. destruct (is_ws d); [| trivial].
  cbn [lacks]. intros H. apply andb_true_iff in H as [_ H]. now apply IH.
Qed.

Lemma lacks_trimEnd (c : ascii) (s : string) :
  lacks c s = true -> lacks c (trimEnd s) = true.
Proof.
  induction s as [|d s IH]; [reflexivity |].
  cbn [lacks trimEnd]. intros H. apply andb_true_iff in H as [Hd Hs].
  specialize (IH Hs). destruct (trimEnd s).
  - destruct (is_ws d); [reflexivity |]. cbn [lacks]. now rewrite Hd.
  - cbn [lacks] in *. now rewrite Hd, IH.
Qed.

Lemma trimEnd_idempotent (s : string) : trimEnd (trimEnd s) = trimEnd s.
Proof.
  destruct (blank s) eqn:E; [now rewrite (trimEnd_blank s E) |].
  induction s as [|c s IH]; [reflexivity |].
  cbn [blank] in E. cbn [trimEnd]. destruct (trimEnd s) eqn:Et.
  - destruct (is_ws c) eqn:Ec; [reflexivity |]. cbn [trimEnd]. now rewrite Ec.
  - assert (Hs : blank s = false).
    { destruct (blank s) eqn:B; [| reflexivity].
      apply trimEnd_blank in B. congruence. }
    specialize (IH Hs). rewrite trimEnd_cons; [now rewrite IH |].
    rewrite IH. discriminate.
Qed.

(** White space in front of a text does not change what [trim] gives. *)
Lemma trim_app_blank (w s : string) : blank w = true -> trim (w ++ s) = trim s.
Proof.
  intros Hw. unfold trim. destruct (blank s) eqn:E.
  - rewrite (trimEnd_blank s E), trimEnd_blank; [reflexivity |].
    now rewrite blank_append, Hw, E.
  - rewrite trimEnd_app_nonblank by exact E. now apply trimStart_app_blank.
Qed.

Lemma trim_trimEnd (s : string) : trim (trimEnd s) = trim s.
Proof. unfold trim. now rewrite trimEnd_idempotent. Qed.

Lemma splitLines_single (a : string) :
  lacks LF a = true -> splitLines a = [a].
Proof.
  induction a as [|c a IH]; [reflexivity |].
  cbn [lacks]. intros H. apply andb_true_iff in H as [Hc Ha].
  apply negb_true_iff in Hc. cbn [splitLines]. rewrite Hc.
  destruct a as [|d a]; [reflexivity |].
  assert (Hd : Ascii.eqb d LF = false).
  { cbn [lacks] in Ha. apply andb_true_iff in Ha as [Hd _].
    now apply negb_true_iff in Hd. }
  now rewrite Hd, andb_false_r, (IH Ha).
Qed.

(** A line without LF, closed by CRLF, is the first line. *)
Lemma splitLines_CRLF (a r : string) :
  lacks LF a = true -> splitLines (a ++ CRLF ++ r) = a :: splitLines r.
Proof.
  induction a as [|c a IH]; [reflexivity |].
  cbn [lacks]. intros H. apply andb_true_iff in H as [Hc Ha].
  apply negb_true_iff in Hc.
  change (String c a ++ CRLF ++ r) with (String c (a ++ CRLF ++ r)).
  cbn [splitLines]. rewrite Hc.
  destruct a as [|d a].
  - change ("" ++ CRLF ++ r) with (String CR (String LF r)).
    cbv beta iota. change (Ascii.eqb CR LF) with false. rewrite andb_false_r.
    change (String CR (String LF r)) with ("" ++ CRLF ++ r).
    now rewrite (IH Ha).
  - change (String d a ++ CRLF ++ r) with (String d (a ++ CRLF ++ r)).
    cbv beta iota.
    assert (Hd : Ascii.eqb d LF = false).
    { cbn [lacks] in Ha. apply andb_true_iff in Ha as [Hd _].
      now apply negb_true_iff in Hd. }
    rewrite Hd, andb_false_r.
    change (String d (a ++ CRLF ++ r)) with (String d a ++ CRLF ++ r).
    now rewrite (IH Ha).
Qed.

Lemma splitLines_blank_line (r : string) :
  splitLines (CRLF ++ r) = "" :: splitLines r.
Proof. reflexivity. Qed.

Lemma split_segment (sep a r : string) :
  sep <> "" -> freeUntilEnd sep a = true ->
  split (a ++ sep ++ r) sep = a :: split r sep.
Proof. apply splitFrom_segment. Qed.

Lemma split_empty_segment (sep r : string) :
  sep <> "" -> split (sep ++ r) sep = "" :: split r sep.
Proof. intros H. now apply (split_segment sep "" r). Qed.

Lemma split_last (sep a : string) :
  freeOf sep a = true -> split a sep = [a].
Proof. apply splitFrom_last. Qed.

End JsFacts.

(** ** The error handler *)

Module ErrorProps.
Import Errors ErrorMiddleware.

Lemma errorHandler_status (err : Error) : status (errorHandler err) = 500%Z.
Proof. reflexivity. Qed.

(** C9.  A [ValidationError] carries the status 400 in its [statusCode], and
    so does every error of a subclass; [errorHandler] does not read that
    field: it answers every error, a [ValidationError] included, with the
    status 500 and the code 500. *)
Theorem errorHandler_answers_500_to_ValidationError
    (msg : string) (code : ErrorCode) (ctx : option Context) :
  statusCode (ValidationError msg code ctx) = Some 400%Z /\
  instanceof (ValidationError msg code ctx) ValidationErrorC = true /\
  status (errorHandler (ValidationError msg code ctx)) = 500%Z /\
  ErrorMiddleware.code (json (errorHandler (ValidationError msg code ctx))) = "500".
Proof. repeat split. Qed.

End ErrorProps.

(** ** The batch translator *)

Module ServiceProps.
Import Js JsFacts JsValue Errors Batch Service Samples.

Lemma digits_lack (c : ascii) (d : Decimal.uint) :
  (nat_of_ascii c <? 48)%nat = true ->
  lacks c (NilEmpty.string_of_uint d) = true.
Proof.
  intros Hc.
  assert (Hne : forall x, (48 <=? nat_of_ascii x)%nat = true -> Ascii.eqb x c = false).
  { intros x Hx. destruct (Ascii.eqb_spec x c) as [->|]; [| reflexivity].
    apply Nat.ltb_lt in Hc. apply Nat.leb_le in Hx. lia. }
  induction d; cbn [NilEmpty.string_of_uint lacks]; [reflexivity | ..];
    rewrite IHd, Hne by reflexivity; reflexivity.
Qed.

Lemma decimal_of_N_lacks (c : ascii) (n : N) :
  (nat_of_ascii c <? 48)%nat = true ->
  lacks c (decimal (Z.of_N n)) = true.
Proof.
  intros Hc. unfold decimal.
  assert (Hzero : lacks c "0" = true)
    by apply (digits_lack c (Decimal.D0 Decimal.Nil) Hc).
  destruct n as [|p]; cbn [Z.of_N Z.to_int NilZero.string_of_int].
  - exact Hzero.
  - unfold NilZero.string_of_uint.
    destruct (Pos.to_uint p) eqn:E; try (rewrite <- E; now apply digits_lack).
    exact Hzero.
Qed.

Lemma digits_trimEnd (d : Decimal.uint) :
  trimEnd (NilEmpty.string_of_uint d) = NilEmpty.string_of_uint d.
Proof.
  induction d; cbn [NilEmpty.string_of_uint]; [reflexivity | ..];
    now apply trimEnd_keeps.
Qed.

Lemma digits_Number (d : Decimal.uint) :
  d <> Decimal.Nil ->
  Number (Some (NilEmpty.string_of_uint d)) = Num (Z.of_uint d).
Proof.
  intros Hd. unfold Number, trim. rewrite digits_trimEnd.
  pose proof (NilEmpty.usu d) as Hparse.
  destruct d; try contradiction; cbn [NilEmpty.string_of_uint] in *;
    (rewrite trimStart_keeps by reflexivity);
    cbn [Ascii.eqb Bool.eqb]; unfold digitsValue; now rewrite Hparse.
Qed.

Lemma NilZero_string_of_uint_nonnil (d : Decimal.uint) :
  d <> Decimal.Nil -> NilZero.string_of_uint d = NilEmpty.string_of_uint d.
Proof. destruct d; [contradiction | reflexivity ..]. Qed.

(** [Number] reads the decimal text of a natural number back. *)
Lemma decimal_Number (n : N) :
  Number (Some (decimal (Z.of_N n))) = Num (Z.of_N n).
Proof.
  unfold decimal. destruct n as [|p]; [reflexivity |].
  cbn [Z.of_N Z.to_int NilZero.string_of_int].
  pose proof (DecimalPos.Unsigned.to_uint_nonnil p) as Hnn.
  rewrite NilZero_string_of_uint_nonnil, digits_Number by exact Hnn.
  unfold Z.of_uint. now rewrite DecimalPos.Unsigned.of_to.
Qed.

Lemma paginationCount_numbers (q : list (string * string)) (a b : Z) :
  Number (queryParam q "$skip") = Num a ->
  Number (queryParam q "$top") = Num b ->
  paginationCount q = Ok (Num (a + b * 2)).
Proof.
  intros Ha Hb. unfold paginationCount. rewrite Ha, Hb.
  unfold orZero, numTruthy.
  destruct (Z.eqb_spec a 0) as [->|], (Z.eqb_spec b 0) as [->|]; reflexivity.
Qed.

Lemma extractBatchPath_batch (req : Request) (p : string) :
  extractBatchPath req = Ok p -> exists part rest, batch req = Some (part :: rest).
Proof.
  unfold extractBatchPath. destruct (batch req) as [[|part rest]|];
    [discriminate | eauto | discriminate].
Qed.

Lemma processBatchRequest_counted
    (getData : Request -> string -> result (option HttpResponse))
    (req : Request) (now : N) (p : string)
    (fields : list (string * value)) (count : number) :
  extractBatchPath req = Ok p ->
  getData req p = Ok (Some {| data := VObj fields |}) ->
  paginationCount (query req) = Ok count ->
  processBatchRequest getData req now =
    Ok (transformBatchResponse (rawBody req)
          (JSON_stringify (VObj (setField fields "@odata.count" (VNum count))))
          now).
Proof.
  intros Hpath Hdata Hcount.
  destruct (extractBatchPath_batch req p Hpath) as (part & rest & Hbatch).
  unfold processBatchRequest. rewrite Hbatch. cbn [bind].
  rewrite Hpath. cbn [bind]. rewrite Hdata. cbn [bind data toBoolean].
  rewrite Hcount. reflexivity.
Qed.

(** C1.  What holds of the claim: the count is [skip + top * 2], 20 for
    [$skip=10&$top=5], 0 when both parameters are absent, [s + t * 2] for the
    decimal texts of two natural numbers (the sum below 2^53, where the
    numbers of the language are exact), and [processBatchRequest] sets it as
    the field [@odata.count] of the data object it forwards.  What does not:
    a [$skip] that is no number does not make the request fail, with a
    [ValidationError] or otherwise.  [Number] gives [NaN] for it, [NaN || 0]
    is [0], and the request is answered with the count computed from [0].
    The guard that follows in the source, which throws for a [NaN], can
    therefore never fire, whatever [Number] gave. *)
Theorem paginationCount_ignores_nonnumeric :
  paginationCount [("$skip", "10"); ("$top", "5")] = Ok (Num 20) /\
  paginationCount [] = Ok (Num 0) /\
  (forall (q : list (string * string)) (s t : N),
      (Z.of_N s + Z.of_N t * 2 < 2 ^ 53)%Z ->
      queryParam q "$skip" = Some (decimal (Z.of_N s)) ->
      queryParam q "$top" = Some (decimal (Z.of_N t)) ->
      paginationCount q = Ok (Num (Z.of_N s + Z.of_N t * 2))) /\
  (forall getData (req : Request) (now : N) (p : string)
          (fields : list (string * value)) (s t : N),
      (Z.of_N s + Z.of_N t * 2 < 2 ^ 53)%Z ->
      extractBatchPath req = Ok p ->
      getData req p = Ok (Some {| data := VObj fields |}) ->
      queryParam (query req) "$skip" = Some (decimal (Z.of_N s)) ->
      queryParam (query req) "$top" = Some (decimal (Z.of_N t)) ->
      processBatchRequest getData req now =
        Ok (transformBatchResponse (rawBody req)
              (JSON_stringify
                 (VObj (setField fields "@odata.count"
                          (VNum (Num (Z.of_N s + Z.of_N t * 2))))))
              now)) /\
  paginationCount [("$skip", "abc")] = Ok (Num 0) /\
  paginationCount [("$skip", "abc"); ("$top", "5")] = Ok (Num 10) /\
  (forall getData (req : Request) (now : N) (p : string)
          (fields : list (string * value)),
      extractBatchPath req = Ok p ->
      getData req p = Ok (Some {| data := VObj fields |}) ->
      query req = [("$skip", "abc")] ->
      processBatchRequest getData req now =
        Ok (transformBatchResponse (rawBody req)
              (JSON_stringify
                 (VObj (setField fields "@odata.count" (VNum (Num 0)))))
              now)) /\
  (forall (q : list (string * string)) (skip top : number) (e : Error),
      paginationGuard q (orZero skip) (orZero top) <> Throw e).
Proof.
  split; [reflexivity |]. split; [reflexivity |].
  split; [| split; [| split; [reflexivity | split; [reflexivity | split]]]].
  - intros q s t _ Hs Ht. apply paginationCount_numbers.
    + rewrite Hs. apply decimal_Number.
    + rewrite Ht. apply decimal_Number.
  - intros getData req now p fields s t _ Hpath Hdata Hs Ht.
    apply (processBatchRequest_counted getData req now p); trivial.
    apply paginationCount_numbers.
    + rewrite Hs. apply decimal_Number.
    + rewrite Ht. apply decimal_Number.
  - intros getData req now p fields Hpath Hdata Hq.
    apply (processBatchRequest_counted getData req now p); trivial.
    now rewrite Hq.
  - intros q skip top e. unfold paginationGuard, orZero.
    destruct skip as [|a], top as [|b]; cbn [numTruthy isNaN orb];
      try destruct (negb (a =? 0)%Z); try destruct (negb (b =? 0)%Z);
      discriminate.
Qed.

(** On the happy path, [$skip=0&$top=10], the count is 20; with
    [$skip=abc] in place of the two the request is answered all the same,
    with the count 0. *)
Lemma paginationCount_ignores_nonnumeric_witness :
  processBatchRequest
    (fun _ _ => Ok (Some {| data := VObj happyData |}))
    happyRequest happyNow =
  Ok (transformBatchResponse ""
        (JSON_stringify
           (VObj (setField happyData "@odata.count" (VNum (Num 20)))))
        happyNow) /\
  processBatchRequest
    (fun _ _ => Ok (Some {| data := VObj happyData |}))
    nonnumericRequest happyNow =
  Ok (transformBatchResponse ""
        (JSON_stringify
           (VObj (setField happyData "@odata.count" (VNum (Num 0)))))
        happyNow).
Proof.
  destruct paginationCount_ignores_nonnumeric
    as (_ & _ & _ & Hcount & _ & _ & Hnon & _).
  split.
  - apply (Hcount (fun _ _ => Ok (Some {| data := VObj happyData |}))
             happyRequest happyNow "foo/Sales_Demo/Items?a=1"
             happyData 0%N 10%N); reflexivity.
  - apply (Hnon (fun _ _ => Ok (Some {| data := VObj happyData |}))
             nonnumericRequest happyNow "foo/Sales_Demo/Items?a=1"
             happyData); reflexivity.
Defined.

(** C5.  For a POST to [/datasphere/foo/$batch] whose first part has a body
    that starts with [GET Consumption/Model?x=1 HTTP/1.1] and a line break,
    whatever follows, [extractBatchPath] returns exactly
    [foo/Consumption/Model?x=1]: the text between the first [GET] and the
    next [HTTP], trimmed, appended to the request path without [datasphere/]
    and [$batch], sent through [URLSearchParams] and [decodeURIComponent],
    and then without its first code unit, the slash.  The router of the
    batch route is mounted at [/datasphere]
    ([app.use("/datasphere", datasphereRoutes)]), so the [req.path] that the
    function reads for this request is [/foo/$batch]; the result is the same
    when [req.path] is the whole [/datasphere/foo/$batch], where the
    replacement of [datasphere/] has something to remove. *)
Theorem extractBatchPath_model
    (req : Request) (part : BatchPart) (others : list BatchPart) (rest : string) :
  path req = "/foo/$batch" \/ path req = "/datasphere/foo/$batch" ->
  batch req = Some (part :: others) ->
  body part = "GET Consumption/Model?x=1 HTTP/1.1" ++ CRLF ++ rest ->
  extractBatchPath req = Ok "foo/Consumption/Model?x=1".
Proof.
  intros Hpath Hbatch Hbody.
  unfold extractBatchPath. rewrite Hbatch. cbn [bind]. rewrite Hbody.
  unfold split, CRLF. cbn [append].
  rewrite splitFrom_match; [| reflexivity].
  cbn [String.length Nat.sub]. rewrite !splitFrom_passing.
  repeat (rewrite splitFrom_nomatch; [| reflexivity]).
  destruct (splitFrom "GET" 0 rest) as [|seg tl] eqn:E;
    [now apply splitFrom_nonempty in E |].
  rewrite !consHead_cons. cbn [nth_error bind].
  repeat (rewrite splitFrom_nomatch; [| reflexivity]).
  rewrite splitFrom_match; [| reflexivity].
  rewrite !consHead_cons. cbn [hd].
  destruct Hpath as [-> | ->]; reflexivity.
Qed.

Lemma extractBatchPath_model_witness :
  extractBatchPath
    (modelRequest "/foo/$batch" "Accept: application/json" []) =
    Ok "foo/Consumption/Model?x=1".
Proof.
  apply (extractBatchPath_model
           (modelRequest "/foo/$batch" "Accept: application/json" [])
           {| headers := [];
              body := "GET Consumption/Model?x=1 HTTP/1.1" ++ CRLF
                      ++ "Accept: application/json" |}
           [] "Accept: application/json");
    [left; reflexivity | reflexivity | reflexivity].
Defined.

(** C2.  [transformBatchResponse] names the response [batch_] followed by
    the decimal digits of [Date.now()], and its body is, code unit for code
    unit: [--id], CRLF, the part header, CRLF CRLF, the status line, CRLF, the
    JSON content type, CRLF CRLF, the forwarded JSON, CRLF, [--id--].  Split at
    its CRLF terminators, the body of a forwarded JSON text without a carriage
    return has exactly these eight lines: one status line, one JSON content
    type, one payload. *)
Theorem transformBatchResponse_layout (requestBody json : string) (now : N) :
  let r := transformBatchResponse requestBody json now in
  id r = "batch_" ++ decimal (Z.of_N now) /\
  responseBody r =
    "--" ++ id r ++ CRLF ++ "Content-Type: application/http" ++ CRLF ++ CRLF
    ++ "HTTP/1.1 200 OK" ++ CRLF ++ "Content-Type: application/json" ++ CRLF
    ++ CRLF ++ json ++ CRLF ++ "--" ++ id r ++ "--" /\
  (lacks CR json = true ->
   split (responseBody r) CRLF =
     ["--" ++ id r; "Content-Type: application/http"; "";
      "HTTP/1.1 200 OK"; "Content-Type: application/json"; "";
      json; "--" ++ id r ++ "--"]).
Proof.
  cbv zeta. split; [reflexivity |]. split; [reflexivity |].
  intros Hjson. cbn [id responseBody transformBatchResponse].
  set (bid := "batch_" ++ decimal (Z.of_N now)).
  assert (Hsep : CRLF <> "") by discriminate.
  assert (Hbid : lacks CR bid = true).
  { unfold bid. rewrite lacks_append, decimal_of_N_lacks by reflexivity. reflexivity. }
  assert (Hopen : lacks CR ("--" ++ bid) = true)
    by (rewrite lacks_append, Hbid; reflexivity).
  assert (Hclose : lacks CR ("--" ++ bid ++ "--") = true)
    by (rewrite !lacks_append, Hbid; reflexivity).
  rewrite <- (append_assoc "--" bid).
  rewrite split_segment by (try exact Hsep; now apply lacks_freeUntilEnd).
  rewrite split_segment by (try exact Hsep; reflexivity).
  rewrite split_empty_segment by exact Hsep.
  rewrite split_segment by (try exact Hsep; reflexivity).
  rewrite split_segment by (try exact Hsep; reflexivity).
  rewrite split_empty_segment by exact Hsep.
  rewrite split_segment by (try exact Hsep; now apply lacks_freeUntilEnd).
  rewrite split_last by (now apply lacks_freeOf).
  reflexivity.
Qed.

Lemma transformBatchResponse_layout_witness :
  split (responseBody (transformBatchResponse "" "{}" happyNow)) CRLF =
    ["--batch_1700000000000"; "Content-Type: application/http"; "";
     "HTTP/1.1 200 OK"; "Content-Type: application/json"; "";
     "{}"; "--batch_1700000000000--"].
Proof.
  apply (proj2 (proj2 (transformBatchResponse_layout "" "{}" happyNow))).
  reflexivity.
Defined.

End ServiceProps.


(** ** The batch envelope parser *)

Module BatchProps.
Import Js JsFacts Batch Envelope Samples.

Lemma cleanText_lacks (s : string) :
  cleanText s = true -> lacks LF s = true /\ lacks CR s = true.
Proof. unfold cleanText. intros H. now apply andb_true_iff in H. Qed.

Lemma takeDots_clean (v : string) : cleanText v = true -> takeDots v = v.
Proof.
  intros H. apply cleanText_lacks in H as [Hlf Hcr].
  induction v as [|c v IH]; [reflexivity |].
  cbn [lacks] in Hlf, Hcr.
  apply andb_true_iff in Hlf as [Hc1 Hlf]. apply andb_true_iff in Hcr as [Hc2 Hcr].
  apply negb_true_iff in Hc1, Hc2.
  cbn [takeDots]. unfold is_dot. rewrite Hc1, Hc2. cbn [orb negb].
  now rewrite (IH Hlf Hcr).
Qed.

(** The header line [name: value] is cut at its first colon: colons in the
    value stay in the value. *)
Lemma splitColon_header (k v : string) :
  lacks ":" k = true -> cleanText v = true ->
  splitColon (k ++ ": " ++ v) = (k, Some (" " ++ v)).
Proof.
  intros Hk Hv. induction k as [|c k IH].
  - change ("" ++ ": " ++ v) with (String ":" (String " " v)).
    cbn [splitColon]. change (Ascii.eqb ":" ":") with true.
    change (takeDots (String " " v)) with (String " " (takeDots v)).
    now rewrite (takeDots_clean v Hv).
  - cbn [lacks] in Hk. apply andb_true_iff in Hk as [Hc Hk].
    apply negb_true_iff in Hc.
    change (String c k ++ ": " ++ v) with (String c (k ++ ": " ++ v)).
    cbn [splitColon]. rewrite Hc. cbn [andb]. now rewrite (IH Hk).
Qed.

Lemma splitColon_plain (l : string) :
  lacks ":" l = true -> splitColon l = (l, None).
Proof.
  induction l as [|c l IH]; [reflexivity |].
  cbn [lacks]. intros H. apply andb_true_iff in H as [Hc Hl].
  apply negb_true_iff in Hc. cbn [splitColon]. rewrite Hc. cbn [andb].
  now rewrite (IH Hl).
Qed.

Lemma headerLine_nonblank (h : string * string) : blank (headerLine h) = false.
Proof.
  unfold headerLine. rewrite blank_append.
  change (blank (": " ++ snd h)) with false. apply andb_false_r.
Qed.

Lemma headerLine_lacks_LF (h : string * string) :
  cleanText (fst h) = true -> cleanText (snd h) = true ->
  lacks LF (headerLine h) = true.
Proof.
  intros Hk Hv. apply cleanText_lacks in Hk as [Hk _].
  apply cleanText_lacks in Hv as [Hv _].
  unfold headerLine. rewrite !lacks_append, Hk, Hv. reflexivity.
Qed.

Lemma readableHeader_parts (h : string * string) :
  readableHeader h = true ->
  cleanText (fst h) = true /\ cleanText (snd h) = true /\
  lacks ":" (fst h) = true /\ truthy (fst h) = true.
Proof.
  unfold readableHeader. intros H.
  apply andb_true_iff in H as [H H4]. apply andb_true_iff in H as [H H3].
  apply andb_true_iff in H as [H1 H2]. auto.
Qed.

Lemma plainLine_parts (l : string) :
  plainLine l = true ->
  cleanText l = true /\ lacks ":" l = true /\ blank l = false.
Proof.
  unfold plainLine. intros H.
  apply andb_true_iff in H as [H H3]. apply andb_true_iff in H as [H1 H2].
  apply negb_true_iff in H3. auto.
Qed.

Lemma headerStep_header (h : Headers) (bodyIndex i : nat) (kv : string * string) :
  readableHeader kv = true ->
  headerStep (h, bodyIndex) i (headerLine kv) =
    (setKey h (trim (fst kv)) (trim (snd kv)), bodyIndex).
Proof.
  intros H. apply readableHeader_parts in H as (Hk & Hv & Hcolon & Hname).
  unfold headerStep. rewrite truthy_trim, headerLine_nonblank. cbn [negb].
  unfold headerLine. rewrite (splitColon_header _ _ Hcolon Hv), Hname.
  cbn [truthy append andb].
  pose proof (trim_app_blank " " (snd kv) eq_refl) as Ht. cbn [append] in Ht.
  now rewrite Ht.
Qed.

Lemma headerStep_blank (st : Headers * nat) (i : nat) :
  headerStep st i "" = (fst st, i + 1).
Proof. now destruct st. Qed.

Lemma headerStep_plain (st : Headers * nat) (i : nat) (l : string) :
  plainLine l = true -> headerStep st i l = st.
Proof.
  intros H. apply plainLine_parts in H as (_ & Hcolon & Hblank).
  destruct st as [h bodyIndex]. unfold headerStep.
  rewrite truthy_trim, Hblank. cbn [negb].
  now rewrite (splitColon_plain l Hcolon).
Qed.

Lemma forEachLine_app (st : Headers * nat) (i : nat) (l1 l2 : list string) :
  forEachLine st i (l1 ++ l2)%list =
    forEachLine (forEachLine st i l1) (i + List.length l1) l2.
Proof.
  revert st i; induction l1 as [|l l1 IH]; intros st i.
  - cbn [forEachLine List.length]. now rewrite Nat.add_0_r.
  - rewrite <- app_comm_cons. cbn [forEachLine List.length].
    rewrite IH. f_equal. lia.
Qed.

Lemma forEachLine_headers (h : Headers) (bodyIndex i : nat)
    (hs : list (string * string)) :
  forallb readableHeader hs = true ->
  forEachLine (h, bodyIndex) i (map headerLine hs) =
    (fold_left (fun h kv => setKey h (trim (fst kv)) (trim (snd kv))) hs h,
     bodyIndex).
Proof.
  revert h i; induction hs as [|kv hs IH]; intros h i H; [reflexivity |].
  cbn [forallb] in H. apply andb_true_iff in H as [Hkv Hhs].
  cbn [map forEachLine fold_left]. rewrite (headerStep_header _ _ _ _ Hkv).
  now apply IH.
Qed.

Lemma forEachLine_plain (st : Headers * nat) (i : nat) (ls : list string) :
  forallb plainLine ls = true -> forEachLine st i ls = st.
Proof.
  revert i; induction ls as [|l ls IH]; intros i H; [reflexivity |].
  cbn [forallb] in H. apply andb_true_iff in H as [Hl Hls].
  cbn [forEachLine]. rewrite (headerStep_plain _ _ _ Hl). now apply IH.
Qed.


Lemma join_cons (sep l : string) (ls : list string) :
  ls <> [] -> join sep (l :: ls) = l ++ sep ++ join sep ls.
Proof. destruct ls; [contradiction | reflexivity]. Qed.

Lemma trimLast_nonempty (ls : list string) : ls <> [] -> trimLast ls <> [].
Proof. destruct ls as [|l [|l2 rest]]; [contradiction | discriminate ..]. Qed.

Lemma trimLast_cons (l : string) (ls : list string) :
  ls <> [] -> trimLast (l :: ls) = l :: trimLast ls.
Proof. destruct ls; [contradiction | reflexivity]. Qed.

Lemma trimLast_idempotent (ls : list string) : trimLast (trimLast ls) = trimLast ls.
Proof.
  induction ls as [|l ls IH]; [reflexivity |].
  destruct ls as [|l2 rest].
  - cbn [trimLast]. now rewrite trimEnd_idempotent.
  - rewrite (trimLast_cons l (l2 :: rest)) by discriminate.
    rewrite trimLast_cons by (apply trimLast_nonempty; discriminate).
    now rewrite IH.
Qed.

Lemma plainLine_trimEnd (l : string) :
  plainLine l = true -> plainLine (trimEnd l) = true.
Proof.
  intros H. apply plainLine_parts in H as (Hclean & Hcolon & Hblank).
  apply cleanText_lacks in Hclean as [Hlf Hcr].
  unfold plainLine, cleanText.
  now rewrite !lacks_trimEnd, blank_trimEnd, Hblank.
Qed.

Lemma trimLast_plain (ls : list string) :
  forallb plainLine ls = true -> forallb plainLine (trimLast ls) = true.
Proof.
  induction ls as [|l ls IH]; [reflexivity |].
  cbn [forallb]. intros H. apply andb_true_iff in H as [Hl Hls].
  destruct ls as [|l2 rest].
  - cbn [trimLast forallb]. now rewrite plainLine_trimEnd.
  - rewrite trimLast_cons by discriminate. cbn [forallb].
    now rewrite Hl, (IH Hls).
Qed.

Lemma plain_join_nonblank (sep : string) (ls : list string) :
  ls <> [] -> forallb plainLine ls = true -> blank (join sep ls) = false.
Proof.
  destruct ls as [|l ls]; [contradiction |]. intros _ H.
  cbn [forallb] in H. apply andb_true_iff in H as [Hl _].
  apply plainLine_parts in Hl as (_ & _ & Hblank).
  destruct ls as [|l2 rest]; [exact Hblank |].
  rewrite join_cons by discriminate. now rewrite blank_append, Hblank.
Qed.

(** Trimming the end of a text of plain lines trims its last line. *)
Lemma trimEnd_join (sep : string) (ls : list string) :
  ls <> [] -> forallb plainLine ls = true ->
  trimEnd (join sep ls) = join sep (trimLast ls).
Proof.
  induction ls as [|l ls IH]; [contradiction |]. intros _ H.
  destruct ls as [|l2 rest]; [reflexivity |].
  assert (Hrest : forallb plainLine (l2 :: rest) = true).
  { cbn [forallb] in H. now apply andb_true_iff in H as [_ H]. }
  assert (Hnb : blank (join sep (l2 :: rest)) = false)
    by (apply plain_join_nonblank; [discriminate | exact Hrest]).
  rewrite join_cons, trimLast_cons by discriminate.
  rewrite (join_cons sep l (trimLast (l2 :: rest)))
    by (apply trimLast_nonempty; discriminate).
  rewrite trimEnd_app_nonblank by (rewrite blank_append, Hnb; apply andb_false_r).
  rewrite trimEnd_app_nonblank by exact Hnb.
  now rewrite IH by (discriminate || exact Hrest).
Qed.

Lemma splitLines_join (ls : list string) :
  ls <> [] -> forallb plainLine ls = true -> splitLines (join CRLF ls) = ls.
Proof.
  induction ls as [|l ls IH]; [contradiction |]. intros _ H.
  cbn [forallb] in H. apply andb_true_iff in H as [Hl Hls].
  apply plainLine_parts in Hl as (Hclean & _ & _).
  apply cleanText_lacks in Hclean as [Hlf _].
  destruct ls as [|l2 rest]; [now apply splitLines_single |].
  rewrite join_cons, splitLines_CRLF by (discriminate || exact Hlf).
  now rewrite IH by (discriminate || exact Hls).
Qed.

Lemma trim_join_trimLast (ls : list string) :
  ls <> [] -> forallb plainLine ls = true ->
  trim (join (String LF "") (trimLast ls)) = trim (join (String LF "") ls).
Proof.
  intros Hne H. unfold trim.
  rewrite (trimEnd_join _ (trimLast ls))
    by (apply trimLast_nonempty || apply trimLast_plain; assumption).
  now rewrite trimLast_idempotent, <- (trimEnd_join _ ls) by assumption.
Qed.

Lemma splitLines_headerBlock (hs : list (string * string)) (r : string) :
  forallb readableHeader hs = true ->
  splitLines (headerBlock hs ++ r) = (map headerLine hs ++ splitLines r)%list.
Proof.
  induction hs as [|h hs IH]; intros H; [reflexivity |].
  cbn [forallb] in H. apply andb_true_iff in H as [Hh Hhs].
  apply readableHeader_parts in Hh as (Hk & Hv & _ & _).
  cbn [headerBlock map]. rewrite !append_assoc.
  rewrite splitLines_CRLF by now apply headerLine_lacks_LF.
  now rewrite (IH Hhs).
Qed.

Lemma skipn_past (A : Type) (a : list A) (x : A) (b : list A) :
  skipn (List.length a + 1) (a ++ x :: b)%list = b.
Proof.
  induction a as [|y a IH]; [reflexivity |]. exact IH.
Qed.

(** The lines after the first: header lines, a blank line, plain lines. *)
Lemma partOfLines_block (hs : list (string * string)) (bl : list string) :
  forallb readableHeader hs = true -> forallb plainLine bl = true ->
  partOfLines (map headerLine hs ++ "" :: bl)%list =
    {| headers := headerObject hs; body := trim (join (String LF "") bl) |}.
Proof.
  intros Hhs Hbl. unfold partOfLines.
  rewrite forEachLine_app, (forEachLine_headers _ _ _ _ Hhs).
  cbn [forEachLine]. rewrite headerStep_blank. cbn [fst].
  rewrite (forEachLine_plain _ _ _ Hbl).
  unfold slice. rewrite length_map. cbn [Nat.add].
  now rewrite <- (length_map headerLine hs), skipn_past.
Qed.

Ltac not_blank H :=
  rewrite ?blank_append, ?H, ?headerLine_nonblank;
  cbn [andb]; rewrite ?andb_false_r; reflexivity.

(** What the parser makes of one rendered part. *)
Lemma parsePart_renderPart (b : string) (p : Part) :
  roundTrips b p = true -> parsePart (renderPart p) = reported p.
Proof.
  destruct p as [[|h hs] [|l ls]]; try discriminate.
  unfold roundTrips. cbn [partHeaders partBody]. intros H.
  apply andb_true_iff in H as [H _]. apply andb_true_iff in H as [H Hbody].
  apply andb_true_iff in H as [H Hhs]. apply andb_true_iff in H as [Hk Hv].
  assert (Hne : l :: ls <> []) by discriminate.
  pose proof (plain_join_nonblank CRLF _ Hne Hbody) as HJ.
  unfold parsePart, renderPart, reported. cbn [partHeaders partBody headerBlock tl].
  set (J := join CRLF (l :: ls)) in *.
  rewrite !append_assoc. unfold trim.
  repeat (rewrite trimEnd_app_nonblank; [| not_blank HJ]).
  rewrite trimEnd_app_blank by reflexivity.
  unfold J. rewrite (trimEnd_join CRLF _ Hne Hbody).
  rewrite trimStart_app_blank by reflexivity.
  rewrite trimStart_app_nonblank by apply headerLine_nonblank.
  rewrite splitLines_CRLF
    by (apply lacks_trimStart; now apply headerLine_lacks_LF).
  cbn [tl]. rewrite (splitLines_headerBlock _ _ Hhs), splitLines_blank_line.
  rewrite splitLines_join
    by (apply trimLast_nonempty || apply trimLast_plain; assumption).
  rewrite partOfLines_block by (try apply trimLast_plain; assumption).
  now rewrite trim_join_trimLast.
Qed.

Lemma roundTrips_free (b : string) (p : Part) :
  roundTrips b p = true -> freeUntilEnd ("--" ++ b) (renderPart p) = true.
Proof.
  unfold roundTrips. destruct (partHeaders p), (partBody p); try discriminate.
  intros H. now apply andb_true_iff in H as [_ H].
Qed.

Lemma roundTrips_kept (b : string) (p : Part) :
  roundTrips b p = true ->
  keepSegment ("--" ++ b ++ "--") (renderPart p) = true.
Proof.
  destruct p as [[|h hs] [|l ls]]; try discriminate. intros _.
  unfold keepSegment. rewrite truthy_trim.
  unfold renderPart. cbn [partHeaders partBody headerBlock].
  rewrite !append_assoc, !blank_append, headerLine_nonblank.
  reflexivity.
Qed.

Lemma marker_rest_free (b : string) : b <> "" -> freeOf ("--" ++ b) "--" = true.
Proof. destruct b; [contradiction | reflexivity]. Qed.

Lemma marker_rest_kept (b : string) :
  b <> "" -> keepSegment ("--" ++ b ++ "--") "--" = true.
Proof. destruct b; [contradiction | reflexivity]. Qed.

(** The segments of a rendered body: what precedes the first separator, the
    parts, and the two hyphens that are left of the terminal marker. *)
Lemma split_renderParts (b : string) (parts : list Part) (s0 : string) :
  b <> "" -> forallb (roundTrips b) parts = true ->
  freeUntilEnd ("--" ++ b) s0 = true ->
  split (s0 ++ renderParts b parts ++ ("--" ++ b) ++ "--") ("--" ++ b) =
    (s0 :: map renderPart parts ++ ["--"])%list.
Proof.
  intros Hb. revert s0. induction parts as [|p parts IH]; intros s0 Hall Hfree.
  - cbn [renderParts map app]. change ("" ++ ("--" ++ b) ++ "--") with (("--" ++ b) ++ "--").
    rewrite split_segment by (discriminate || exact Hfree).
    now rewrite split_last by now apply marker_rest_free.
  - cbn [forallb] in Hall. apply andb_true_iff in Hall as [Hp Hall].
    cbn [renderParts map].
    replace (s0 ++ ("--" ++ b ++ renderPart p ++ renderParts b parts)
                ++ ("--" ++ b) ++ "--")
      with (s0 ++ ("--" ++ b)
               ++ (renderPart p ++ renderParts b parts ++ ("--" ++ b) ++ "--"))
      by (now rewrite !append_assoc).
    rewrite split_segment by (discriminate || exact Hfree).
    rewrite (IH _ Hall (roundTrips_free _ _ Hp)). reflexivity.
Qed.

Lemma filter_all (A : Type) (f : A -> bool) (l : list A) :
  forallb f l = true -> filter f l = l.
Proof.
  induction l as [|x l IH]; [reflexivity |].
  cbn [forallb filter]. intros H. apply andb_true_iff in H as [Hx Hl].
  now rewrite Hx, (IH Hl).
Qed.

(** The parts that [parseBatchBody] returns for a rendered body. *)
Lemma parseBatchBody_render (b : string) (parts : list Part) :
  b <> "" -> forallb (roundTrips b) parts = true ->
  parseBatchBody (render b parts) b = (map reported parts ++ [markerPart])%list.
Proof.
  intros Hb Hall. unfold parseBatchBody, render.
  replace (renderParts b parts ++ "--" ++ b ++ "--")
    with ("" ++ renderParts b parts ++ ("--" ++ b) ++ "--")
    by (now rewrite !append_assoc).
  rewrite (split_renderParts b parts "" Hb Hall eq_refl).
  cbn [filter]. change (keepSegment ("--" ++ b ++ "--") "") with false.
  cbv iota. rewrite filter_app. cbn [filter].
  rewrite (marker_rest_kept b Hb).
  rewrite filter_all.
  - rewrite map_app, map_map. cbn [map]. f_equal.
    apply map_ext_in. intros p Hp. apply (parsePart_renderPart b).
    rewrite forallb_forall in Hall. now apply Hall.
  - rewrite forallb_forall. intros seg Hseg. apply in_map_iff in Hseg as (p & <- & Hp).
    apply roundTrips_kept. rewrite forallb_forall in Hall. now apply Hall.
Qed.




(** C4.  The body of the happy path, which ends with the terminal marker
    [--batch_id-123-456--], is parsed into two parts: the second one, with no
    header and an empty body, is what is left of the terminal marker once the
    body is split at [--batch_id-123-456].  The same holds of every rendered
    body: one part more than was rendered, empty, at the end. *)
Theorem parseBatchBody_returns_marker_part :
  parseBatchBody happyBody happyBoundary =
    [ {| headers := [("Content-Transfer-Encoding", "binary")];
         body := "GET Sales_Demo/Items HTTP/1.1" |};
      markerPart ] /\
  split happyBody ("--" ++ happyBoundary) =
    [ ""; CRLF ++ "Content-Type: application/http" ++ CRLF
          ++ "Content-Transfer-Encoding: binary" ++ CRLF ++ CRLF
          ++ "GET Sales_Demo/Items HTTP/1.1" ++ CRLF;
      "--" ] /\
  (forall (b : string) (parts : list Part),
      b <> "" -> forallb (roundTrips b) parts = true ->
      parseBatchBody (render b parts) b
        = (map reported parts ++ [markerPart])%list).
Proof.
  split; [reflexivity |]. split; [reflexivity |]. apply parseBatchBody_render.
Qed.

Lemma tl_lines (l r : string) :
  lacks LF l = true -> blank l = false ->
  tl (splitLines (trim (l ++ CRLF ++ r))) =
    if blank r then [] else splitLines (trimEnd r).
Proof.
  intros Hlf Hl. unfold trim. destruct (blank r) eqn:Hr.
  - rewrite trimEnd_app_blank by (now rewrite blank_append, Hr).
    now rewrite splitLines_single by now apply lacks_trimStart, lacks_trimEnd.
  - rewrite trimEnd_app_nonblank by (now rewrite blank_append, Hr).
    rewrite trimEnd_app_nonblank by exact Hr.
    rewrite trimStart_app_nonblank by exact Hl.
    now rewrite splitLines_CRLF by now apply lacks_trimStart.
Qed.

(** C10.  A part is made of the lines of its trimmed segment after the
    first: two segments that differ in their first line only give the same
    part, headers and body, and the header loop of every part that
    [parseBatchBody] returns runs over the tail of the lines. *)
Theorem parseBatchBody_skips_first_line (l1 l2 r : string) :
  lacks LF l1 = true -> lacks LF l2 = true ->
  blank l1 = false -> blank l2 = false ->
  parsePart (l1 ++ CRLF ++ r) = parsePart (l2 ++ CRLF ++ r) /\
  parsePart (l1 ++ CRLF ++ r) =
    partOfLines (if blank r then [] else splitLines (trimEnd r)) /\
  (forall body boundary : string,
      parseBatchBody body boundary =
        map (fun part => partOfLines (tl (splitLines (trim part))))
            (filter (keepSegment ("--" ++ boundary ++ "--"))
                    (split body ("--" ++ boundary)))).
Proof.
  intros Hlf1 Hlf2 Hb1 Hb2. unfold parsePart.
  rewrite (tl_lines l1 r Hlf1 Hb1), (tl_lines l2 r Hlf2 Hb2).
  repeat split.
Qed.

Lemma parseBatchBody_skips_first_line_witness :
  parsePart ("Content-Type: application/http" ++ CRLF ++
             "Accept: text/plain" ++ CRLF ++ CRLF ++ "GET a HTTP/1.1") =
  parsePart ("X-Other: 1" ++ CRLF ++
             "Accept: text/plain" ++ CRLF ++ CRLF ++ "GET a HTTP/1.1").
Proof.
  apply (parseBatchBody_skips_first_line
           "Content-Type: application/http" "X-Other: 1"
           ("Accept: text/plain" ++ CRLF ++ CRLF ++ "GET a HTTP/1.1"));
    reflexivity.
Defined.

End BatchProps.


(** ** The metadata passes *)

Module XmlProps.
Import Js JsFacts Errors Xml Samples.

Lemma filter_map_idempotent (f : node -> node) (items : list node) :
  (forall x, In x items -> f (f x) = f x) ->
  filter toBoolean (map f (filter toBoolean (map f items))) =
  filter toBoolean (map f items).
Proof.
  induction items as [|x items IH]; intros H; [reflexivity |].
  cbn [map filter]. destruct (toBoolean (f x)) eqn:E.
  - cbn [map filter]. rewrite (H x (or_introl eq_refl)), E.
    f_equal. apply IH. intros y Hy. apply H. now right.
  - apply IH. intros y Hy. apply H. now right.
Qed.

Lemma list_all_In (P : node -> Prop) (items : list node) :
  list_all node P items -> forall x, In x items -> P x.
Proof.
  induction 1 as [|a Ha l Hl IH]; intros x Hx; [contradiction |].
  destruct Hx as [<-|Hx]; [exact Ha | now apply IH].
Qed.

Lemma list_all_fields (P : node -> Prop) (fields : list (string * node)) :
  list_all (string * node) (prod_all string (fun _ => unit) node P) fields ->
  forall kv, In kv fields -> P (snd kv).
Proof.
  induction 1 as [|a Ha l Hl IH]; intros kv Hkv; [contradiction |].
  destruct Hkv as [<-|Hkv]; [| now apply IH].
  now destruct Ha.
Qed.

(** A second run of [removeObsolete] finds nothing to remove. *)
Lemma removeObsolete_idempotent (t : node) :
  removeObsolete (removeObsolete t) = removeObsolete t.
Proof.
  induction t as [| s | items IH | attrs fields IH]; try reflexivity.
  - cbn [removeObsolete]. f_equal. apply filter_map_idempotent.
    now apply list_all_In.
  - cbn [removeObsolete]. destruct (isObsolete attrs) eqn:E; [reflexivity |].
    cbn [removeObsolete]. rewrite E. f_equal. rewrite map_map.
    apply map_ext_in. intros kv Hkv. cbn [fst snd]. f_equal.
    now apply (list_all_fields _ _ IH).
Qed.













End XmlProps.

(** ** More on strings *)

Module JsMore.
Import Js JsFacts.

Lemma dropN_zero (s : string) : dropN 0 s = s.
Proof. now destruct s. Qed.

Lemma prefix_decompose (p s : string) :
  String.prefix p s = true -> s = p ++ dropN (String.length p) s.
Proof.
  revert s. induction p as [|a p IH]; intros s H.
  - now rewrite dropN_zero.
  - destruct s as [|b s]; [discriminate |]. cbn [String.prefix] in H.
    destruct (ascii_dec a b) as [<-|]; [| discriminate].
    cbn [String.length dropN append]. f_equal. now apply IH.
Qed.

Lemma join_consHead (sep : string) (c : ascii) (l : list string) :
  l <> [] -> join sep (consHead c l) = String c (join sep l).
Proof.
  destruct l as [|x [|y l]]; [contradiction | reflexivity ..].
Qed.

Lemma join_empty_head (sep : string) (l : list string) :
  l <> [] -> join sep ("" :: l) = sep ++ join sep l.
Proof. destruct l; [contradiction | reflexivity]. Qed.

(** Joining the pieces of a split with the separator gives the text
    back. *)
Lemma join_split (sep : string) :
  sep <> "" -> forall s, join sep (split s sep) = s.
Proof.
  intros Hsep s. unfold split.
  remember (String.length s) as n eqn:Hn.
  revert s Hn. induction n as [n IH] using lt_wf_ind. intros s Hn.
  destruct s as [|c s]; [reflexivity |].
  destruct (String.prefix sep (String c s)) eqn:E.
  - rewrite (splitFrom_match _ _ _ E).
    destruct sep as [|a sep']; [contradiction |].
    pose proof (prefix_decompose _ _ E) as D.
    cbn [String.length dropN append] in D. injection D as -> D.
    remember (dropN (String.length sep') s) as r eqn:R. clear R. subst s.
    cbn [String.length]. rewrite Nat.sub_1_r, Nat.pred_succ.
    rewrite splitFrom_skip.
    rewrite join_empty_head by apply splitFrom_nonempty.
    rewrite (IH (String.length r)); [reflexivity | | reflexivity].
    subst n. cbn [String.length]. rewrite length_append. lia.
  - rewrite (splitFrom_nomatch _ _ _ E).
    rewrite join_consHead by apply splitFrom_nonempty.
    f_equal. apply (IH (String.length s)); [subst n; cbn; lia | reflexivity].
Qed.

Lemma trimStart_idempotent (s : string) : trimStart (trimStart s) = trimStart s.
Proof.
  induction s as [|c s IH]; [reflexivity |].
  cbn [trimStart]. destruct (is_ws c) eqn:E; [exact IH |].
  cbn [trimStart]. now rewrite E.
Qed.

Lemma trimEnd_trimStart (s : string) :
  trimEnd (trimStart s) = trimStart (trimEnd s).
Proof.
  induction s as [|c s IH]; [reflexivity |].
  cbn [trimStart]. destruct (is_ws c) eqn:E.
  - rewrite IH. cbn [trimEnd]. destruct (trimEnd s) as [|d r] eqn:T.
    + now rewrite E.
    + cbn [trimStart]. now rewrite E.
  - cbn [trimEnd]. destruct (trimEnd s) as [|d r]; rewrite ?E;
      cbn [trimStart]; now rewrite E.
Qed.

Lemma trim_idempotent (s : string) : trim (trim s) = trim s.
Proof.
  unfold trim. rewrite trimEnd_trimStart, trimEnd_idempotent.
  apply trimStart_idempotent.
Qed.


(** A text has a second piece exactly when the separator occurs in it. *)
Lemma split_second (sep s : string) :
  sep <> "" ->
  nth_error (split s sep) 1 = None <-> freeOf sep s = true.
Proof.
  intros Hsep. unfold split. induction s as [|c s IH].
  - cbn. tauto.
  - cbn [freeOf]. destruct (String.prefix sep (String c s)) eqn:E.
    + rewrite (splitFrom_match _ _ _ E). cbn [negb andb nth_error].
      split; [| discriminate].
      destruct (splitFrom sep (String.length sep - 1) s) eqn:S; [| discriminate].
      now apply splitFrom_nonempty in S.
    + rewrite (splitFrom_nomatch _ _ _ E). cbn [negb andb]. rewrite <- IH.
      destruct (splitFrom sep 0 s) as [|x l] eqn:S.
      * now apply splitFrom_nonempty in S.
      * rewrite consHead_cons. reflexivity.
Qed.

Lemma includes_freeOf (sep s : string) :
  sep <> "" -> includes s sep = negb (freeOf sep s).
Proof.
  intros Hsep. induction s as [|c s IH].
  - destruct sep; [contradiction | reflexivity].
  - cbn [includes freeOf]. rewrite IH. now destruct (String.prefix sep (String c s)).
Qed.

End JsMore.

(** ** More on the metadata passes *)

Module XmlMore.
Import Js JsFacts JsMore Errors Xml Tree XmlProps Samples.

Lemma existsb_flat_map {A B : Type} (p : B -> bool) (f : A -> list B) (l : list A) :
  existsb p (flat_map f l) = existsb (fun x => existsb p (f x)) l.
Proof.
  induction l as [|x l IH]; [reflexivity |].
  cbn [flat_map existsb]. now rewrite existsb_app, IH.
Qed.

Lemma existsb_none {A : Type} (p : A -> bool) (l : list A) :
  (forall x, In x l -> p x = false) -> existsb p l = false.
Proof.
  induction l as [|x l IH]; intros H; [reflexivity |].
  cbn [existsb]. rewrite (H x (or_introl eq_refl)). apply IH.
  intros y Hy. apply H. now right.
Qed.

Lemma filter_flat_map {A B : Type} (p : B -> bool) (f : A -> list B) (l : list A) :
  filter p (flat_map f l) = flat_map (fun x => filter p (f x)) l.
Proof.
  induction l as [|x l IH]; [reflexivity |].
  cbn [flat_map]. now rewrite filter_app, IH.
Qed.

Lemma flat_map_ext_In {A B : Type} (f g : A -> list B) (l : list A) :
  (forall x, In x l -> f x = g x) -> flat_map f l = flat_map g l.
Proof.
  induction l as [|x l IH]; intros H; [reflexivity |].
  cbn [flat_map]. rewrite (H x (or_introl eq_refl)). f_equal.
  apply IH. intros y Hy. apply H. now right.
Qed.

Lemma falsy_removeObsolete (t : node) :
  toBoolean t = false -> removeObsolete t = t.
Proof. now destruct t. Qed.

Lemma falsy_removeUnderscores (t : node) :
  toBoolean t = false -> removeUnderscores t = t.
Proof. now destruct t. Qed.

(** Two passes that commute on every item commute on the array. *)
Lemma filter_map_commute (f g : node -> node) (items : list node) :
  (forall t, toBoolean t = false -> f t = t) ->
  (forall t, toBoolean t = false -> g t = t) ->
  (forall x, In x items -> f (g x) = g (f x)) ->
  filter toBoolean (map f (filter toBoolean (map g items))) =
  filter toBoolean (map g (filter toBoolean (map f items))).
Proof.
  intros Hf Hg. induction items as [|x items IH]; intros H; [reflexivity |].
  assert (IH' := IH (fun y Hy => H y (or_intror Hy))).
  assert (Hx := H x (or_introl eq_refl)).
  cbn [map filter].
  destruct (toBoolean (g x)) eqn:Eg, (toBoolean (f x)) eqn:Ef; cbn [map filter].
  - rewrite Hx. destruct (toBoolean (g (f x))); now rewrite IH'.
  - rewrite Hx, (Hg _ Ef), Ef. exact IH'.
  - rewrite <- Hx, (Hf _ Eg), Eg. exact IH'.
  - exact IH'.
Qed.

(** X1.  The two tree passes commute: removing the obsolete labels and
    then the elements with an underscore name leaves the same tree as the
    two passes in the other order. *)
Theorem removeObsolete_removeUnderscores_commute (t : node) :
  removeObsolete (removeUnderscores t) = removeUnderscores (removeObsolete t).
Proof.
  induction t as [| s | items IH | attrs fields IH]; try reflexivity.
  - cbn [removeObsolete removeUnderscores]. f_equal.
    apply filter_map_commute.
    + apply falsy_removeObsolete.
    + apply falsy_removeUnderscores.
    + now apply list_all_In.
  - cbn [removeObsolete removeUnderscores].
    destruct (isUnderscored attrs) eqn:U, (isObsolete attrs) eqn:O;
      cbn [removeObsolete removeUnderscores]; rewrite ?U, ?O; try reflexivity.
    f_equal. rewrite !map_map. apply map_ext_in. intros kv Hkv.
    cbn [fst snd]. f_equal. now apply (list_all_fields _ _ IH).
Qed.

Lemma marked_items (p : option Attrs -> bool) (f : node -> node)
    (items : list node) :
  (forall x, In x items -> existsb (marked p) (descendants (f x)) = false) ->
  existsb (marked p)
    (flat_map descendants (filter toBoolean (map f items))) = false.
Proof.
  intros H. rewrite existsb_flat_map. apply existsb_none.
  intros y Hy. apply filter_In in Hy as [Hy _].
  apply in_map_iff in Hy as (x & <- & Hx). now apply H.
Qed.

Lemma marked_fields (p : option Attrs -> bool) (f : node -> node)
    (fields : list (string * node)) :
  (forall kv, In kv fields -> existsb (marked p) (descendants (f (snd kv))) = false) ->
  existsb (marked p)
    (flat_map (fun kv => descendants (snd kv))
       (map (fun kv => (fst kv, f (snd kv))) fields)) = false.
Proof.
  intros H. rewrite existsb_flat_map. apply existsb_none.
  intros y Hy. apply in_map_iff in Hy as (kv & <- & Hkv). now apply H.
Qed.

(** X2.  After [removeObsolete] no element of the tree, at any depth, is
    an obsolete label, and a second run changes nothing. *)
Theorem removeObsolete_leaves_no_obsolete_label (t : node) :
  existsb (marked isObsolete) (descendants (removeObsolete t)) = false /\
  removeObsolete (removeObsolete t) = removeObsolete t.
Proof.
  split; [| apply removeObsolete_idempotent].
  induction t as [| s | items IH | attrs fields IH]; try reflexivity.
  - cbn [removeObsolete descendants existsb marked orb].
    apply marked_items. now apply list_all_In.
  - cbn [removeObsolete]. destruct (isObsolete attrs) eqn:E; [reflexivity |].
    cbn [descendants existsb marked]. rewrite E. cbn [orb].
    apply marked_fields. now apply (list_all_fields _ _ IH).
Qed.

Lemma removeUnderscores_again (t : node) :
  removeUnderscores (removeUnderscores t) = removeUnderscores t.
Proof.
  induction t as [| s | items IH | attrs fields IH]; try reflexivity.
  - cbn [removeUnderscores]. f_equal. apply filter_map_idempotent.
    now apply list_all_In.
  - cbn [removeUnderscores]. destruct (isUnderscored attrs) eqn:E; [reflexivity |].
    cbn [removeUnderscores]. rewrite E. f_equal. rewrite map_map.
    apply map_ext_in. intros kv Hkv. cbn [fst snd]. f_equal.
    now apply (list_all_fields _ _ IH).
Qed.

(** X3.  After [removeUnderscores] no element of the tree, at any depth,
    has a name that starts with an underscore, and a second run changes
    nothing. *)
Theorem removeUnderscores_leaves_no_underscore_name (t : node) :
  existsb (marked isUnderscored) (descendants (removeUnderscores t)) = false /\
  removeUnderscores (removeUnderscores t) = removeUnderscores t.
Proof.
  split; [| apply removeUnderscores_again].
  induction t as [| s | items IH | attrs fields IH]; try reflexivity.
  - cbn [removeUnderscores descendants existsb marked orb].
    apply marked_items. now apply list_all_In.
  - cbn [removeUnderscores]. destruct (isUnderscored attrs) eqn:E; [reflexivity |].
    cbn [descendants existsb marked]. rewrite E. cbn [orb].
    apply marked_fields. now apply (list_all_fields _ _ IH).
Qed.

(** X4.  [findAllAnnotations] returns exactly the annotation groups among
    the nodes of the tree (the elements with a [Target] attribute and an
    [Annotation] child), each once, in document order. *)
Theorem findAllAnnotations_groups_in_document_order (t : node) :
  findAllAnnotations t = filter isGroup (descendants t).
Proof.
  induction t as [| s | items IH | attrs fields IH]; try reflexivity.
  - cbn [findAllAnnotations descendants filter isGroup].
    rewrite filter_flat_map. apply flat_map_ext_In. now apply list_all_In.
  - cbn [findAllAnnotations descendants filter isGroup].
    assert (flat_map (fun kv : string * node =>
                        if isObject (snd kv) then findAllAnnotations (snd kv) else [])
              fields =
            filter isGroup (flat_map (fun kv => descendants (snd kv)) fields)) as ->.
    { rewrite filter_flat_map. apply flat_map_ext_In. intros kv Hkv.
      rewrite (list_all_fields _ _ IH kv Hkv).
      now destruct (snd kv). }
    now destruct (isAnnotationGroup attrs fields).
Qed.

Lemma afterLastSlash_none (s : string) :
  afterLastSlash s = None <-> lacks "/" s = true.
Proof.
  induction s as [|c s IH]; [cbn; tauto |].
  cbn [afterLastSlash lacks]. destruct (afterLastSlash s) as [r|].
  - split; [discriminate |]. intros H. apply andb_true_iff in H as [_ H].
    apply IH in H. discriminate.
  - destruct (Ascii.eqb c "/"); cbn [negb andb].
    + split; discriminate.
    + split; [intros _; now apply IH | reflexivity].
Qed.

Lemma afterLastSlash_lacks (s r : string) :
  afterLastSlash s = Some r -> lacks "/" r = true.
Proof.
  revert r. induction s as [|c s IH]; intros r; [discriminate |].
  cbn [afterLastSlash]. destruct (afterLastSlash s) as [r'|] eqn:E.
  - intros [= <-]. now apply IH.
  - destruct (Ascii.eqb c "/"); [| discriminate].
    intros [= <-]. now apply afterLastSlash_none.
Qed.

Lemma afterLastSlash_app (d r : string) :
  lacks "/" r = true -> afterLastSlash (d ++ "/" ++ r) = Some r.
Proof.
  intros H. induction d as [|c d IH].
  - cbn [append afterLastSlash]. apply afterLastSlash_none in H. now rewrite H.
  - cbn [append afterLastSlash] in *. now rewrite IH.
Qed.

(** X5.  [extractLastSegments] keeps the number and the order of the paths;
    no segment it returns has a slash in it; of a path that ends in a slash
    and a text without slash it returns that text, and a path without slash
    is returned as it is. *)
Theorem extractLastSegments_segments :
  (forall paths,
      List.length (extractLastSegments paths) = List.length paths /\
      forallb (lacks "/") (extractLastSegments paths) = true) /\
  (forall targets : list (string * string),
      forallb (fun t => lacks "/" (snd t)) targets = true ->
      extractLastSegments (map (fun t => fst t ++ "/" ++ snd t) targets) =
      map snd targets) /\
  (forall paths,
      forallb (lacks "/") paths = true -> extractLastSegments paths = paths).
Proof.
  split; [| split].
  - intros paths. split; [apply length_map |].
    induction paths as [|p paths IH]; [reflexivity |].
    cbn [extractLastSegments map forallb]. fold (extractLastSegments paths).
    rewrite IH, andb_true_r.
    destruct (afterLastSlash p) as [r|] eqn:E.
    + now apply afterLastSlash_lacks in E.
    + now apply afterLastSlash_none.
  - induction targets as [|[d r] targets IH]; [reflexivity |].
    cbn [forallb map fst snd extractLastSegments]. intros H.
    apply andb_true_iff in H as [Hr Hl].
    rewrite (afterLastSlash_app _ _ Hr). f_equal. now apply IH.
  - induction paths as [|p paths IH]; [reflexivity |].
    cbn [forallb map extractLastSegments]. intros H.
    apply andb_true_iff in H as [Hp Hl].
    apply afterLastSlash_none in Hp. rewrite Hp. f_equal. now apply IH.
Qed.

End XmlMore.

(** ** More on the text passes *)

Module TextProps.
Import Js JsFacts JsMore Errors Xml Tree Marks XmlProps Samples.

Lemma prefix_before (sep a t : string) :
  String.prefix sep (a ++ sep) = false -> a <> "" ->
  String.prefix sep (a ++ sep ++ t) = false.
Proof.
  intros H Ha. rewrite <- append_assoc.
  rewrite prefix_app_long; [exact H |].
  rewrite length_append. lia.
Qed.

(** Before the first tag opening nothing is replaced. *)
Lemma replaceFrom_before (pre t : string) :
  freeUntilEnd annotationOpen pre = true ->
  replaceFrom None (pre ++ annotationOpen ++ t) =
  pre ++ replaceFrom None (annotationOpen ++ t).
Proof.
  induction pre as [|c pre IH]; [reflexivity |].
  cbn [freeUntilEnd]. intros H. apply andb_true_iff in H as [H1 H2].
  apply negb_true_iff in H1.
  change ((String c pre) ++ annotationOpen ++ t)
    with (String c (pre ++ annotationOpen ++ t)).
  cbn [replaceFrom]. unfold matchZeroPath.
  change (String c (pre ++ annotationOpen ++ t))
    with ((String c pre) ++ annotationOpen ++ t).
  rewrite (prefix_before _ _ _ H1) by discriminate.
  cbn [append]. f_equal. now apply IH.
Qed.

Lemma replaceFrom_free (s : string) :
  freeOf annotationOpen s = true -> replaceFrom None s = s.
Proof.
  induction s as [|c s IH]; [reflexivity |].
  cbn [freeOf]. intros H. apply andb_true_iff in H as [H1 H2].
  apply negb_true_iff in H1.
  cbn [replaceFrom]. unfold matchZeroPath. rewrite H1. f_equal. now apply IH.
Qed.

(** Inside a match the code units are copied up to the final [0], which
    gets the underscore. *)
Lemma replaceFrom_pending (a : string) (c : ascii) (r : string) :
  replaceFrom (Some (String.length a)) (a ++ String c r) =
  a ++ String "_" (String c (replaceFrom None r)).
Proof.
  induction a as [|d a IH]; [reflexivity |].
  cbn [String.length append replaceFrom]. now rewrite IH.
Qed.

Lemma upTo_app (stop : ascii) (a b : string) :
  lacks stop a = true -> upTo stop (a ++ b) = a ++ upTo stop b.
Proof.
  induction a as [|c a IH]; [reflexivity |].
  cbn [lacks]. intros H. apply andb_true_iff in H as [H1 H2].
  apply negb_true_iff in H1. cbn [append upTo]. rewrite H1. f_equal. now apply IH.
Qed.

Lemma lastOccurrence_app (pat a u : string) :
  lastOccurrence pat (a ++ u) = None \/
  (exists k, lastOccurrence pat (a ++ u) = Some k) .
Proof. destruct (lastOccurrence pat (a ++ u)); eauto. Qed.

Lemma lastOccurrence_at (p : ascii) (pt mid u : string) :
  lastOccurrence (String p pt) (pt ++ u) = None ->
  lastOccurrence (String p pt) (mid ++ String p pt ++ u) =
    Some (String.length mid).
Proof.
  intros H. induction mid as [|c mid IH].
  - change ("" ++ String p pt ++ u) with (String p (pt ++ u)).
    cbn [lastOccurrence]. rewrite H.
    change (String p (pt ++ u)) with (String p pt ++ u).
    now rewrite prefix_refl_app.
  - change ((String c mid) ++ String p pt ++ u)
      with (String c (mid ++ String p pt ++ u)).
    cbn [lastOccurrence String.length]. now rewrite IH.
Qed.

(** X6.  [replaceZeroInPath] leaves a text without [<Annotation] as it is.
    In a text whose first [<Annotation] tag has, before its [>], a last
    attribute text [Path=] with a value that starts with [0], that [0] gets an
    underscore in front; what precedes the tag is copied, and the scan goes
    on behind the [0]. *)
Theorem replaceZeroInPath_first_tag :
  (forall xml, includes xml "<Annotation" = false -> replaceZeroInPath xml = xml) /\
  (forall pre mid post,
      freeUntilEnd annotationOpen pre = true ->
      lacks ">" mid = true ->
      lastOccurrence pathZero (pathTail ++ upTo ">" post) = None ->
      replaceZeroInPath (pre ++ annotationOpen ++ mid ++ pathZero ++ post) =
      pre ++ annotationOpen ++ mid ++ pathUnderscoreZero ++ replaceZeroInPath post).
Proof.
  split.
  - intros xml H. apply replaceFrom_free.
    rewrite includes_freeOf in H by discriminate.
    now apply negb_false_iff in H.
  - intros pre mid post Hpre Hmid Hlast. unfold replaceZeroInPath.
    rewrite (replaceFrom_before _ _ Hpre). f_equal.
    assert (M : matchZeroPath (annotationOpen ++ mid ++ pathZero ++ post) =
                Some (String.length annotationOpen + String.length mid
                      + (String.length pathZero - 1))).
    { unfold matchZeroPath. rewrite prefix_refl_app.
      replace (dropN (String.length annotationOpen)
                 (annotationOpen ++ mid ++ pathZero ++ post))
        with (mid ++ pathZero ++ post) by reflexivity.
      rewrite (upTo_app _ _ _ Hmid).
      rewrite (upTo_app ">" pathZero post) by reflexivity.
      change pathZero with (String "P" pathTail) at 1 2.
      rewrite lastOccurrence_at; [reflexivity |].
      exact Hlast. }
    remember (mid ++ pathZero ++ post) as rest eqn:R.
    change (annotationOpen ++ rest) with (String "<" ("Annotation" ++ rest)) in *.
    cbn [replaceFrom]. rewrite M. subst rest.
    replace ("Annotation" ++ mid ++ pathZero ++ post)
      with (("Annotation" ++ mid ++ quoted "Path='") ++ String "0" post).
    2:{ rewrite !append_assoc. reflexivity. }
    replace (String.length annotationOpen + String.length mid
             + (String.length pathZero - 1) - 1)
      with (String.length ("Annotation" ++ mid ++ quoted "Path='")).
    2:{ rewrite !length_append. cbn. lia. }
    rewrite replaceFrom_pending.
    change annotationOpen with (String "<" "Annotation").
    cbn [append]. f_equal. rewrite !append_assoc. reflexivity.
Qed.

Lemma replaceZeroInPath_first_tag_witness :
  replaceZeroInPath
    ("<Schema>" ++ annotationOpen ++ quoted " Term='UI.Hidden' " ++ pathZero
       ++ quoted "'/></Schema>") =
  "<Schema>" ++ annotationOpen ++ quoted " Term='UI.Hidden' " ++ pathUnderscoreZero
    ++ replaceZeroInPath (quoted "'/></Schema>").
Proof.
  apply (proj2 replaceZeroInPath_first_tag
           "<Schema>" (quoted " Term='UI.Hidden' ") (quoted "'/></Schema>"));
    reflexivity.
Defined.

(** The pieces of a text split at a code unit do not hold that code unit. *)
Lemma split_pieces_lack (c : ascii) (s piece : string) :
  In piece (split s (String c "")) -> lacks c piece = true.
Proof.
  unfold split. revert piece. induction s as [|d s IH]; intros piece H.
  - destruct H as [<-|[]]. reflexivity.
  - destruct (String.prefix (String c "") (String d s)) eqn:E.
    + rewrite (splitFrom_match _ _ _ E) in H. cbn [String.length Nat.sub] in H.
      destruct H as [<-|H]; [reflexivity | now apply IH].
    + rewrite (splitFrom_nomatch _ _ _ E) in H.
      destruct (splitFrom (String c "") 0 s) as [|x l] eqn:S.
      * now apply splitFrom_nonempty in S.
      * rewrite consHead_cons in H. destruct H as [<-|H].
        -- cbn [lacks]. rewrite (IH x (or_introl eq_refl)), andb_true_r.
           cbn [String.prefix] in E. destruct (ascii_dec c d) as [->|N].
           ++ now destruct s.
           ++ apply negb_true_iff, Ascii.eqb_neq. congruence.
        -- apply IH. now right.
Qed.

Lemma split_join_unit (c : ascii) (l : list string) :
  l <> [] -> (forall x, In x l -> lacks c x = true) ->
  split (join (String c "") l) (String c "") = l.
Proof.
  induction l as [|x l IH]; [contradiction |]. intros _ H.
  destruct l as [|y l].
  - cbn [join concat]. apply split_last. apply lacks_freeOf.
    apply H. now left.
  - change (join (String c "") (x :: y :: l))
      with (x ++ String c "" ++ join (String c "") (y :: l)).
    rewrite split_segment.
    + f_equal. apply IH; [discriminate |]. intros z Hz. apply H. now right.
    + discriminate.
    + apply lacks_freeUntilEnd. apply H. now left.
Qed.

Lemma filterIndexed_In (keep : nat -> string -> bool) (i : nat)
    (lines : list string) (line : string) :
  In line (filterIndexed keep i lines) ->
  In line lines /\ exists j, keep j line = true.
Proof.
  revert i. induction lines as [|l lines IH]; intros i H; [contradiction |].
  cbn [filterIndexed] in H. destruct (keep i l) eqn:E.
  - destruct H as [<-|H].
    + split; [now left | now exists i].
    + apply IH in H as [H1 H2]. split; [now right | exact H2].
  - apply IH in H as [H1 H2]. split; [now right | exact H2].
Qed.

Lemma filterIndexed_all (keep : nat -> string -> bool) (i : nat)
    (lines : list string) :
  (forall j line, nth_error lines j = Some line -> keep (i + j) line = true) ->
  filterIndexed keep i lines = lines.
Proof.
  revert i. induction lines as [|l lines IH]; intros i H; [reflexivity |].
  cbn [filterIndexed]. pose proof (H 0 l eq_refl) as H0.
  rewrite Nat.add_0_r in H0. rewrite H0. f_equal. apply IH. intros j line Hj.
  replace (i + 1 + j) with (i + S j) by lia. now apply H.
Qed.

(** The lines that [removePropertyNodeByName] returns. *)
Lemma removePropertyNodeByName_lines
    (xml : string) (names : list string) (line : string) :
  In line (split (removePropertyNodeByName xml names) (String LF "")) ->
  (In line (split xml (String LF "")) \/ line = "") /\
  (forall name,
      startsWith (trim line) "<Property" = true ->
      matchName (trim line) = Some name ->
      has names name = false).
Proof.
  unfold removePropertyNodeByName.
  set (lines := split xml (String LF "")).
  set (kept := filterIndexed (keepLine names (List.length lines)) 0 lines).
  intros H. destruct kept as [|k kept'] eqn:K.
  - destruct H as [<-|[]]. split; [now right |]. intros name Hs. discriminate.
  - rewrite split_join_unit in H.
    + rewrite <- K in H. apply filterIndexed_In in H as [Hin [j Hj]].
      split; [now left |]. intros name Hs Hn.
      unfold keepLine in Hj. rewrite Hs, Hn in Hj. cbn [andb] in Hj.
      now destruct (has names name).
    + discriminate.
    + intros x Hx. rewrite <- K in Hx. apply filterIndexed_In in Hx as [Hx _].
      now apply (split_pieces_lack _ xml).
Qed.

(** X7.  No line that [removePropertyNodeByName] returns is a [<Property]
    line whose name is in the list; every line it returns is a line of the
    text it was given (or the empty line of an empty result). *)
Theorem removePropertyNodeByName_removes_named_lines
    (xml : string) (names : list string) (line : string) :
  In line (split (removePropertyNodeByName xml names) (String LF "")) ->
  (In line (split xml (String LF "")) \/ line = "") /\
  (forall name,
      startsWith (trim line) "<Property" = true ->
      matchName (trim line) = Some name ->
      has names name = false).
Proof. apply removePropertyNodeByName_lines. Qed.

Lemma removePropertyNodeByName_removes_named_lines_witness :
  has ["_0"] "a" = false.
Proof.
  apply (proj2 (removePropertyNodeByName_removes_named_lines
                  (quoted "<Property Name='_0'/>" ++ NL ++ quoted "  <Property Name='a'/>")
                  ["_0"] (quoted "  <Property Name='a'/>")
                  (or_introl eq_refl)) "a"); reflexivity.
Defined.

Lemma keepLine_nothing (count index : nat) (line : string) :
  keepLine [] count index line =
  truthy (trim line) || ((0 <? index)%nat && (index <? count - 1)%nat).
Proof.
  unfold keepLine.
  replace (match matchName (trim line) with
           | Some name => has [] name
           | None => false
           end) with false by now destruct (matchName (trim line)).
  now rewrite andb_false_r.
Qed.

Lemma nth_error_last (A : Type) (l : list A) (d x : A) :
  nth_error l (List.length l - 1) = Some x -> last l d = x.
Proof.
  induction l as [|a l IH]; [discriminate |].
  destruct l as [|b l].
  - cbn. now intros [= ->].
  - intros H. change (last (a :: b :: l) d) with (last (b :: l) d).
    apply IH. cbn [List.length Nat.sub] in *. rewrite Nat.sub_0_r. exact H.
Qed.

(** With no name to remove, a text whose first and last lines are not
    blank is returned as it is. *)
Lemma removePropertyNodeByName_nothing (xml : string) :
  let lines := split xml (String LF "") in
  blank (hd "" lines) = false -> blank (last lines "") = false ->
  removePropertyNodeByName xml [] = xml.
Proof.
  intros lines Hfirst Hlast. unfold removePropertyNodeByName. fold lines.
  rewrite filterIndexed_all; [now apply join_split |].
  intros j line Hj. rewrite keepLine_nothing, truthy_trim. cbn [Nat.add].
  destruct (blank line) eqn:B; [| reflexivity]. cbn [negb orb].
  assert (Hlen : j < List.length lines) by (apply nth_error_Some; congruence).
  apply andb_true_iff. split.
  - apply Nat.ltb_lt. destruct j; [| lia].
    destruct lines; [discriminate |]. cbn in Hj, Hfirst. congruence.
  - apply Nat.ltb_lt.
    destruct (Nat.eq_dec j (List.length lines - 1)) as [->|]; [| lia].
    apply (nth_error_last _ _ "") in Hj. congruence.
Qed.

(** X8.  When there is nothing to remove -- no name given, first and last
    line not blank -- [removePropertyNodeByName] returns the text as it
    is, every line break included. *)
Theorem removePropertyNodeByName_without_names (xml : string) :
  blank (hd "" (split xml (String LF ""))) = false ->
  blank (last (split xml (String LF "")) "") = false ->
  removePropertyNodeByName xml [] = xml.
Proof. apply removePropertyNodeByName_nothing. Qed.

Lemma removePropertyNodeByName_without_names_witness :
  removePropertyNodeByName keyBuilt [] = keyBuilt.
Proof.
  apply (removePropertyNodeByName_without_names keyBuilt); reflexivity.
Defined.

Lemma replaceZeroInPath_truthy (xml : string) :
  truthy (replaceZeroInPath xml) = truthy xml.
Proof.
  destruct xml as [|c s]; [reflexivity |].
  unfold replaceZeroInPath. cbn [replaceFrom].
  now destruct (matchZeroPath (String c s)).
Qed.

Section Library.

Variable parse : string -> result node.
Variable build : node -> string.

(** X9.  [cleanXML] fails only with a plain [Error], which has no status
    code, and whose message starts with [Error cleaning XML: ]; it fails so
    on the empty text, without a call of the parser, and when the parser
    rejects the text, with the message of the parser behind the prefixes of
    the two functions that caught it. *)
Theorem cleanXML_failures (xml : string) :
  (forall e, cleanXML parse build xml = Throw e ->
             isBaseError e = false /\ statusCode e = None /\
             startsWith (message e) "Error cleaning XML: " = true) /\
  cleanXML parse build "" =
    Throw (newError "Error cleaning XML: Error: Error filtering XML: Invalid XML content provided") /\
  (forall e0, truthy xml = true -> parse (replaceZeroInPath xml) = Throw e0 ->
              cleanXML parse build xml =
              Throw (newError ("Error cleaning XML: Error: Error filtering XML: "
                               ++ (if truthy (message e0) then message e0
                                   else "Unknown error")))).
Proof.
  split; [| split].
  - intros e. unfold cleanXML. destruct (cleanedTree parse xml) as [t|e1];
      cbn [bind tryCatch]; [discriminate |].
    intros [= <-]. repeat split.
  - reflexivity.
  - intros e0 Hx Hp. unfold cleanXML, cleanedTree, removePrimarykeys,
      filterTargetsWithoutLabel.
    rewrite replaceZeroInPath_truthy, Hx. cbn [bind tryCatch]. rewrite Hp.
    reflexivity.
Qed.

(** X10.  When the parsed metadata has no annotation group to report --
    no target with [/_0] that lacks a label -- and the text, after
    [replaceZeroInPath], neither starts nor ends with a blank line, [cleanXML]
    returns what the builder makes of [removeObsolete] of the parsed tree:
    no line of the text is removed before it is parsed again. *)
Theorem cleanXML_without_key_targets (xml : string) (tree : node) :
  parse (replaceZeroInPath xml) = Ok tree ->
  isObject tree = true ->
  targetsWithoutLabel tree = [] ->
  blank (hd "" (split (replaceZeroInPath xml) (String LF ""))) = false ->
  blank (last (split (replaceZeroInPath xml) (String LF "")) "") = false ->
  cleanXML parse build xml = Ok (build (removeObsolete tree)).
Proof.
  intros Hparse Hobj Htargets Hfirst Hlast.
  assert (Htruthy : truthy (replaceZeroInPath xml) = true).
  { destruct (replaceZeroInPath xml); [discriminate | reflexivity]. }
  unfold cleanXML, cleanedTree, removePrimarykeys, filterTargetsWithoutLabel.
  rewrite Htruthy. cbn [bind tryCatch]. rewrite Hparse. cbn [bind tryCatch].
  rewrite Hobj. cbn [bind tryCatch]. rewrite Htargets.
  cbn [extractLastSegments map].
  rewrite (removePropertyNodeByName_nothing _ Hfirst Hlast).
  rewrite Hparse. reflexivity.
Qed.

End Library.

Lemma cleanXML_without_key_targets_witness :
  cleanXML obsoleteParse obsoleteBuild obsoleteXml = Ok obsoleteBuilt.
Proof.
  apply (cleanXML_without_key_targets obsoleteParse obsoleteBuild obsoleteXml
           (annotationsTree [obsoleteLabel; hiddenAnnotation])); reflexivity.
Defined.

End TextProps.

(** ** A second run of the cleaning *)

Module SecondRunProps.
Import Js JsFacts JsMore Errors Xml Tree Marks XmlProps TextProps Samples.

(** Of the candidates of one tag the scan rewrites the last one: what
    stands before it in the tag, another [Path=] with [0] included, is
    copied. *)
Lemma replaceZeroInPath_last_of_tag (pre mid post : string) :
  freeUntilEnd annotationOpen pre = true ->
  lacks ">" mid = true ->
  lastOccurrence pathZero (pathTail ++ upTo ">" post) = None ->
  replaceZeroInPath (pre ++ annotationOpen ++ mid ++ pathZero ++ post) =
  pre ++ annotationOpen ++ mid ++ pathUnderscoreZero ++ replaceZeroInPath post.
Proof.
  intros Hpre Hmid Hlast. unfold replaceZeroInPath.
  rewrite (replaceFrom_before _ _ Hpre). f_equal.
  assert (M : matchZeroPath (annotationOpen ++ mid ++ pathZero ++ post) =
              Some (String.length annotationOpen + String.length mid
                    + (String.length pathZero - 1))).
  { unfold matchZeroPath. rewrite prefix_refl_app.
    replace (dropN (String.length annotationOpen)
               (annotationOpen ++ mid ++ pathZero ++ post))
      with (mid ++ pathZero ++ post) by reflexivity.
    rewrite (upTo_app _ _ _ Hmid).
    rewrite (upTo_app ">" pathZero post) by reflexivity.
    change pathZero with (String "P" pathTail) at 1 2.
    rewrite lastOccurrence_at; [reflexivity |].
    exact Hlast. }
  remember (mid ++ pathZero ++ post) as rest eqn:R.
  change (annotationOpen ++ rest) with (String "<" ("Annotation" ++ rest)) in *.
  cbn [replaceFrom]. rewrite M. subst rest.
  replace ("Annotation" ++ mid ++ pathZero ++ post)
    with (("Annotation" ++ mid ++ quoted "Path='") ++ String "0" post).
  2:{ rewrite !append_assoc. reflexivity. }
  replace (String.length annotationOpen + String.length mid
           + (String.length pathZero - 1) - 1)
    with (String.length ("Annotation" ++ mid ++ quoted "Path='")).
  2:{ rewrite !length_append. cbn. lia. }
  rewrite replaceFrom_pending.
  change annotationOpen with (String "<" "Annotation").
  cbn [append]. f_equal. rewrite !append_assoc. reflexivity.
Qed.

(** C7.  [cleanXML] is not idempotent.  [replaceZeroInPath] rewrites, in
    each [<Annotation] tag, only the last [Path=] that holds [0]: an earlier
    one in the same tag, as in [PropertyPath="0" Path="0"], is left for the
    next run, where its documentation announces that all occurrences are
    replaced.  So the first run of [cleanXML] on such an annotation rewrites
    [Path], the second [PropertyPath], and the two results differ.  The
    removal of properties, which works by line, is a second source: on
    metadata that comes on a single line the first run removes nothing, the
    builder then puts every element on a line of its own, and the second run
    removes the line of the property [_0].  The pass on the tree,
    [removeObsolete], is idempotent. *)
Theorem cleanXML_second_run_differs :
  (forall pre mid between post : string,
      freeUntilEnd annotationOpen pre = true ->
      lacks ">" mid = true -> lacks ">" between = true ->
      lastOccurrence pathZero (pathTail ++ upTo ">" post) = None ->
      replaceZeroInPath
        (pre ++ annotationOpen ++ mid ++ pathZero ++ between ++ pathZero ++ post) =
      pre ++ annotationOpen ++ mid ++ pathZero ++ between ++ pathUnderscoreZero
        ++ replaceZeroInPath post) /\
  replaceZeroInPath zeroXml = zeroOnce /\
  replaceZeroInPath zeroOnce = zeroTwice /\
  zeroTwice <> zeroOnce /\
  cleanXML zeroParse zeroBuild zeroXml = Ok (xmlDeclaration ++ NL ++ zeroOnce) /\
  cleanXML zeroParse zeroBuild (xmlDeclaration ++ NL ++ zeroOnce) =
    Ok (xmlDeclaration ++ NL ++ zeroTwice) /\
  xmlDeclaration ++ NL ++ zeroTwice <> xmlDeclaration ++ NL ++ zeroOnce /\
  removePrimarykeys keyParse keyXml = Ok keyXml /\
  cleanXML keyParse keyBuild keyXml = Ok keyBuilt /\
  removePrimarykeys keyParse keyBuilt = Ok keyBuiltWithoutLine /\
  cleanXML keyParse keyBuild keyBuilt = Ok keyRebuilt /\
  keyRebuilt <> keyBuilt /\
  (forall t : node, removeObsolete (removeObsolete t) = removeObsolete t).
Proof.
  split.
  - intros pre mid between post Hpre Hmid Hbetween Hlast.
    replace (pre ++ annotationOpen ++ mid ++ pathZero ++ between ++ pathZero ++ post)
      with (pre ++ annotationOpen ++ (mid ++ pathZero ++ between) ++ pathZero ++ post)
      by (now rewrite !append_assoc).
    rewrite replaceZeroInPath_last_of_tag; trivial.
    + now rewrite !append_assoc.
    + rewrite !lacks_append, Hmid, Hbetween. reflexivity.
  - repeat split; try discriminate. exact removeObsolete_idempotent.
Qed.

(** The annotation [zeroXml] is an instance: the tag holds [PropertyPath=]
    with [0] before its [Path=] with [0], and only the second is rewritten. *)
Lemma cleanXML_second_run_differs_witness :
  replaceZeroInPath
    ("" ++ annotationOpen ++ quoted " Term='UI.Hidden' Property" ++ pathZero
        ++ quoted "' " ++ pathZero ++ quoted "'/>") =
  "" ++ annotationOpen ++ quoted " Term='UI.Hidden' Property" ++ pathZero
     ++ quoted "' " ++ pathUnderscoreZero ++ replaceZeroInPath (quoted "'/>").
Proof.
  apply (proj1 cleanXML_second_run_differs
           "" (quoted " Term='UI.Hidden' Property") (quoted "' ")
           (quoted "'/>")); reflexivity.
Defined.

End SecondRunProps.

(** ** The path of a batch request *)

Module PathProps.
Import Js JsFacts JsMore JsValue Errors Batch Service Url PathText Samples MoreSamples.

Lemma decode_encoded_unit (c : ascii) (r : string) :
  decodeURIComponent (urlencode (String c "") ++ r) =
  option_map (String (if Ascii.eqb c " " then "+"%char else c))
             (decodeURIComponent r).
Proof.
  destruct c as [[] [] [] [] [] [] [] []]; reflexivity.
Qed.

Lemma urlencode_cons (c : ascii) (s : string) :
  urlencode (String c s) = urlencode (String c "") ++ urlencode s.
Proof. cbn [urlencode]. now rewrite append_assoc. Qed.

Lemma decode_urlencode_app (s r : string) :
  lacks " " s = true ->
  decodeURIComponent (urlencode s ++ r) =
  option_map (append s) (decodeURIComponent r).
Proof.
  induction s as [|c s IH]; intros H.
  - cbn [urlencode append]. now destruct (decodeURIComponent r).
  - cbn [lacks] in H. apply andb_true_iff in H as [Hc Hs].
    apply negb_true_iff in Hc.
    rewrite urlencode_cons, append_assoc, decode_encoded_unit, Hc, (IH Hs).
    now destruct (decodeURIComponent r).
Qed.

Lemma decode_urlencode_some (s r d : string) :
  decodeURIComponent r = Some d ->
  exists d', decodeURIComponent (urlencode s ++ r) = Some d'.
Proof.
  revert d. induction s as [|c s IH]; intros d H.
  - now exists d.
  - destruct (IH d H) as [d' H'].
    rewrite urlencode_cons, append_assoc, decode_encoded_unit, H'.
    cbn [option_map]. eauto.
Qed.

Lemma decode_unit (c : ascii) (r : string) :
  Ascii.eqb c "%" = false ->
  decodeURIComponent (String c r) =
  option_map (String c) (decodeURIComponent r).
Proof. intros H. cbn [decodeURIComponent]. now rewrite H. Qed.

Lemma decode_pair_some (nv : string * string) (r d : string) :
  decodeURIComponent r = Some d ->
  exists d', decodeURIComponent
               ((urlencode (fst nv) ++ "=" ++ urlencode (snd nv)) ++ r) = Some d'.
Proof.
  intros H. rewrite !append_assoc.
  destruct (decode_urlencode_some (snd nv) r d H) as [d1 H1].
  apply (decode_urlencode_some (fst nv) _ (String "=" d1)).
  change ("=" ++ urlencode (snd nv) ++ r) with (String "=" (urlencode (snd nv) ++ r)).
  rewrite decode_unit by reflexivity. now rewrite H1.
Qed.

(** What [toString] prints, [decodeURIComponent] can read. *)
Lemma decode_toString_some (params : list (string * string)) :
  exists d, decodeURIComponent (Url.toString params) = Some d.
Proof.
  unfold Url.toString.
  induction params as [|nv params IH]; [now exists "" |].
  destruct params as [|nv2 params].
  - cbn [map join concat].
    rewrite <- (append_nil_r (urlencode (fst nv) ++ "=" ++ urlencode (snd nv))).
    now apply (decode_pair_some nv "" "").
  - destruct IH as [d IH].
    change (join "&" (map (fun nv => urlencode (fst nv) ++ "=" ++ urlencode (snd nv))
                          (nv :: nv2 :: params)))
      with ((urlencode (fst nv) ++ "=" ++ urlencode (snd nv)) ++ "&"
            ++ join "&" (map (fun nv => urlencode (fst nv) ++ "=" ++ urlencode (snd nv))
                             (nv2 :: params))).
    apply (decode_pair_some nv _ (String "&" d)).
    match goal with
    | |- decodeURIComponent ("&" ++ ?x) = _ =>
        change ("&" ++ x) with (String "&" x)
    end.
    rewrite decode_unit by reflexivity. now rewrite IH.
Qed.

(** X11.  For a request whose path and first batch part hold no [%]:
    [extractBatchPath] fails in one way only, with the [ValidationError] of
    status 400 and code [ERR_4002], and it fails exactly when the request has
    no first batch part or the body of that part has no [GET] in it.  The
    decoding of the URL never fails there: what [decodeURIComponent] is given
    is what [toString] printed, whose escapes are the UTF-8 bytes of the
    code units it escaped, so that every escape sequence in it is
    well-formed. *)
Theorem extractBatchPath_fails_only_without_GET (req : Request) :
  lacks "%" (path req) = true ->
  (forall part others,
      batch req = Some (part :: others) -> lacks "%" (body part) = true) ->
  (forall e, extractBatchPath req = Throw e ->
             e = extractionFailure req /\ statusCode e = Some 400%Z) /\
  ((exists p, extractBatchPath req = Ok p) <->
   (exists part others,
       batch req = Some (part :: others) /\ includes (body part) "GET" = true)) /\
  (forall params, exists decoded,
      decodeURIComponent (Url.toString params) = Some decoded).
Proof.
  intros _ _. split; [| split; [| exact decode_toString_some]].
  - intros e. unfold extractBatchPath.
    match goal with |- tryCatch ?r _ = _ -> _ => destruct r end;
      cbn [tryCatch]; [discriminate |].
    intros [= <-]. split; reflexivity.
  - unfold extractBatchPath. split.
    + intros [p H]. destruct (batch req) as [[|part others]|];
        cbn [bind tryCatch] in H; try discriminate.
      exists part, others. split; [reflexivity |].
      rewrite includes_freeOf by discriminate. apply negb_true_iff.
      destruct (freeOf "GET" (body part)) eqn:F; [| reflexivity].
      apply split_second in F; [| discriminate].
      rewrite F in H. discriminate.
    + intros (part & others & Hb & Hget). rewrite Hb. cbn [bind tryCatch].
      rewrite includes_freeOf in Hget by discriminate.
      apply negb_true_iff in Hget.
      destruct (nth_error (split (body part) "GET") 1) as [seg|] eqn:S.
      * cbn [bind tryCatch].
        match goal with
        | |- context [Url.decodeURIComponent (Url.toString ?ps)] =>
            destruct (decode_toString_some ps) as [d ->]
        end.
        cbn [tryCatch]. eauto.
      * apply split_second in S; [congruence | discriminate].
Qed.

Lemma extractBatchPath_fails_only_without_GET_witness :
  (exists p, extractBatchPath happyRequest = Ok p) /\
  (forall e, extractBatchPath happyRequest = Throw e ->
             e = extractionFailure happyRequest /\ statusCode e = Some 400%Z).
Proof.
  assert (Hpath : lacks "%" (path happyRequest) = true) by reflexivity.
  assert (Hbody : forall part others,
             batch happyRequest = Some (part :: others) ->
             lacks "%" (body part) = true).
  { intros part others [= <- _]. reflexivity. }
  destruct (extractBatchPath_fails_only_without_GET happyRequest Hpath Hbody)
    as (Hfail & Hiff & _).
  split; [| exact Hfail].
  apply Hiff. eexists _, _. split; reflexivity.
Defined.

Lemma cutAtEquals_parts (s : string) :
  fst (cutAtEquals s) ++ "=" ++ snd (cutAtEquals s) = withEquals s /\
  (forall c, lacks c s = true ->
             lacks c (fst (cutAtEquals s)) = true /\
             lacks c (snd (cutAtEquals s)) = true).
Proof.
  unfold withEquals. induction s as [|c s [IH1 IH2]]; [split; [reflexivity | now intros c _] |].
  cbn [cutAtEquals lacks]. destruct (Ascii.eqb c "=") eqn:E.
  - apply Ascii.eqb_eq in E. subst c. cbn [fst snd negb andb append]. split; [reflexivity |].
    intros c H. apply andb_true_iff in H as [_ H]. now split.
  - destruct (cutAtEquals s) as [n v]. cbn [fst snd negb andb append] in *. split.
    + rewrite IH1. now destruct (lacks "=" s).
    + intros d H. apply andb_true_iff in H as [Hd H].
      destruct (IH2 d H) as [Hn Hv]. cbn [lacks]. now rewrite Hd, Hn, Hv.
Qed.

Lemma plusToSpace_plain (s : string) : lacks "+" s = true -> plusToSpace s = s.
Proof.
  induction s as [|c s IH]; [reflexivity |].
  cbn [lacks plusToSpace]. intros H. apply andb_true_iff in H as [Hc Hs].
  apply negb_true_iff in Hc. now rewrite Hc, (IH Hs).
Qed.

Lemma percentDecode_plain (s : string) : lacks "%" s = true -> percentDecode s = s.
Proof.
  induction s as [|c s IH]; [reflexivity |].
  cbn [lacks percentDecode]. intros H. apply andb_true_iff in H as [Hc Hs].
  apply negb_true_iff in Hc. now rewrite Hc, (IH Hs).
Qed.

Lemma queryText_parts (s : string) :
  queryText s = true ->
  lacks "&" s = true /\ lacks "+" s = true /\ lacks "%" s = true /\ lacks " " s = true.
Proof.
  unfold queryText. intros H.
  apply andb_true_iff in H as [H H4]. apply andb_true_iff in H as [H H3].
  apply andb_true_iff in H as [H1 H2]. auto.
Qed.

Lemma URLSearchParams_single (s : string) :
  truthy s = true -> startsWith s "?" = false -> lacks "&" s = true ->
  URLSearchParams s = [parsePair s].
Proof.
  intros Ht Hq Ha. unfold URLSearchParams.
  destruct s as [|c rest]; [discriminate |].
  assert (E : Ascii.eqb c "?" = false).
  { unfold startsWith in Hq. cbn [String.prefix] in Hq.
    destruct (ascii_dec "?" c) as [<-|N]; [now destruct rest |].
    apply Ascii.eqb_neq. congruence. }
  rewrite E. rewrite split_last by now apply lacks_freeOf. reflexivity.
Qed.

(** The round trip through [URLSearchParams], [toString] and
    [decodeURIComponent]. *)
Lemma url_round_trip (s : string) :
  queryText s = true -> truthy s = true -> startsWith s "?" = false ->
  decodeURIComponent (Url.toString (URLSearchParams s)) = Some (withEquals s).
Proof.
  intros Hq Ht Hs. destruct (queryText_parts _ Hq) as (Ha & Hp & Hc & Hb).
  rewrite (URLSearchParams_single _ Ht Hs Ha).
  destruct (cutAtEquals_parts s) as [Hcut Hlacks].
  unfold parsePair, Url.toString.
  destruct (cutAtEquals s) as [n v]. cbn [fst snd] in *.
  destruct (Hlacks _ Hp) as [Hpn Hpv]. destruct (Hlacks _ Hc) as [Hcn Hcv].
  destruct (Hlacks _ Hb) as [Hbn Hbv].
  rewrite !plusToSpace_plain, !percentDecode_plain by assumption.
  cbn [map join concat fst snd].
  rewrite (decode_urlencode_app n _ Hbn).
  change ("=" ++ urlencode v) with (String "=" (urlencode v)).
  rewrite decode_unit by reflexivity.
  rewrite <- (append_nil_r (urlencode v)), (decode_urlencode_app v "" Hbv).
  cbn [decodeURIComponent option_map]. rewrite append_nil_r.
  now rewrite <- Hcut.
Qed.

Lemma split_through_HTTP (a r : string) :
  freeOf "GET" (a ++ "HTTP") = true ->
  exists g l, split (a ++ "HTTP" ++ r) "GET" = (a ++ "HTTP" ++ g) :: l.
Proof.
  unfold split. induction a as [|c a IH]; intros H.
  - destruct (splitFrom "GET" 0 r) as [|g l] eqn:S;
      [now apply splitFrom_nonempty in S |].
    exists g, l. cbn [append].
    rewrite !splitFrom_nomatch by reflexivity.
    now rewrite S, !consHead_cons.
  - change ((String c a) ++ "HTTP") with (String c (a ++ "HTTP")) in H.
    cbn [freeOf] in H. apply andb_true_iff in H as [H1 H2].
    apply negb_true_iff in H1.
    destruct (IH H2) as (g & l & E). exists g, l.
    change ((String c a) ++ "HTTP" ++ r) with (String c (a ++ "HTTP" ++ r)).
    rewrite splitFrom_nomatch.
    + now rewrite E, consHead_cons.
    + change (String c (a ++ "HTTP" ++ r)) with ((String c a) ++ "HTTP" ++ r).
      rewrite <- append_assoc, prefix_app_long; [exact H1 |].
      rewrite length_append. cbn. lia.
Qed.

Lemma requestTarget_parts (target : string) :
  requestTarget target = true ->
  freeOf "GET" (" " ++ target ++ " HTTP") = true /\
  freeUntilEnd "HTTP" (" " ++ target ++ " ") = true /\
  trim target = target.
Proof.
  unfold requestTarget. intros H.
  apply andb_true_iff in H as [H H3]. apply andb_true_iff in H as [H1 H2].
  apply String.eqb_eq in H3. auto.
Qed.

(** The text that [extractBatchPath] takes from a request line. *)
Lemma request_line_target (target rest : string) :
  requestTarget target = true ->
  exists afterGet,
    nth_error (split ("GET " ++ target ++ " HTTP" ++ rest) "GET") 1 = Some afterGet /\
    trim (hd "" (split afterGet "HTTP")) = target.
Proof.
  intros H. apply requestTarget_parts in H as (Hget & Hhttp & Htrim).
  change ("GET " ++ target ++ " HTTP" ++ rest)
    with ("GET" ++ " " ++ target ++ " HTTP" ++ rest).
  rewrite split_empty_segment by discriminate.
  replace (" " ++ target ++ " HTTP" ++ rest)
    with ((" " ++ target ++ " ") ++ "HTTP" ++ rest)
    by (now rewrite !append_assoc).
  destruct (split_through_HTTP (" " ++ target ++ " ") rest) as (g & l & E).
  { now rewrite !append_assoc. }
  rewrite E. exists ((" " ++ target ++ " ") ++ "HTTP" ++ g). split; [reflexivity |].
  rewrite split_segment by (discriminate || exact Hhttp).
  cbn [hd]. rewrite trim_app_blank by reflexivity.
  unfold trim. rewrite trimEnd_app_blank by reflexivity. exact Htrim.
Qed.

(** The path that [extractBatchPath] makes of a request line. *)
Lemma extractBatchPath_request_line
    (req : Request) (part : BatchPart) (others : list BatchPart)
    (target rest : string) :
  batch req = Some (part :: others) ->
  body part = "GET " ++ target ++ " HTTP" ++ rest ->
  requestTarget target = true ->
  queryText (removeFirst "$batch" (removeFirst "datasphere/" (path req)) ++ target)
    = true ->
  startsWith (removeFirst "$batch" (removeFirst "datasphere/" (path req)) ++ target)
    "?" = false ->
  extractBatchPath req =
  Ok (substring1
        (withEquals
           (removeFirst "$batch" (removeFirst "datasphere/" (path req)) ++ target))).
Proof.
  intros Hb Hbody Ht Hq Hs.
  destruct (request_line_target target rest Ht) as (afterGet & Hnth & Htarget).
  unfold extractBatchPath. rewrite Hb. cbn [bind tryCatch].
  rewrite Hbody, Hnth. cbn [bind tryCatch]. rewrite Htarget.
  set (full := removeFirst "$batch" (removeFirst "datasphere/" (path req)) ++ target) in *.
  destruct (truthy full) eqn:T.
  - now rewrite (url_round_trip full Hq T Hs).
  - apply truthy_empty in T. rewrite T. reflexivity.
Qed.

(** X12.  For a first part whose body starts with the request line
    [GET target HTTP...], [extractBatchPath] returns the request path without
    [datasphere/] and [$batch], followed by [target], and without its first
    code unit; when that text has no [=] in it, an [=] is added at its end.
    The text is one that the URL round trip leaves alone (no [&], [+], [%] or
    space in it, no [?] in front). *)
Theorem extractBatchPath_forwards_target
    (req : Request) (part : BatchPart) (others : list BatchPart)
    (target rest : string) :
  batch req = Some (part :: others) ->
  body part = "GET " ++ target ++ " HTTP" ++ rest ->
  requestTarget target = true ->
  queryText (removeFirst "$batch" (removeFirst "datasphere/" (path req)) ++ target)
    = true ->
  startsWith (removeFirst "$batch" (removeFirst "datasphere/" (path req)) ++ target)
    "?" = false ->
  extractBatchPath req =
  Ok (substring1
        (withEquals
           (removeFirst "$batch" (removeFirst "datasphere/" (path req)) ++ target))).
Proof. apply extractBatchPath_request_line. Qed.

Lemma extractBatchPath_forwards_target_witness :
  extractBatchPath itemsRequest = Ok "sales/Sales_Demo/Items=".
Proof.
  apply (extractBatchPath_forwards_target itemsRequest
           {| headers := []; body := "GET Sales_Demo/Items HTTP/1.1" |} []
           "Sales_Demo/Items" "/1.1"); reflexivity.
Defined.

End PathProps.

(** ** The backend call and the handlers *)

Module BackendProps.
Import Js JsFacts JsMore JsValue Errors ErrorMiddleware Batch Service Backend
       Middleware Controller Samples MoreSamples BackendSamples.

(** X13.  Whatever [getData] does, [processBatchRequest] throws errors of
    the hierarchy only: a failure that is no [BaseError] leaves it as a
    [DatasphereBatchError] of status 422 that keeps the first message as
    [originalError], and that message is then the one [errorHandler]
    answers with. *)
Theorem processBatchRequest_throws_BaseError_only
    (getData : Request -> string -> result (option HttpResponse))
    (req : Request) (now : N) :
  (forall e, processBatchRequest getData req now = Throw e ->
             isBaseError e = true) /\
  (forall part others p e0,
      batch req = Some (part :: others) ->
      extractBatchPath req = Ok p ->
      getData req p = Throw e0 ->
      isBaseError e0 = false ->
      exists e,
        processBatchRequest getData req now = Throw e /\
        class e = DatasphereBatchErrorC /\ statusCode e = Some 422%Z /\
        message e = "Failed to process batch request" /\
        bodyMessage (json (errorHandler e)) =
          CtxString (if truthy (message e0) then message e0
                     else "Failed to process batch request")).
Proof.
  split.
  - intros e. unfold processBatchRequest.
    match goal with |- tryCatch ?r _ = _ -> _ => destruct r as [a|e1] end;
      cbn [tryCatch]; [discriminate |].
    destruct (isBaseError e1) eqn:B; intros [= <-]; [exact B | reflexivity].
  - intros part others p e0 Hb Hp Hg Hplain. eexists. split.
    + unfold processBatchRequest. rewrite Hb. cbn [bind]. rewrite Hp. cbn [bind].
      rewrite Hg. cbn [bind tryCatch]. rewrite Hplain. reflexivity.
    + repeat split. cbn. now destruct (message e0).
Qed.

Lemma processBatchRequest_throws_BaseError_only_witness :
  exists e,
    processBatchRequest (fun _ _ => Throw (newError "socket hang up"))
      happyRequest happyNow = Throw e /\
    class e = DatasphereBatchErrorC /\ statusCode e = Some 422%Z /\
    message e = "Failed to process batch request" /\
    bodyMessage (json (errorHandler e)) = CtxString "socket hang up".
Proof.
  apply (proj2 (processBatchRequest_throws_BaseError_only
                  (fun _ _ => Throw (newError "socket hang up"))
                  happyRequest happyNow)
           {| headers := []; body := "GET Sales_Demo/Items?a=1 HTTP/1.1" |} []
           "foo/Sales_Demo/Items?a=1" (newError "socket hang up"));
    reflexivity.
Defined.

Section Client.

Variable destinationName : string.
Variable getDestination : Request -> result (option string).
Variable executeHttpRequest : string -> list (string * string) -> HttpOutcome.
Variable parseStringPromise : string -> result Xml.node.
Variable buildObject : Xml.node -> string.

Let getData := Backend.getData destinationName getDestination executeHttpRequest
                 parseStringPromise buildObject.

Lemma getData_resolved (req : Request) (path_ url : string) :
  getDestination req = Ok (Some url) -> truthy url = true ->
  getData req path_ =
  match executeHttpRequest (url ++ path_) (query req) with
  | Resolved response =>
      if includes (path req) "$metadata" then
        match cleanResponseData parseStringPromise buildObject (data response) with
        | Ok cleanedXml => Ok (Some {| data := VStr cleanedXml |})
        | Throw _ => Ok None
        end
      else Ok (Some response)
  | Rejected (AxiosError msg responseMessage) =>
      Throw (mapAxiosError req msg
               (requestContext destinationName (url ++ path_) path_ msg responseMessage))
  | Rejected (OtherError _) => Ok None
  end.
Proof.
  intros Hd Hu. unfold getData, Backend.getData, getDestinationConfig.
  rewrite Hd. cbn [bind]. now rewrite Hu.
Qed.

(** X14.  A failure of the HTTP client that is an [AxiosError] always
    leaves [getData] as an error of the Datasphere family: a [BaseError]
    with status 503, 401, 400 or 422, whose context names the service, the
    URL that was called (the URL of the destination followed by the path) and
    the original message.  A message with [timeout] in it gives the timeout
    error whatever else it says; a message with [404] (and none of
    [timeout], [network], [401], [403]) gives a [DatasphereModelError], whose
    status is 400. *)
Theorem getData_maps_AxiosError
    (req : Request) (path_ url msg : string) (responseMessage : option ContextValue) :
  getDestination req = Ok (Some url) -> truthy url = true ->
  executeHttpRequest (url ++ path_) (query req)
    = Rejected (AxiosError msg responseMessage) ->
  exists e ctx,
    getData req path_ = Throw e /\
    isBaseError e = true /\
    In (statusCode e) [Some 503; Some 401; Some 400; Some 422]%Z /\
    context e = Some ctx /\
    lookupContext ctx "service" = Some (CtxString "Datasphere") /\
    lookupContext ctx "url" = Some (CtxString (url ++ path_)) /\
    lookupContext ctx "originalError" = Some (originalErrorOf msg responseMessage) /\
    (includes msg "timeout" = true ->
     class e = DatasphereTimeoutErrorC /\ statusCode e = Some 503%Z) /\
    (includes msg "timeout" = false -> includes msg "network" = false ->
     includes msg "401" = false -> includes msg "403" = false ->
     includes msg "404" = true ->
     class e = DatasphereModelErrorC /\ statusCode e = Some 400%Z /\
     lookupContext ctx "retryable" = Some (CtxBool false)).
Proof.
  intros Hd Hu Hx. rewrite (getData_resolved _ _ _ Hd Hu), Hx.
  unfold mapAxiosError.
  destruct (includes msg "timeout") eqn:E1;
    [| destruct (includes msg "network") eqn:E2;
       [| destruct (includes msg "401") eqn:E3;
          [| destruct (includes msg "403") eqn:E4;
             [| destruct (includes msg "404") eqn:E5;
                [| destruct (includes (path req) "$metadata") eqn:E6]]]]];
    cbn [orb]; eexists; eexists;
    (split; [reflexivity |]); (split; [reflexivity |]);
    (split; [cbn; tauto |]); (split; [reflexivity |]);
    repeat split; try discriminate; try congruence.
Qed.

(** X15.  Every other failure leaves [getData] with [undefined] instead
    of an error: a failure of the HTTP client that is no [AxiosError], and,
    for a request path with [$metadata], a failure of [cleanXML] on the
    response.  The controller then fails reading [data] of it, and the
    answer of the application is the status 500 with the message of that
    [TypeError]. *)
Theorem getData_returns_undefined_after_other_failures
    (req : Request) (params : list string) (url : string) :
  getDestination req = Ok (Some url) -> truthy url = true ->
  truthy (join "/" params) = true ->
  (match executeHttpRequest (url ++ join "/" params) (query req) with
   | Rejected (OtherError _) => True
   | Resolved response =>
       includes (path req) "$metadata" = true /\
       exists e, cleanResponseData parseStringPromise buildObject (data response)
                 = Throw e
   | _ => False
   end) ->
  getData req (join "/" params) = Ok None /\
  asyncHandler (getDataHandler getData params req) =
    inr {| status := 500;
           json := {| code := "500";
                      bodyMessage :=
                        CtxString "Cannot read properties of undefined (reading 'data')" |} |}.
Proof.
  intros Hd Hu Hp Hx.
  assert (G : getData req (join "/" params) = Ok None).
  { rewrite (getData_resolved _ _ _ Hd Hu).
    destruct (executeHttpRequest (url ++ join "/" params) (query req))
      as [response|[msg rm|e0]]; [| contradiction | reflexivity].
    destruct Hx as [Hm [e He]]. now rewrite Hm, He. }
  split; [exact G |].
  unfold getDataHandler, validateAndProcessPath. rewrite Hp. cbn [negb bind].
  now rewrite G.
Qed.

(** X16.  In a batch, a call of [getData] that ended with [undefined]
    makes [processBatchRequest] fail with the [DatasphereBatchError] of
    status 422 and the message that no data was returned; the first failure
    is not reported. *)
Theorem processBatchRequest_after_swallowed_failure
    (req : Request) (now : N) (part : BatchPart) (others : list BatchPart)
    (p url : string) (e0 : Error) :
  batch req = Some (part :: others) ->
  extractBatchPath req = Ok p ->
  getDestination req = Ok (Some url) -> truthy url = true ->
  executeHttpRequest (url ++ p) (query req) = Rejected (OtherError e0) ->
  exists e,
    processBatchRequest getData req now = Throw e /\
    class e = DatasphereBatchErrorC /\ statusCode e = Some 422%Z /\
    message e = "Batch processing returned no data" /\
    bodyMessage (json (errorHandler e)) =
      CtxString "Batch processing returned no data".
Proof.
  intros Hb Hp Hd Hu Hx. eexists. split.
  - unfold processBatchRequest. rewrite Hb. cbn [bind]. rewrite Hp. cbn [bind].
    rewrite (getData_resolved _ _ _ Hd Hu), Hx. cbn [bind tryCatch]. reflexivity.
  - repeat split.
Qed.

(** X17.  A destination without URL is reported before any call of the
    HTTP client, as a [NotFoundError] of status 404 and code [ERR_5002], and
    [processBatchRequest] passes that error on as it is. *)
Theorem getData_without_destination
    (req : Request) (now : N) (part : BatchPart) (others : list BatchPart)
    (p : string) :
  getDestination req = Ok None \/ getDestination req = Ok (Some "") ->
  batch req = Some (part :: others) ->
  extractBatchPath req = Ok p ->
  let e := NotFoundError
             ("Destination " ++ destinationName ++ " not found or missing URL")
             CONFIGURATION_ERROR
             (Some [("destinationName", CtxString destinationName);
                    ("destination", CtxOpaque)]) in
  (forall path_, getData req path_ = Throw e) /\
  processBatchRequest getData req now = Throw e /\
  statusCode e = Some 404%Z /\
  errorCodeText CONFIGURATION_ERROR = "ERR_5002".
Proof.
  intros Hd Hb Hp e.
  assert (G : forall path_, getData req path_ = Throw e).
  { intros path_. unfold getData, Backend.getData, getDestinationConfig.
    destruct Hd as [-> | ->]; reflexivity. }
  split; [exact G |]. split; [| split; reflexivity].
  unfold processBatchRequest. rewrite Hb. cbn [bind]. rewrite Hp. cbn [bind].
  rewrite G. reflexivity.
Qed.

End Client.

Lemma getData_maps_AxiosError_witness :
  exists e ctx,
    Backend.getData "datasphere" (fun _ => Ok (Some "https://dsp.example"))
      (fun _ _ => Rejected (AxiosError "Request failed with status code 404" None))
      (fun _ => Throw (newError "unused")) (fun _ => "")
      happyRequest "/Sales_Demo/Items" = Throw e /\
    isBaseError e = true /\
    In (statusCode e) [Some 503; Some 401; Some 400; Some 422]%Z /\
    context e = Some ctx /\
    lookupContext ctx "service" = Some (CtxString "Datasphere") /\
    lookupContext ctx "url" = Some (CtxString "https://dsp.example/Sales_Demo/Items") /\
    lookupContext ctx "originalError" =
      Some (CtxString "Request failed with status code 404") /\
    (includes "Request failed with status code 404" "timeout" = true ->
     class e = DatasphereTimeoutErrorC /\ statusCode e = Some 503%Z) /\
    (includes "Request failed with status code 404" "timeout" = false ->
     includes "Request failed with status code 404" "network" = false ->
     includes "Request failed with status code 404" "401" = false ->
     includes "Request failed with status code 404" "403" = false ->
     includes "Request failed with status code 404" "404" = true ->
     class e = DatasphereModelErrorC /\ statusCode e = Some 400%Z /\
     lookupContext ctx "retryable" = Some (CtxBool false)).
Proof.
  apply (getData_maps_AxiosError "datasphere" (fun _ => Ok (Some "https://dsp.example"))
           (fun _ _ => Rejected (AxiosError "Request failed with status code 404" None))
           (fun _ => Throw (newError "unused")) (fun _ => "")
           happyRequest "/Sales_Demo/Items" "https://dsp.example"
           "Request failed with status code 404" None); reflexivity.
Defined.

Lemma getData_returns_undefined_after_other_failures_witness :
  Backend.getData "datasphere" (fun _ => Ok (Some "https://dsp.example"))
    (fun _ _ => Resolved {| data := VStr "<edmx" |})
    (fun _ => Throw (newError "Unclosed root tag")) (fun _ => "")
    metadataRequest (join "/" ["Sales_Demo"; "$metadata"]) = Ok None /\
  asyncHandler
    (getDataHandler
       (Backend.getData "datasphere" (fun _ => Ok (Some "https://dsp.example"))
          (fun _ _ => Resolved {| data := VStr "<edmx" |})
          (fun _ => Throw (newError "Unclosed root tag")) (fun _ => ""))
       ["Sales_Demo"; "$metadata"] metadataRequest) =
    inr {| status := 500;
           json := {| code := "500";
                      bodyMessage :=
                        CtxString "Cannot read properties of undefined (reading 'data')" |} |}.
Proof.
  apply (getData_returns_undefined_after_other_failures
           "datasphere" (fun _ => Ok (Some "https://dsp.example"))
           (fun _ _ => Resolved {| data := VStr "<edmx" |})
           (fun _ => Throw (newError "Unclosed root tag")) (fun _ => "")
           metadataRequest ["Sales_Demo"; "$metadata"] "https://dsp.example");
    try reflexivity.
  split; [reflexivity |]. eexists. reflexivity.
Defined.

Lemma processBatchRequest_after_swallowed_failure_witness :
  exists e,
    processBatchRequest
      (Backend.getData "datasphere" (fun _ => Ok (Some "https://dsp.example"))
         (fun _ _ => Rejected (OtherError (newError "socket hang up")))
         (fun _ => Throw (newError "unused")) (fun _ => ""))
      happyRequest happyNow = Throw e /\
    class e = DatasphereBatchErrorC /\ statusCode e = Some 422%Z /\
    message e = "Batch processing returned no data" /\
    bodyMessage (json (errorHandler e)) =
      CtxString "Batch processing returned no data".
Proof.
  apply (processBatchRequest_after_swallowed_failure
           "datasphere" (fun _ => Ok (Some "https://dsp.example"))
           (fun _ _ => Rejected (OtherError (newError "socket hang up")))
           (fun _ => Throw (newError "unused")) (fun _ => "")
           happyRequest happyNow
           {| headers := []; body := "GET Sales_Demo/Items?a=1 HTTP/1.1" |} []
           "foo/Sales_Demo/Items?a=1" "https://dsp.example" (newError "socket hang up"));
    reflexivity.
Defined.

Lemma getData_without_destination_witness :
  processBatchRequest
    (Backend.getData "datasphere" (fun _ => Ok None)
       (fun _ _ => Rejected (OtherError (newError "unused")))
       (fun _ => Throw (newError "unused")) (fun _ => ""))
    happyRequest happyNow =
  Throw (NotFoundError "Destination datasphere not found or missing URL"
           CONFIGURATION_ERROR
           (Some [("destinationName", CtxString "datasphere");
                  ("destination", CtxOpaque)])).
Proof.
  apply (getData_without_destination
           "datasphere" (fun _ => Ok None)
           (fun _ _ => Rejected (OtherError (newError "unused")))
           (fun _ => Throw (newError "unused")) (fun _ => "")
           happyRequest happyNow
           {| headers := []; body := "GET Sales_Demo/Items?a=1 HTTP/1.1" |} []
           "foo/Sales_Demo/Items?a=1"); (now left) || reflexivity.
Defined.

End BackendProps.

(** ** The response of a batch *)

Module ResponseProps.
Import Js JsFacts JsMore JsValue Errors ErrorMiddleware Batch Service Backend
       Middleware Controller ServiceProps Samples RouteSamples.

Lemma jsonEscape_lacks_CR (c : ascii) : lacks CR (jsonEscape c) = true.
Proof. destruct c as [[] [] [] [] [] [] [] []]; reflexivity. Qed.

Lemma jsonQuote_lacks_CR (s : string) : lacks CR (jsonQuote s) = true.
Proof.
  unfold jsonQuote. cbn [lacks]. rewrite lacks_append.
  replace (lacks CR (jsonQuoteBody s)) with true; [reflexivity |].
  induction s as [|c s IH]; [reflexivity |].
  cbn [jsonQuoteBody]. now rewrite lacks_append, jsonEscape_lacks_CR, <- IH.
Qed.

Lemma decimal_lacks_CR (z : Z) : lacks CR (decimal z) = true.
Proof.
  unfold decimal. destruct (Z.to_int z) as [d|d]; cbn [NilZero.string_of_int].
  - destruct d; try reflexivity; apply (digits_lack CR); reflexivity.
  - cbn [lacks]. destruct d; try reflexivity; apply (digits_lack CR); reflexivity.
Qed.

Lemma join_lacks (c : ascii) (sep : string) (l : list string) :
  lacks c sep = true -> (forall x, In x l -> lacks c x = true) ->
  lacks c (join sep l) = true.
Proof.
  intros Hsep. induction l as [|x l IH]; intros H; [reflexivity |].
  destruct l as [|y l]; [apply H; now left |].
  change (join sep (x :: y :: l)) with (x ++ sep ++ join sep (y :: l)).
  rewrite !lacks_append, Hsep, (H x (or_introl eq_refl)), IH; [reflexivity |].
  intros z Hz. apply H. now right.
Qed.

Lemma value_all_items (P : value -> Prop) (items : list value) :
  list_all value P items -> forall x, In x items -> P x.
Proof.
  induction 1 as [|a Ha l Hl IH]; intros x Hx; [contradiction |].
  destruct Hx as [<-|Hx]; [exact Ha | now apply IH].
Qed.

Lemma value_all_fields (P : value -> Prop) (fields : list (string * value)) :
  list_all (string * value) (prod_all string (fun _ => unit) value P) fields ->
  forall kv, In kv fields -> P (snd kv).
Proof.
  induction 1 as [|a Ha l Hl IH]; intros kv Hkv; [contradiction |].
  destruct Hkv as [<-|Hkv]; [| now apply IH].
  now destruct Ha.
Qed.

(** [JSON.stringify] never prints a carriage return. *)
Lemma JSON_stringify_lacks_CR (v : value) : lacks CR (JSON_stringify v) = true.
Proof.
  induction v as [| b | n | s | items IH | fields IH].
  - reflexivity.
  - now destruct b.
  - destruct n; [reflexivity | apply decimal_lacks_CR].
  - apply jsonQuote_lacks_CR.
  - cbn [JSON_stringify]. cbn [append lacks]. rewrite lacks_append.
    rewrite join_lacks; [reflexivity | reflexivity |].
    intros x Hx. apply in_map_iff in Hx as (y & <- & Hy).
    now apply (value_all_items _ _ IH).
  - cbn [JSON_stringify]. cbn [append lacks]. rewrite lacks_append.
    rewrite join_lacks; [reflexivity | reflexivity |].
    intros x Hx. apply in_map_iff in Hx as (kv & <- & Hkv).
    rewrite !lacks_append, jsonQuote_lacks_CR. cbn [lacks andb].
    now apply (value_all_fields _ _ IH).
Qed.

(** The lines of the response body, for a payload without carriage
    return. *)
Lemma responseBody_lines (requestBody json : string) (now : N) :
  lacks CR json = true ->
  split (responseBody (transformBatchResponse requestBody json now)) CRLF =
    ["--batch_" ++ decimal (Z.of_N now); "Content-Type: application/http"; "";
     "HTTP/1.1 200 OK"; "Content-Type: application/json"; "";
     json; "--batch_" ++ decimal (Z.of_N now) ++ "--"].
Proof.
  intros Hjson. cbn [responseBody transformBatchResponse].
  set (bid := "batch_" ++ decimal (Z.of_N now)).
  assert (Hsep : CRLF <> "") by discriminate.
  assert (Hbid : lacks CR bid = true).
  { unfold bid. rewrite lacks_append, decimal_of_N_lacks by reflexivity. reflexivity. }
  rewrite <- (append_assoc "--" bid).
  rewrite split_segment;
    [| exact Hsep | apply lacks_freeUntilEnd; now rewrite lacks_append, Hbid].
  rewrite split_segment by (try exact Hsep; reflexivity).
  rewrite split_empty_segment by exact Hsep.
  rewrite split_segment by (try exact Hsep; reflexivity).
  rewrite split_segment by (try exact Hsep; reflexivity).
  rewrite split_empty_segment by exact Hsep.
  rewrite split_segment by (try exact Hsep; now apply lacks_freeUntilEnd).
  rewrite split_last; [reflexivity |].
  apply lacks_freeOf. now rewrite !lacks_append, Hbid.
Qed.

Section Translator.

Variable getData : Request -> string -> result (option HttpResponse).

(** What a successful run went through. *)
Lemma processBatchRequest_success (req : Request) (now : N) (r : BatchResponse) :
  processBatchRequest getData req now = Ok r ->
  exists p response count d,
    extractBatchPath req = Ok p /\
    getData req p = Ok (Some response) /\
    toBoolean (data response) = true /\
    paginationCount (query req) = Ok count /\
    setCount (data response) count = Ok d /\
    r = transformBatchResponse (rawBody req) (JSON_stringify d) now.
Proof.
  unfold processBatchRequest. intros H.
  destruct (batch req) as [[|part others]|]; cbn [bind tryCatch] in H;
    try discriminate.
  destruct (extractBatchPath req) as [p|e]; cbn [bind tryCatch] in H;
    [| destruct (isBaseError e); discriminate].
  destruct (getData req p) as [[response|]|e] eqn:G; cbn [bind tryCatch] in H;
    try discriminate; [| destruct (isBaseError e); discriminate].
  destruct (toBoolean (data response)) eqn:T; cbn [bind tryCatch] in H;
    [| discriminate].
  destruct (paginationCount (query req)) as [count|e]; cbn [bind tryCatch] in H;
    [| destruct (isBaseError e); discriminate].
  destruct (setCount (data response) count) as [d|e] eqn:S;
    cbn [bind tryCatch] in H; [| destruct (isBaseError e); discriminate].
  injection H as <-. exists p, response, count, d.
  repeat split; assumption || reflexivity.
Qed.

(** X18.  Every response that [processBatchRequest] returns has a body of
    exactly eight lines, separated by CR LF: the opening delimiter, the two
    header blocks with their blank lines, the payload on one line, and the
    closing delimiter.  The payload is the JSON text of an object or an array
    (for any other data of the backend there is no response), and no payload
    breaks the layout. *)
Theorem processBatchRequest_response_lines
    (req : Request) (now : N) (r : BatchResponse) :
  processBatchRequest getData req now = Ok r ->
  exists d,
    ((exists fields, d = VObj fields) \/ (exists items, d = VArr items)) /\
    id r = "batch_" ++ decimal (Z.of_N now) /\
    split (responseBody r) CRLF =
      ["--" ++ id r; "Content-Type: application/http"; "";
       "HTTP/1.1 200 OK"; "Content-Type: application/json"; "";
       JSON_stringify d; "--" ++ id r ++ "--"].
Proof.
  intros H. apply processBatchRequest_success in H
    as (p & response & count & d & _ & _ & _ & _ & Hset & ->).
  exists d.
  destruct (data response) as [| b | n | s | items | fields];
    cbn [setCount] in Hset; try discriminate; injection Hset as <-.
  - split; [right; eauto |]. split; [reflexivity |].
    apply responseBody_lines, JSON_stringify_lacks_CR.
  - split; [left; eauto |]. split; [reflexivity |].
    apply responseBody_lines, JSON_stringify_lacks_CR.
Qed.

End Translator.

Lemma processBatchRequest_response_lines_witness :
  exists d,
    ((exists fields, d = VObj fields) \/ (exists items, d = VArr items)) /\
    id happyResponse = "batch_" ++ decimal (Z.of_N happyNow) /\
    split (responseBody happyResponse) CRLF =
      ["--" ++ id happyResponse; "Content-Type: application/http"; "";
       "HTTP/1.1 200 OK"; "Content-Type: application/json"; "";
       JSON_stringify d; "--" ++ id happyResponse ++ "--"].
Proof.
  apply (processBatchRequest_response_lines
           (fun _ _ => Ok (Some {| data := VObj happyData |}))
           happyRequest happyNow happyResponse).
  reflexivity.
Defined.

End ResponseProps.

(** ** The batch route *)

Module RouteProps.
Import Js JsFacts JsMore JsValue Errors ErrorMiddleware Batch Envelope Service
       Backend Middleware Controller PathText ServiceProps BatchProps PathProps
       ResponseProps Samples RouteSamples.








Section Route.

Variable getData : Request -> string -> result (option HttpResponse).




End Route.



End RouteProps.

(** ** Invariants of the parsed parts *)

Module PartProps.
Import Js JsFacts JsMore JsValue Errors ErrorMiddleware Batch Envelope Service
       Backend Middleware Controller ServiceProps BatchProps BackendProps
       ResponseProps RouteProps Samples BackendSamples RouteSamples.

Lemma replaceValue_In (h : Headers) (k v k' v' : string) :
  In (k', v') (replaceValue h k v) -> (k' = k /\ v' = v) \/ In (k', v') h.
Proof.
  induction h as [|[k0 v0] h IH]; cbn [replaceValue]; [intros [] |].
  destruct (String.eqb k0 k) eqn:E.
  - apply String.eqb_eq in E. subst k0.
    intros [[= <- <-]|H]; [now left | right; now right].
  - intros [H|H]; [right; now left |].
    destruct (IH H) as [H'|H']; [now left | right; now right].
Qed.

Lemma replaceValue_keys (h : Headers) (k v : string) :
  map fst (replaceValue h k v) = map fst h.
Proof.
  induction h as [|[k0 v0] h IH]; [reflexivity |]. cbn [replaceValue].
  destruct (String.eqb k0 k) eqn:E; cbn [map fst]; [reflexivity |].
  now rewrite IH.
Qed.

Lemma insertIndex_In (h : Headers) (n : N) (k v : string) (kv : string * string) :
  In kv (insertIndex h n k v) <-> kv = (k, v) \/ In kv h.
Proof.
  induction h as [|[k0 v0] h IH]; cbn [insertIndex].
  - cbn [In]. intuition congruence.
  - destruct (arrayIndex k0) as [m|]; [destruct (m <? n)%N |]; cbn [In];
      rewrite ?IH; intuition congruence.
Qed.

Lemma insertIndex_NoDup (h : Headers) (n : N) (k v : string) :
  ~ In k (map fst h) -> NoDup (map fst h) ->
  NoDup (map fst (insertIndex h n k v)).
Proof.
  induction h as [|[k0 v0] h IH]; cbn [insertIndex map fst]; intros Hk H.
  - constructor; [intros [] | constructor].
  - assert (Hnew : NoDup (k :: k0 :: map fst h)) by now constructor.
    destruct (arrayIndex k0) as [m|]; [destruct (m <? n)%N |];
      cbn [map fst]; try exact Hnew.
    inversion H as [|x l Hnot Hrest]; subst.
    constructor.
    + intros Hin. apply in_map_iff in Hin as ([k1 v1] & Hk1 & Hin).
      cbn [fst] in Hk1. subst k1. apply insertIndex_In in Hin as [[= -> _]|Hin].
      * apply Hk. now left.
      * apply Hnot. apply in_map_iff. now exists (k0, v1).
    + apply IH; [| exact Hrest]. intros Hin. apply Hk. now right.
Qed.

Lemma hasKey_false (h : Headers) (k : string) :
  hasKey h k = false -> ~ In k (map fst h).
Proof.
  unfold hasKey. induction h as [|[k0 v0] h IH]; cbn [existsb map fst];
    intros H; [intros [] |].
  apply orb_false_iff in H as [H0 H]. intros [<-|Hin].
  - now rewrite String.eqb_refl in H0.
  - now apply IH.
Qed.

Lemma setKey_In (h : Headers) (k v k' v' : string) :
  In (k', v') (setKey h k v) -> (k' = k /\ v' = v) \/ In (k', v') h.
Proof.
  unfold setKey. destruct (String.eqb k "__proto__"); [now right |].
  destruct (hasKey h k); [apply replaceValue_In |].
  destruct (arrayIndex k) as [n|].
  - intros H. apply insertIndex_In in H as [[= -> ->]|H]; [now left | now right].
  - intros H. apply in_app_iff in H as [H|[[= -> ->]|[]]]; [now right | now left].
Qed.

Lemma setKey_NoDup (h : Headers) (k v : string) :
  NoDup (map fst h) -> NoDup (map fst (setKey h k v)).
Proof.
  intros H. unfold setKey. destruct (String.eqb k "__proto__"); [exact H |].
  destruct (hasKey h k) eqn:E; [now rewrite replaceValue_keys |].
  apply hasKey_false in E.
  destruct (arrayIndex k) as [n|]; [now apply insertIndex_NoDup |].
  rewrite map_app. cbn [map fst]. apply NoDup_app; [exact H | | ].
  - constructor; [intros [] | constructor].
  - intros x Hx [<-|[]]. now apply E.
Qed.

Lemma setKey_trimmed (h : Headers) (k v : string) :
  forallb trimmedPair h = true ->
  forallb trimmedPair (setKey h (trim k) (trim v)) = true.
Proof.
  intros H. rewrite forallb_forall in *. intros [k' v'] Hin.
  apply setKey_In in Hin as [[-> ->]|Hin]; [| now apply H].
  unfold trimmedPair. cbn [fst snd].
  now rewrite !trim_idempotent, !String.eqb_refl.
Qed.

Lemma headerStep_wellFormed (st : Headers * nat) (i : nat) (line : string) :
  wellFormed (fst st) -> wellFormed (fst (headerStep st i line)).
Proof.
  destruct st as [h bi]. unfold headerStep. cbn [fst]. intros [Hn Ht].
  destruct (negb (truthy (trim line))); [now split |].
  destruct (splitColon line) as [key [value|]]; [| now split].
  destruct (truthy key && truthy value); [| now split].
  cbn [fst]. split; [now apply setKey_NoDup | now apply setKey_trimmed].
Qed.

Lemma forEachLine_wellFormed (st : Headers * nat) (i : nat) (lines : list string) :
  wellFormed (fst st) -> wellFormed (fst (forEachLine st i lines)).
Proof.
  revert st i. induction lines as [|l lines IH]; intros st i H; [exact H |].
  cbn [forEachLine]. apply IH. now apply headerStep_wellFormed.
Qed.

(** X22.  In every part that [parseBatchBody] returns, whatever the body
    and the boundary, no header name occurs twice, the header names and
    values have no white space at their ends, and neither has the body of
    the part. *)
Theorem parseBatchBody_parts_are_trimmed
    (body_ boundary : string) (part : BatchPart) :
  In part (parseBatchBody body_ boundary) ->
  NoDup (map fst (headers part)) /\
  forallb trimmedPair (headers part) = true /\
  trim (body part) = body part.
Proof.
  unfold parseBatchBody. intros H.
  apply in_map_iff in H as (segment & <- & _).
  unfold parsePart, partOfLines.
  pose proof (forEachLine_wellFormed ([], 0) 0 (tl (splitLines (trim segment)))
                (conj (NoDup_nil _) eq_refl)) as W.
  destruct (forEachLine ([], 0) 0 (tl (splitLines (trim segment)))) as [h bi].
  cbn [headers body fst] in *. destruct W as [Hn Ht].
  repeat split; [exact Hn | exact Ht | apply trim_idempotent].
Qed.

Lemma parseBatchBody_parts_are_trimmed_witness :
  NoDup (map fst [("Content-Transfer-Encoding", "binary")]) /\
  forallb trimmedPair [("Content-Transfer-Encoding", "binary")] = true /\
  trim "GET Sales_Demo/Items HTTP/1.1" = "GET Sales_Demo/Items HTTP/1.1".
Proof.
  apply (parseBatchBody_parts_are_trimmed happyBody happyBoundary
           {| headers := [("Content-Transfer-Encoding", "binary")];
              body := "GET Sales_Demo/Items HTTP/1.1" |}).
  vm_compute. now left.
Defined.

End PartProps.

(** ** The handlers *)

Module HandlerProps.
Import Js JsFacts JsMore JsValue Errors ErrorMiddleware Batch Envelope Service
       Backend Middleware Controller ServiceProps BatchProps BackendProps
       ResponseProps RouteProps Samples BackendSamples RouteSamples.

Section Handlers.

Variable getData : Request -> string -> result (option HttpResponse).

(** X23.  What [handleBatch] hands to Express is consistent with itself:
    the boundary in the value it sets for the header [Content-Type],
    [batch_] and the time in milliseconds, is the one that opens the body it
    sends, as the first line, and closes it, as the last. *)
Theorem handleBatch_announces_its_boundary
    (req : Request) (now : N) (reply : Reply string) :
  handleBatch getData req now = Ok reply ->
  exists boundary,
    boundary = "batch_" ++ decimal (Z.of_N now) /\
    headersSet reply =
      [("OData-Version", "4.0");
       ("Content-Type", "multipart/mixed; boundary=" ++ boundary)] /\
    hd "" (split (sent reply) CRLF) = "--" ++ boundary /\
    last (split (sent reply) CRLF) "" = "--" ++ boundary ++ "--".
Proof.
  unfold handleBatch. intros H.
  destruct (processBatchRequest getData req now) as [r|e] eqn:P;
    cbn [bind] in H; [| discriminate].
  injection H as <-. cbn [headersSet sent].
  apply processBatchRequest_success in P
    as (p & response & count & d & _ & _ & _ & _ & _ & ->).
  exists ("batch_" ++ decimal (Z.of_N now)).
  rewrite (responseBody_lines _ _ _ (JSON_stringify_lacks_CR d)).
  repeat split.
Qed.

End Handlers.

Lemma handleBatch_announces_its_boundary_witness :
  exists boundary,
    boundary = "batch_" ++ decimal (Z.of_N happyNow) /\
    headersSet happyReply =
      [("OData-Version", "4.0");
       ("Content-Type", "multipart/mixed; boundary=" ++ boundary)] /\
    hd "" (split (sent happyReply) CRLF) = "--" ++ boundary /\
    last (split (sent happyReply) CRLF) "" = "--" ++ boundary ++ "--".
Proof.
  apply (handleBatch_announces_its_boundary
           (fun _ _ => Ok (Some {| data := VObj happyData |}))
           happyRequest happyNow happyReply).
  reflexivity.
Defined.

Section Client.

Variable destinationName : string.
Variable getDestination : Request -> result (option string).
Variable executeHttpRequest : string -> list (string * string) -> HttpOutcome.
Variable parseStringPromise : string -> result Xml.node.
Variable buildObject : Xml.node -> string.

Lemma includes_after_slash (s : string) :
  includes (String "/" s) "$metadata" = includes s "$metadata".
Proof. reflexivity. Qed.

(** X24.  The handler of the GET route, for a request whose path is the
    slash and the joined parameters.  When the path has no [$metadata] in
    it, the handler sets no header itself and hands the data of the backend
    to [res.send] as it is; when it has, the handler sets [Content-Type]
    with the value [text/xml] and hands over the text that [cleanXML] made
    of the data.  The test for the content type, on the joined parameters,
    and the test for the cleaning, on [req.path], agree. *)
Theorem getDataHandler_reply
    (req : Request) (params : list string) (url : string) (response : HttpResponse) :
  path req = "/" ++ join "/" params ->
  truthy (join "/" params) = true ->
  getDestination req = Ok (Some url) -> truthy url = true ->
  executeHttpRequest (url ++ join "/" params) (query req) = Resolved response ->
  (includes (join "/" params) "$metadata" = false ->
   getDataHandler
     (Backend.getData destinationName getDestination executeHttpRequest
        parseStringPromise buildObject) params req =
   Ok {| headersSet := []; sent := data response |}) /\
  (forall cleaned,
      includes (join "/" params) "$metadata" = true ->
      cleanResponseData parseStringPromise buildObject (data response) = Ok cleaned ->
      getDataHandler
        (Backend.getData destinationName getDestination executeHttpRequest
           parseStringPromise buildObject) params req =
      Ok {| headersSet := [("Content-Type", "text/xml")]; sent := VStr cleaned |}).
Proof.
  intros Hpath Hp Hd Hu Hx.
  assert (Hinc : includes (path req) "$metadata" = includes (join "/" params) "$metadata").
  { rewrite Hpath. apply includes_after_slash. }
  split.
  - intros Hm. unfold getDataHandler, validateAndProcessPath.
    rewrite Hp, Hm. cbn [negb bind].
    rewrite (getData_resolved destinationName getDestination executeHttpRequest
               parseStringPromise buildObject _ _ _ Hd Hu).
    rewrite Hx, Hinc, Hm. reflexivity.
  - intros cleaned Hm Hc. unfold getDataHandler, validateAndProcessPath.
    rewrite Hp, Hm. cbn [negb bind].
    rewrite (getData_resolved destinationName getDestination executeHttpRequest
               parseStringPromise buildObject _ _ _ Hd Hu).
    rewrite Hx, Hinc, Hm, Hc. reflexivity.
Qed.

End Client.

Lemma getDataHandler_reply_witness :
  getDataHandler
    (Backend.getData "datasphere" (fun _ => Ok (Some "https://dsp.example/"))
       (fun _ _ => Resolved {| data := VStr obsoleteXml |})
       obsoleteParse obsoleteBuild) ["Sales_Demo"; "$metadata"] metadataRequest =
  Ok {| headersSet := [("Content-Type", "text/xml")]; sent := VStr obsoleteBuilt |}.
Proof.
  apply (proj2 (getDataHandler_reply "datasphere"
                  (fun _ => Ok (Some "https://dsp.example/"))
                  (fun _ _ => Resolved {| data := VStr obsoleteXml |})
                  obsoleteParse obsoleteBuild
                  metadataRequest ["Sales_Demo"; "$metadata"] "https://dsp.example/"
                  {| data := VStr obsoleteXml |}
                  eq_refl eq_refl eq_refl eq_refl eq_refl));
    reflexivity.
Defined.

End HandlerProps.

(** ** The configuration *)

Module EnvProps.
Import Js JsFacts JsValue ServiceProps Env.

Lemma takeDigits_digits (d : Decimal.uint) (rest : string) :
  takeDigits rest = "" ->
  takeDigits (NilEmpty.string_of_uint d ++ rest) = NilEmpty.string_of_uint d.
Proof.
  intros H. induction d; cbn [NilEmpty.string_of_uint append]; [exact H | ..];
    cbn [takeDigits]; (replace (isDigit _) with true by reflexivity);
    now rewrite IHd.
Qed.

Lemma parseInt_digits (d : Decimal.uint) (rest : string) :
  d <> Decimal.Nil -> takeDigits rest = "" ->
  parseInt (NilEmpty.string_of_uint d ++ rest) = Num (Z.of_uint d).
Proof.
  intros Hd Hrest. unfold parseInt.
  pose proof (takeDigits_digits d rest Hrest) as Htake.
  pose proof (NilEmpty.usu d) as Hparse.
  destruct d; try contradiction; cbn [NilEmpty.string_of_uint append] in *;
    (rewrite trimStart_keeps by reflexivity);
    cbn [Ascii.eqb Bool.eqb]; rewrite Htake; unfold digitsValue;
    now rewrite Hparse.
Qed.

Lemma parseInt_decimal (n : N) (rest : string) :
  takeDigits rest = "" ->
  parseInt (decimal (Z.of_N n) ++ rest) = Num (Z.of_N n).
Proof.
  intros Hrest. unfold decimal. destruct n as [|p].
  - apply (parseInt_digits (Decimal.D0 Decimal.Nil) rest); [discriminate | exact Hrest].
  - cbn [Z.of_N Z.to_int NilZero.string_of_int].
    pose proof (DecimalPos.Unsigned.to_uint_nonnil p) as Hnn.
    rewrite NilZero_string_of_uint_nonnil, parseInt_digits by assumption.
    unfold Z.of_uint. now rewrite DecimalPos.Unsigned.of_to.
Qed.

(** X25.  [parseNumericEnv] gives the default for a variable that is not
    set, is empty, or does not start (after white space and a sign) with a
    digit; for a variable that starts with the decimal text of a number below
    2^53 it gives that number, whatever follows the digits; and with a
    default that is a number its result is never [NaN], so the port and the
    timeout of the configuration are numbers, 3002 and 180000 when nothing is
    set. *)
Theorem parseNumericEnv_reads_leading_digits :
  (forall value defaultValue,
      isNaN defaultValue = false ->
      isNaN (parseNumericEnv value defaultValue) = false) /\
  (forall (n : N) (rest : string) defaultValue,
      (n < 2 ^ 53)%N -> takeDigits rest = "" ->
      parseNumericEnv (Some (decimal (Z.of_N n) ++ rest)) defaultValue
      = Num (Z.of_N n)) /\
  (forall s defaultValue,
      parseInt s = NaN -> parseNumericEnv (Some s) defaultValue = defaultValue) /\
  (forall defaultValue,
      parseNumericEnv None defaultValue = defaultValue /\
      parseNumericEnv (Some "") defaultValue = defaultValue) /\
  (forall PORT SERVER_TIMEOUT,
      isNaN (port (server PORT SERVER_TIMEOUT)) = false /\
      isNaN (timeout (server PORT SERVER_TIMEOUT)) = false) /\
  server None None = {| port := Num 3002; timeout := Num 180000 |}.
Proof.
  assert (Hnan : forall value defaultValue,
             isNaN defaultValue = false ->
             isNaN (parseNumericEnv value defaultValue) = false).
  { intros [s|] d Hd; [| exact Hd]. unfold parseNumericEnv.
    destruct (truthy s); cbn [negb]; [| exact Hd].
    destruct (parseInt s); cbn [isNaN]; [exact Hd | reflexivity]. }
  split; [exact Hnan |]. split; [| split; [| split; [| split]]].
  - intros n rest d _ Hrest. unfold parseNumericEnv.
    rewrite (parseInt_decimal _ _ Hrest). cbn [isNaN].
    destruct (truthy (decimal (Z.of_N n) ++ rest)) eqn:T; [reflexivity |].
    apply truthy_empty in T.
    pose proof (parseInt_decimal n rest Hrest) as P. rewrite T in P. discriminate.
  - intros s d H. unfold parseNumericEnv. rewrite H. cbn [isNaN].
    now destruct (truthy s).
  - intros d. split; reflexivity.
  - intros PORT SERVER_TIMEOUT. split; now apply Hnan.
  - reflexivity.
Qed.

Lemma parseNumericEnv_reads_leading_digits_witness :
  parseNumericEnv (Some (decimal (Z.of_N 8080) ++ "abc")) (Num 3002) = Num 8080.
Proof.
  apply (proj1 (proj2 parseNumericEnv_reads_leading_digits) 8080%N "abc" (Num 3002));
    reflexivity.
Defined.

End EnvProps.

(** ** The count and the answer to a failure *)

Module CountProps.
Import Js JsFacts JsValue Errors ErrorMiddleware Batch Service Backend
       ServiceProps BackendProps Samples.

Lemma orZero_number (n : number) : isNaN (orZero n) = false.
Proof. destruct n as [|z]; [reflexivity |]. unfold orZero. now destruct (numTruthy (Num z)). Qed.

(** X26.  The pagination step never fails: [Number(x) || 0] is a number
    for every value of [$skip] and [$top], absent, empty or no number at all,
    so the guard on [NaN] never fires and the error [Invalid pagination
    parameters] is never thrown. *)
Theorem paginationCount_never_throws (q : list (string * string)) :
  (forall e, paginationCount q <> Throw e) /\
  (forall skip top, paginationGuard q (orZero skip) (orZero top) = Ok tt).
Proof.
  assert (G : forall skip top, paginationGuard q (orZero skip) (orZero top) = Ok tt).
  { intros skip top. unfold paginationGuard. now rewrite !orZero_number. }
  split; [| exact G].
  intros e. unfold paginationCount. rewrite G. discriminate.
Qed.

Lemma getField_setField_same (fields : list (string * value)) (k : string) (v : value) :
  getField (setField fields k v) k = Some v.
Proof.
  induction fields as [|[k0 v0] fields IH]; cbn [setField getField].
  - now rewrite String.eqb_refl.
  - destruct (String.eqb k0 k) eqn:E; cbn [getField]; now rewrite E.
Qed.

Lemma getField_setField_other (fields : list (string * value)) (k k' : string)
    (v : value) :
  k' <> k -> getField (setField fields k v) k' = getField fields k'.
Proof.
  intros Hk. induction fields as [|[k0 v0] fields IH]; cbn [setField getField].
  - destruct (String.eqb k k') eqn:E; [| reflexivity].
    apply String.eqb_eq in E. congruence.
  - destruct (String.eqb k0 k) eqn:E; cbn [getField]; [| now rewrite IH].
    apply String.eqb_eq in E. subst k0.
    destruct (String.eqb k k') eqn:E'; [| reflexivity].
    apply String.eqb_eq in E'. congruence.
Qed.

Lemma setField_keys (fields : list (string * value)) (k : string) (v : value) :
  map fst (setField fields k v) =
  if existsb (fun kv => String.eqb (fst kv) k) fields
  then map fst fields else (map fst fields ++ [k])%list.
Proof.
  induction fields as [|[k0 v0] fields IH]; [reflexivity |].
  cbn [setField existsb fst]. destruct (String.eqb k0 k) eqn:E; [reflexivity |].
  cbn [map fst orb]. rewrite IH.
  now destruct (existsb (fun kv => String.eqb (fst kv) k) fields).
Qed.

(** X27.  On an object the count is set as the field [@odata.count]: the
    field then holds the count, in the place of an earlier field of that
    name or else behind the last field, and every other field keeps its
    value and its place.  On an array the assignment leaves the elements as
    they are, so that the text printed for it has no count; on any other
    value it throws an error that is no [BaseError]. *)
Theorem setCount_by_shape (count : number) :
  (forall fields,
      exists fields',
        setCount (VObj fields) count = Ok (VObj fields') /\
        getField fields' "@odata.count" = Some (VNum count) /\
        (forall k, k <> "@odata.count" -> getField fields' k = getField fields k) /\
        map fst fields' =
          if existsb (fun kv => String.eqb (fst kv) "@odata.count") fields
          then map fst fields else (map fst fields ++ ["@odata.count"])%list) /\
  (forall items, setCount (VArr items) count = Ok (VArr items)) /\
  (forall d, (forall fields, d <> VObj fields) -> (forall items, d <> VArr items) ->
             exists e, setCount d count = Throw e /\ isBaseError e = false).
Proof.
  split; [| split].
  - intros fields. eexists. split; [reflexivity |].
    split; [apply getField_setField_same |].
    split; [intros k Hk; now apply getField_setField_other | apply setField_keys].
  - intros items. reflexivity.
  - intros d Ho Ha. destruct d; cbn [setCount]; try (eexists; split; reflexivity).
    + now destruct (Ha items).
    + now destruct (Ho fields).
Qed.

Section Client.

Variable destinationName : string.
Variable getDestination : Request -> result (option string).
Variable executeHttpRequest : string -> list (string * string) -> HttpOutcome.
Variable parseStringPromise : string -> result Xml.node.
Variable buildObject : Xml.node -> string.

Lemma originalErrorOf_truthy (msg : string) (responseMessage : option ContextValue) :
  truthy msg = true -> ctxTruthy (originalErrorOf msg responseMessage) = true.
Proof.
  intros H. unfold originalErrorOf. destruct responseMessage as [v|]; [| exact H].
  destruct (ctxTruthy v) eqn:E; [exact E | exact H].
Qed.

(** X28.  What the client of the application is told after a failure of
    the HTTP client that is an [AxiosError] with a message: the status 500,
    the code 500, and as message the message of the backend response when it
    has one, else the message of the [AxiosError]; the message of the error
    that [getData] throws is not sent. *)
Theorem getData_failure_answer
    (req : Request) (path_ url msg : string) (backendMessage : option ContextValue) :
  getDestination req = Ok (Some url) -> truthy url = true ->
  executeHttpRequest (url ++ path_) (query req)
    = Rejected (AxiosError msg backendMessage) ->
  truthy msg = true ->
  exists e,
    Backend.getData destinationName getDestination executeHttpRequest
      parseStringPromise buildObject req path_ = Throw e /\
    errorHandler e =
      {| status := 500;
         json := {| code := "500";
                    bodyMessage := originalErrorOf msg backendMessage |} |}.
Proof.
  intros Hd Hu Hx Hm.
  rewrite (getData_resolved _ _ _ _ _ _ _ _ Hd Hu), Hx.
  pose proof (originalErrorOf_truthy msg backendMessage Hm) as Ht.
  unfold mapAxiosError.
  destruct (includes msg "timeout");
    [| destruct (includes msg "network");
       [| destruct (includes msg "401" || includes msg "403");
          [| destruct (includes msg "404");
             [| destruct (includes (path req) "$metadata")]]]];
    eexists; (split; [reflexivity |]);
    unfold errorHandler, responseMessage; cbn; now rewrite Ht.
Qed.

End Client.

Lemma getData_failure_answer_witness :
  exists e,
    Backend.getData "datasphere" (fun _ => Ok (Some "https://dsp.example"))
      (fun _ _ => Rejected (AxiosError "timeout of 1000ms exceeded" None))
      (fun _ => Throw (newError "unused")) (fun _ => "")
      happyRequest "/Sales_Demo/Items" = Throw e /\
    errorHandler e =
      {| status := 500;
         json := {| code := "500";
                    bodyMessage := CtxString "timeout of 1000ms exceeded" |} |}.
Proof.
  apply (getData_failure_answer "datasphere" (fun _ => Ok (Some "https://dsp.example"))
           (fun _ _ => Rejected (AxiosError "timeout of 1000ms exceeded" None))
           (fun _ => Throw (newError "unused")) (fun _ => "")
           happyRequest "/Sales_Demo/Items" "https://dsp.example"
           "timeout of 1000ms exceeded" None); reflexivity.
Defined.

End CountProps.

(** ** The response of the middleware module *)

Module TransformProps.
Import Js JsFacts JsMore JsValue Service Env BatchTransform Samples.

Lemma takeDigits_split (s : string) :
  s = takeDigits s ++ dropN (String.length (takeDigits s)) s.
Proof.
  induction s as [|c s IH]; [reflexivity |].
  cbn [takeDigits]. destruct (isDigit c); [| reflexivity].
  cbn [String.length dropN append]. now rewrite <- IH.
Qed.

Lemma takeDigits_twice (s : string) : takeDigits (takeDigits s) = takeDigits s.
Proof.
  induction s as [|c s IH]; [reflexivity |].
  cbn [takeDigits]. destruct (isDigit c) eqn:E; [| reflexivity].
  cbn [takeDigits]. now rewrite E, IH.
Qed.

Lemma takeDigits_app (d r : string) :
  takeDigits d = d -> takeDigits r = "" -> takeDigits (d ++ r) = d.
Proof.
  intros Hd Hr. induction d as [|c d IH]; [exact Hr |].
  cbn [takeDigits append] in *. destruct (isDigit c); [| discriminate].
  injection Hd as Hd. now rewrite (IH Hd).
Qed.

Lemma dropN_app (a r : string) : dropN (String.length a) (a ++ r) = r.
Proof.
  induction a as [|c a IH]; [apply dropN_zero | exact IH].
Qed.

Lemma prefix_app_same (a p s : string) :
  String.prefix (a ++ p) (a ++ s) = String.prefix p s.
Proof.
  induction a as [|c a IH]; [reflexivity |].
  cbn [append String.prefix]. now destruct (ascii_dec c c).
Qed.

Lemma digits_parts (d : string) :
  digits d = true -> truthy d = true /\ takeDigits d = d.
Proof.
  unfold digits. intros H. apply andb_true_iff in H as [H1 H2].
  apply String.eqb_eq in H2. now split.
Qed.

Lemma matchBatchId_marker (first second post : string) :
  digits first = true -> digits second = true ->
  matchBatchId (batchIdOpen ++ first ++ "-" ++ second ++ "--" ++ post) = Some first.
Proof.
  intros H1 H2. apply digits_parts in H1 as [T1 D1]. apply digits_parts in H2 as [T2 D2].
  unfold matchBatchId. rewrite prefix_refl_app, dropN_app.
  rewrite (takeDigits_app first ("-" ++ second ++ "--" ++ post) D1 eq_refl).
  rewrite dropN_app, T1.
  rewrite (prefix_refl_app "-"). cbn [andb].
  change 1 with (String.length "-"). rewrite dropN_app.
  rewrite (takeDigits_app second ("--" ++ post) D2 eq_refl), dropN_app, T2.
  now rewrite (prefix_refl_app "--").
Qed.

Lemma matchBatchId_shape (s first : string) :
  matchBatchId s = Some first ->
  exists second post,
    s = batchIdOpen ++ first ++ "-" ++ second ++ "--" ++ post /\
    digits first = true /\ digits second = true.
Proof.
  unfold matchBatchId.
  destruct (String.prefix batchIdOpen s) eqn:P; [| discriminate].
  apply prefix_decompose in P.
  set (rest := dropN (String.length batchIdOpen) s) in *.
  set (d1 := takeDigits rest).
  set (rest1 := dropN (String.length d1) rest).
  destruct (truthy d1) eqn:T1; [| discriminate].
  destruct (String.prefix "-" rest1) eqn:P1; [| discriminate].
  cbn [andb]. apply prefix_decompose in P1.
  set (rest2 := dropN 1 rest1) in *.
  set (d2 := takeDigits rest2).
  destruct (truthy d2) eqn:T2; [| discriminate].
  destruct (String.prefix "--" (dropN (String.length d2) rest2)) eqn:P2;
    [| discriminate].
  cbn [andb]. intros [= <-]. apply prefix_decompose in P2.
  exists d2, (dropN (String.length "--") (dropN (String.length d2) rest2)).
  split; [| split].
  - rewrite P at 1. f_equal.
    rewrite (takeDigits_split rest) at 1. fold d1. f_equal. fold rest1.
    rewrite P1 at 1. change (String.length "-") with 1. fold rest2.
    change ("-" ++ rest2) with (String "-" rest2).
    change ("-" ++ d2 ++ "--" ++
            dropN (String.length "--") (dropN (String.length d2) rest2))
      with (String "-" (d2 ++ "--" ++
            dropN (String.length "--") (dropN (String.length d2) rest2))).
    f_equal. rewrite (takeDigits_split rest2) at 1. fold d2. f_equal. exact P2.
  - unfold digits. rewrite T1. unfold d1. now rewrite takeDigits_twice, String.eqb_refl.
  - unfold digits. rewrite T2. unfold d2. now rewrite takeDigits_twice, String.eqb_refl.
Qed.

Lemma searchBatchId_found (pre s first : string) :
  matchBatchId s = Some first -> exists d, searchBatchId (pre ++ s) = Some d.
Proof.
  intros H. induction pre as [|c pre [d IH]].
  - exists first. destruct s; cbn [append searchBatchId]; now rewrite H.
  - cbn [append searchBatchId].
    destruct (matchBatchId (String c (pre ++ s))) as [d'|]; eauto.
Qed.

Lemma searchBatchId_shape (s first : string) :
  searchBatchId s = Some first ->
  exists pre s', s = pre ++ s' /\ matchBatchId s' = Some first.
Proof.
  induction s as [|c s IH]; cbn [searchBatchId].
  - destruct (matchBatchId "") eqn:M; [| discriminate].
    intros [= <-]. now exists "", "".
  - destruct (matchBatchId (String c s)) as [d|] eqn:M.
    + intros [= <-]. now exists "", (String c s).
    + intros H. destruct (IH H) as (pre & s' & -> & M').
      now exists (String c pre), s'.
Qed.

Lemma responseBodyOf_ends (batchId data : string) :
  startsWith (responseBodyOf batchId data) (("--" ++ batchId ++ "--") ++ lineFeed) = true /\
  exists middle,
    responseBodyOf batchId data = middle ++ lineFeed ++ ("--" ++ batchId ++ "--").
Proof.
  unfold responseBodyOf. split.
  - unfold startsWith. rewrite <- (append_assoc _ lineFeed). apply prefix_refl_app.
  - exists (("--" ++ batchId ++ "--") ++ lineFeed
            ++ "Content-Type:application/http" ++ lineFeed
            ++ "OData-Version: 4.0" ++ lineFeed
            ++ CRLF ++ CRLF ++ lineFeed
            ++ "HTTP/1.1 200 OK" ++ lineFeed
            ++ "OData-Version: 4.0" ++ lineFeed
            ++ "Content-Type: application/json;odata.metadata=minimal"
            ++ String " " (String NBSP (String " " "")) ++ lineFeed
            ++ "Content-Length: " ++ decimal (Z.of_nat (String.length data))
            ++ lineFeed
            ++ CRLF ++ CRLF ++ lineFeed
            ++ data ++ lineFeed).
    rewrite !append_assoc. reflexivity.
Qed.

(** X29.  The [transformBatchResponse] of the middleware module builds a
    response exactly when the request body holds a terminal marker of the
    form [--batch_id-], digits, a hyphen, digits and two hyphens; else it
    throws with the status 400.  The id of the response is [batch_], the time
    in milliseconds, a hyphen and the first run of digits of such a marker,
    and the body of the response starts and ends with that id between two
    pairs of hyphens. *)
Theorem transformBatchResponse_needs_terminal_marker
    (requestBody data : string) (now : N) :
  ((exists r, transformBatchResponse requestBody data now = Built r) <->
   (exists pre first second post,
       requestBody = pre ++ batchIdOpen ++ first ++ "-" ++ second ++ "--" ++ post /\
       digits first = true /\ digits second = true)) /\
  (forall status message,
      transformBatchResponse requestBody data now = Invalid status message ->
      status = 400%Z /\ message = "Invalid batch ID format in request body") /\
  (forall r,
      transformBatchResponse requestBody data now = Built r ->
      exists pre first second post,
        requestBody = pre ++ batchIdOpen ++ first ++ "-" ++ second ++ "--" ++ post /\
        digits first = true /\ digits second = true /\
        id r = "batch_" ++ decimal (Z.of_N now) ++ "-" ++ first /\
        startsWith (responseBody r) (("--" ++ id r ++ "--") ++ lineFeed) = true /\
        exists middle, responseBody r = middle ++ lineFeed ++ ("--" ++ id r ++ "--")).
Proof.
  unfold transformBatchResponse. split; [| split].
  - split.
    + intros [r H]. destruct (searchBatchId requestBody) as [first|] eqn:S;
        [| discriminate].
      apply searchBatchId_shape in S as (pre & s' & -> & M).
      apply matchBatchId_shape in M as (second & post & -> & D1 & D2).
      now exists pre, first, second, post.
    + intros (pre & first & second & post & -> & D1 & D2).
      destruct (searchBatchId_found pre _ _ (matchBatchId_marker first second post D1 D2))
        as [d ->].
      eauto.
  - intros status message. destruct (searchBatchId requestBody); [discriminate |].
    now intros [= <- <-].
  - intros r. destruct (searchBatchId requestBody) as [first|] eqn:S;
      [| discriminate].
    intros H. assert (R : r = {| id := batchIdString now first;
                                 responseBody := responseBodyOf (batchIdString now first) data |})
      by congruence.
    subst r. cbn [id responseBody].
    apply searchBatchId_shape in S as (pre & s' & -> & M).
    apply matchBatchId_shape in M as (second & post & -> & D1 & D2).
    exists pre, first, second, post.
    split; [reflexivity |]. split; [exact D1 |]. split; [exact D2 |].
    split; [reflexivity |]. apply responseBodyOf_ends.
Qed.

Lemma transformBatchResponse_needs_terminal_marker_witness :
  exists pre first second post,
    happyBody = pre ++ batchIdOpen ++ first ++ "-" ++ second ++ "--" ++ post /\
    digits first = true /\ digits second = true /\
    id markedResponse = "batch_" ++ decimal (Z.of_N happyNow) ++ "-" ++ first /\
    startsWith (responseBody markedResponse)
      (("--" ++ id markedResponse ++ "--") ++ lineFeed) = true /\
    exists middle,
      responseBody markedResponse =
      middle ++ lineFeed ++ ("--" ++ id markedResponse ++ "--").
Proof.
  apply (proj2 (proj2 (transformBatchResponse_needs_terminal_marker
                         happyBody "{}" happyNow)) markedResponse).
  reflexivity.
Defined.

End TransformProps.

(** ** The removal of the key properties *)

Module KeyProps.
Import Js JsFacts JsMore Errors Xml XmlProps TextProps Samples.


Section Library.

Variable parse : string -> result node.


End Library.


End KeyProps.
